(** * Stagehand: the extraction handler and the two chat-completion clients

    A shallow embedding of

    - [src/lib/handlers/extractHandler.ts] ([StagehandExtractHandler.extract]),
    - [src/lib/llm/AnthropicClient.ts] ([AnthropicClient.createChatCompletion]
      and [OpenAIClient.createChatCompletion]),

    followed by the properties of the specification stated over it.

    Conventions.  A JavaScript [number] is an IEEE-754 binary64 value: Rocq's
    primitive [float], whose [+] and [/] round exactly as JavaScript's do.
    An [async] function is a state-and-exception computation over an explicit
    world; [await] is sequencing.  Collaborators whose code lies outside the
    embedded files (the in-page scripts, the vendor SDKs, the inference call)
    are fields of an environment record, so every theorem quantifies over
    their behaviour. *)

From Stdlib Require Import ZArith Lia.
From Stdlib Require Import Floats.PrimFloat Floats.SpecFloat Floats.FloatOps.
From Stdlib Require Import Floats.FloatAxioms.
From stdpp Require Import base option list gmap strings pretty.
From Equations.Prop Require Import Equations Logic.

Set Default Proof Using "Type".
Set Warnings "-inexact-float".
Open Scope string_scope.
Open Scope list_scope.

(* ------------------------------------------------------------------------- *)
(** ** Computations that may throw *)

(** What a rejected promise or a [throw] carries, tagged by where it arose. *)
Inductive Error :=
| EvaluateError (reason : string)   (* [page.evaluate] rejected *)
| InferenceError (reason : string)  (* the call into [../inference] rejected *)
| VendorError (reason : string)     (* the vendor SDK call rejected *)
| SyntaxError (reason : string)     (* [JSON.parse] threw *)
| TypeError (reason : string)       (* a property read off [undefined] *)
| JsError (message : string).       (* [throw new Error(message)] *)

(** The answer of an external collaborator: a value, or a rejection with its
    reason. *)
Inductive Reply (A : Type) :=
| Fulfilled (a : A)
| Rejected (reason : string).
Arguments Fulfilled {A} a.
Arguments Rejected {A} reason.

Inductive Outcome (A : Type) :=
| Returned (a : A)
| Thrown (e : Error).
Arguments Returned {A} a.
Arguments Thrown {A} e.

(** An effectful computation over the world [W]. *)
Definition Eff (W A : Type) : Type := W → Outcome A * W.

#[global] Instance Eff_ret {W} : MRet (Eff W) :=
  λ A a w, (Returned a, w).

#[global] Instance Eff_bind {W} : MBind (Eff W) :=
  λ A B k m w,
    match m w with
    | (Returned a, w') => k a w'
    | (Thrown e, w') => (Thrown e, w')
    end.

(** [throw e] *)
Definition throw {W A} (e : Error) : Eff W A := λ w, (Thrown e, w).

(** Read, respectively update, the world. *)
Definition gets {W A} (f : W → A) : Eff W A := λ w, (Returned (f w), w).
Definition modify {W} (f : W → W) : Eff W unit := λ w, (Returned tt, f w).

(** [for (const x of xs) body], threading the loop-carried state [s]. *)
Fixpoint forOf {W A S} (xs : list A) (body : A → S → Eff W S) (s : S) : Eff W S :=
  match xs with
  | [] => mret s
  | x :: xs' => s' ← body x s; forOf xs' body s'
  end.

(* ------------------------------------------------------------------------- *)
(** ** Numbers as [JSON.stringify] prints them *)

Module JSON.

(** The text [JSON.stringify] gives a number determines, and is determined by,
    one of these: [NaN] and the infinities print as [null], both zeros print as
    [0], and a finite non-zero double prints as its shortest round-trip
    decimal, which identifies sign, mantissa and exponent. *)
Inductive Number :=
| Null
| Zero
| Finite (sign : bool) (mantissa : positive) (exponent : Z).

#[global] Instance Number_eq_dec : EqDecision Number.
Proof. solve_decision. Defined.

#[global] Instance Number_countable : Countable Number :=
  inj_countable'
    (λ n, match n with
          | Null => inl ()
          | Zero => inr (inl ())
          | Finite s m e => inr (inr (s, m, e))
          end)
    (λ c, match c with
          | inl _ => Null
          | inr (inl _) => Zero
          | inr (inr (s, m, e)) => Finite s m e
          end)
    (λ n, match n with Null | Zero | Finite _ _ _ => eq_refl end).

Definition ofNumber (n : float) : Number :=
  match Prim2SF n with
  | S754_nan | S754_infinity _ => Null
  | S754_zero _ => Zero
  | S754_finite s m e => Finite s m e
  end.

(** What that means for two numbers: they print alike when they are equal as
    numbers ([===], under which the two zeros are one number) or when neither
    is finite. *)
Definition sameNumber (x y : float) : bool :=
  (x =? y)%float || negb (is_finite x) && negb (is_finite y).

End JSON.

(* ------------------------------------------------------------------------- *)
(** ** Shared vocabulary *)

(** A JSON value that this code only passes along, held as its text. *)
Definition JsonText := string.

(** A plain object: its own enumerable properties in enumeration order. *)
Definition JsonObject := list (string * JsonText).

(** [types/log]: a record handed to the logger.  Auxiliary entries of type
    ["string"] are kept; entries of type ["object"] (JSON dumps of values
    already in the model) are elided. *)
Record LogLine := {
  category : string;
  message : string;
  level : option Z;
  auxiliary : list (string * option string) }.

Module Zod.

(** A zod schema is opaque to this code.  The only thing read off it is the
    result of the library call [zodToJsonSchema], of which the clients look at
    [definitions.MySchema] and at the top-level [properties]/[required]. *)
Record JsonSchemaObject := {
  properties : option JsonText;
  required : option (list string) }.

Record JsonSchema := {
  definitions_MySchema : option JsonSchemaObject;
  root : JsonSchemaObject }.

Record Schema := { zodToJsonSchema : JsonSchema }.

#[global] Instance JsonSchemaObject_eq_dec : EqDecision JsonSchemaObject.
Proof. solve_decision. Defined.
#[global] Instance JsonSchema_eq_dec : EqDecision JsonSchema.
Proof. solve_decision. Defined.
#[global] Instance Schema_eq_dec : EqDecision Schema.
Proof. solve_decision. Defined.

End Zod.

(* ------------------------------------------------------------------------- *)
(** ** [src/lib/handlers/extractHandler.ts] *)

Module BoundingBox.
(** The element type of what [window.getElementBoundingBoxes] returns. *)
Record t := mk {
  text : string;
  left : float;
  top : float;
  width : float;
  height : float }.
End BoundingBox.

Module Point.
Record t := mk { x : float; y : float }.
End Point.

Module TextAnnotation.
(** [types]: [TextAnnotation]. *)
Record t := mk {
  text : string;
  midpoint : Point.t;
  midpoint_normalized : Point.t;
  width : float;
  height : float }.
End TextAnnotation.

Module ViewportSize.
(** What [page.viewportSize()] returns. *)
Record t := mk { width : float; height : float }.
End ViewportSize.

Module ExtractHandler.

(** [selectorMap : Record<number, string[]>], in the order [Object.values]
    enumerates it. *)
Definition SelectorMap := list (N * list string).

Definition Object_values (selectorMap : SelectorMap) : list (list string) :=
  selectorMap.*2.

Definition Object_keys (selectorMap : SelectorMap) : list N :=
  selectorMap.*1.

(** [annotationKey]: the object handed to [JSON.stringify] at lines 114-120.
    The serialisation prints the five properties in this fixed order, a string
    injectively and a number as [JSON.ofNumber] says, so two keys are the same
    string exactly when these records are equal. *)
Record AnnotationKey := {
  key_text : string;
  key_x : JSON.Number;
  key_y : JSON.Number;
  key_width : JSON.Number;
  key_height : JSON.Number }.

#[global] Instance AnnotationKey_eq_dec : EqDecision AnnotationKey.
Proof. solve_decision. Defined.

#[global] Instance AnnotationKey_countable : Countable AnnotationKey :=
  inj_countable'
    (λ k, (key_text k, key_x k, key_y k, key_width k, key_height k))
    (λ '(t, x, y, w, h),
       {| key_text := t; key_x := x; key_y := y; key_width := w; key_height := h |})
    (λ k, match k with Build_AnnotationKey _ _ _ _ _ => eq_refl end).

Definition annotationKey (box : BoundingBox.t) : AnnotationKey :=
  {| key_text := BoundingBox.text box;
     key_x := JSON.ofNumber (BoundingBox.left box + BoundingBox.width box / 2);
     key_y := JSON.ofNumber (BoundingBox.top box + BoundingBox.height box / 2);
     key_width := JSON.ofNumber (BoundingBox.width box);
     key_height := JSON.ofNumber (BoundingBox.height box) |}.

(** The object pushed onto [textAnnotations] at lines 124-136.  The second
    coordinate of [midpoint_normalized] is written
    [box.top + box.height / viewportSize().height]: the division binds tighter
    than the sum. *)
Definition textAnnotation (viewportSize : ViewportSize.t) (box : BoundingBox.t)
  : TextAnnotation.t :=
  {| TextAnnotation.text := BoundingBox.text box;
     TextAnnotation.midpoint :=
       {| Point.x := BoundingBox.left box;
          Point.y := BoundingBox.top box + BoundingBox.height box |};
     TextAnnotation.midpoint_normalized :=
       {| Point.x := BoundingBox.left box / ViewportSize.width viewportSize;
          Point.y := BoundingBox.top box
                     + BoundingBox.height box / ViewportSize.height viewportSize |};
     TextAnnotation.width := BoundingBox.width box;
     TextAnnotation.height := BoundingBox.height box |}.

(** The loop-carried state: [seenAnnotations] and [textAnnotations]. *)
Definition Collected : Type := gset AnnotationKey * list TextAnnotation.t.

(** Body of [for (const box of boundingBoxes)], lines 113-138. *)
Definition visitBox (viewportSize : ViewportSize.t) (acc : Collected)
  (box : BoundingBox.t) : Collected :=
  let '(seenAnnotations, textAnnotations) := acc in
  let annotationKey := annotationKey box in
  if bool_decide (annotationKey ∈ seenAnnotations) then acc
  else ({[annotationKey]} ∪ seenAnnotations,
        textAnnotations ++ [textAnnotation viewportSize box]).

Definition visitBoxes (viewportSize : ViewportSize.t)
  (boundingBoxes : list BoundingBox.t) (acc : Collected) : Collected :=
  fold_left (visitBox viewportSize) boundingBoxes acc.

(** Argument of [extract] of [../inference]; [llmProvider] is the handler's
    own and is part of the collaborator. *)
Record InferenceOptions := {
  inf_instruction : string;
  previouslyExtractedContent : JsonObject;
  domElements : string;
  inf_schema : Zod.Schema;
  inf_modelName : string;
  inf_requestId : option string }.

(** Its result: [{ metadata: { completed }, ...output }]. *)
Record ExtractionResponse := {
  metadata_completed : bool;
  output : JsonObject }.

(** The page as the handler can observe it, the exchanges it has had with the
    inference backend, and the log sink. *)
Record World := {
  DOM : string;          (* the live document *)
  domDebug : bool;       (* whether the debug instrumentation is active *)
  inferences : list (InferenceOptions * Reply ExtractionResponse);
  logs : list LogLine }.

Definition setDOM (d : string) (w : World) : World :=
  {| DOM := d; domDebug := domDebug w; inferences := inferences w; logs := logs w |}.
Definition setDomDebug (b : bool) (w : World) : World :=
  {| DOM := DOM w; domDebug := b; inferences := inferences w; logs := logs w |}.
Definition setInferences (l : list (InferenceOptions * Reply ExtractionResponse))
  (w : World) : World :=
  {| DOM := DOM w; domDebug := domDebug w; inferences := l; logs := logs w |}.
Definition setLogs (l : list LogLine) (w : World) : World :=
  {| DOM := DOM w; domDebug := domDebug w; inferences := inferences w; logs := l |}.

(** [this.logger(line)] *)
Definition logger (line : LogLine) : Eff World unit :=
  modify (λ w, setLogs (logs w ++ [line]) w).

(** A function of the in-page script: it reads the document, may change it,
    and answers or fails. *)
Definition Script (A : Type) : Type := string → Reply A * string.

(** [await this.stagehand.page.evaluate(script)] *)
Definition evaluate {A} (script : Script A) : Eff World A :=
  λ w,
    match script (DOM w) with
    | (Fulfilled a, d) => (Returned a, setDOM d w)
    | (Rejected reason, d) => (Thrown (EvaluateError reason), setDOM d w)
    end.

(** Modelled from the spec: [window.storeDOM], of the in-page script that is
    not part of these sources ("snapshot the current DOM verbatim for later
    restoration"; [storeDOM() -> string]). *)
Definition storeDOM : Script string :=
  λ d, (Fulfilled d, d).

(** Modelled from the spec: [window.restoreDOM], of the same script ("restore
    the DOM snapshot"; [restoreDOM(snapshot: string) -> void]). *)
Definition restoreDOM (snapshot : string) : Script unit :=
  λ _, (Fulfilled tt, snapshot).

(** The remaining functions of the in-page script, the inference call and the
    formatter: collaborators whose behaviour is left open. *)
Record Window := {
  processAllOfDom : Script SelectorMap;
  createTextBoundingBoxes : Script unit;
  getElementBoundingBoxes : option string → Script (list BoundingBox.t) }.

Record StagehandExtractHandler := {
  window : Window;
  viewportSize : ViewportSize.t;
  defaultModelName : string;
  inference : InferenceOptions → Reply ExtractionResponse;
  formatText : list TextAnnotation.t → string }.

(** Modelled from the spec: the injected callbacks [waitForSettledDom],
    [startDomDebug] and [cleanupDomDebug] ("wait for the DOM to reach a settled
    state"; "enter a scoped debug-instrumentation mode", to be "torn down").
    Waiting leaves the world as it is; the other two switch the
    instrumentation on and off. *)
Definition waitForSettledDom (domSettleTimeoutMs : option float) : Eff World unit :=
  mret tt.
Definition startDomDebug : Eff World unit := modify (setDomDebug true).
Definition cleanupDomDebug : Eff World unit := modify (setDomDebug false).

(** [await extract({...})] of [../inference]. *)
Definition inferenceExtract (this : StagehandExtractHandler)
  (options : InferenceOptions) : Eff World ExtractionResponse :=
  λ w,
    let reply := inference this options in
    let w' := setInferences (inferences w ++ [(options, reply)]) w in
    match reply with
    | Fulfilled response => (Returned response, w')
    | Rejected reason => (Thrown (InferenceError reason), w')
    end.

(** The parameter object of [extract]. *)
Record ExtractOptions := {
  instruction : string;
  schema : Zod.Schema;
  content : option JsonObject;
  modelName : option string;
  requestId : option string;
  domSettleTimeoutMs : option float }.

(** [modelName || this.defaultModelName] *)
Definition modelNameOr (modelName : option string) (defaultModelName : string) : string :=
  match modelName with
  | Some m => if bool_decide (m = "") then defaultModelName else m
  | None => defaultModelName
  end.

(** Lines 99-139: the loop over [Object.values(selectorMap)]. *)
Definition collectAnnotations (this : StagehandExtractHandler)
  (entries : list (list string)) (acc : Collected) : Eff World Collected :=
  forOf entries
    (λ xpaths acc,
       let xpath := head xpaths in
       boundingBoxes ← evaluate (getElementBoundingBoxes (window this) xpath);
       mret (visitBoxes (viewportSize this) boundingBoxes acc))
    acc.

(** [StagehandExtractHandler.extract], lines 54-196. *)
Definition extract (this : StagehandExtractHandler) (options : ExtractOptions)
  : Eff World JsonObject :=
  let content := default [] (content options) in
  _ ← logger {| category := "extraction"; message := "starting extraction";
                level := Some 1%Z;
                auxiliary := [("instruction", Some (instruction options))] |};
  _ ← waitForSettledDom (domSettleTimeoutMs options);
  _ ← startDomDebug;
  originalDOM ← evaluate storeDOM;
  selectorMap ← evaluate (processAllOfDom (window this));
  _ ← logger {| category := "extraction";
                message := "received output from processAllOfDom. selectorMap has "
                           +:+ pretty (length (Object_keys selectorMap))
                           +:+ " entries";
                level := None; auxiliary := [] |};
  _ ← evaluate (createTextBoundingBoxes (window this));
  collected ← collectAnnotations this (Object_values selectorMap) (∅, []);
  let textAnnotations := collected.2 in
  _ ← evaluate (restoreDOM originalDOM);
  let formattedText := formatText this textAnnotations in
  extractionResponse ← inferenceExtract this
    {| inf_instruction := instruction options;
       previouslyExtractedContent := content;
       domElements := formattedText;
       inf_schema := schema options;
       inf_modelName := modelNameOr (modelName options) (defaultModelName this);
       inf_requestId := requestId options |};
  let completed := metadata_completed extractionResponse in
  let output := output extractionResponse in
  _ ← cleanupDomDebug;
  _ ← logger {| category := "extraction"; message := "received extraction response";
                level := None; auxiliary := [] |};
  if completed then
    _ ← logger {| category := "extraction"; message := "got response";
                  level := None; auxiliary := [] |};
    mret output
  else
    throw (JsError "Extraction not completed").

(** *** The specification's reading of the annotation sequence *)

(** The boxes the page hands to the loop of lines 99-139, in the order the
    loop meets them, for as long as the evaluations succeed. *)
Fixpoint boundingBoxesOf (window : Window) (entries : list (list string))
  (dom : string) : list BoundingBox.t :=
  match entries with
  | [] => []
  | xpaths :: entries' =>
      match getElementBoundingBoxes window (head xpaths) dom with
      | (Fulfilled boundingBoxes, dom') =>
          boundingBoxes ++ boundingBoxesOf window entries' dom'
      | (Rejected _, _) => []
      end
  end.

(** In the spec's words: "two elements with identical text and identical
    geometry are collapsed into one annotation, insertion order of first
    occurrence preserved".  A box is kept, and every later box with its key is
    dropped. *)
Fixpoint firstOccurrences (boxes : list BoundingBox.t) : list BoundingBox.t :=
  match boxes with
  | [] => []
  | box :: boxes' =>
      box :: filter (λ box', annotationKey box' ≠ annotationKey box)
               (firstOccurrences boxes')
  end.

(** In the spec's words: "[midpointNormalized =
    (left/viewportWidth, (top+height)/viewportHeight)]". *)
Definition midpointNormalizedSpec (viewportSize : ViewportSize.t) (box : BoundingBox.t)
  : Point.t :=
  {| Point.x := BoundingBox.left box / ViewportSize.width viewportSize;
     Point.y := (BoundingBox.top box + BoundingBox.height box)
                / ViewportSize.height viewportSize |}.

End ExtractHandler.

(* ------------------------------------------------------------------------- *)
(** ** [./LLMClient] and [../cache/LLMCache]: what both clients share *)

Module LLM.

(** [ChatMessage]: a role and a content that is a string or an array of
    parts.  A text part is [{ type, text }]; an image part is
    [{ type: "image_url", image_url: { url }, text? }]. *)
Inductive Role := system | user | assistant.

Inductive ChatMessageContentPart :=
| ChatMessageTextContent (type : string) (text : string)
| ChatMessageImageContent (url : string) (text : option string).

Inductive ChatMessageContent :=
| ContentString (s : string)
| ContentArray (parts : list ChatMessageContentPart).

Record ChatMessage := { role : Role; content : ChatMessageContent }.

(** [content.type] *)
Definition partType (part : ChatMessageContentPart) : string :=
  match part with
  | ChatMessageTextContent type _ => type
  | ChatMessageImageContent _ _ => "image_url"
  end.

(** [options.image]: a buffer and an optional caption.  The buffer is held as
    its base64 text, [buffer.toString("base64")], the one view this code takes
    of it. *)
Record Image := { buffer : string; description : option string }.

(** [options.response_model] *)
Record ResponseModel := { name : string; schema : Zod.Schema }.

(** An element of [options.tools]: either [{ type: "function", function }] or
    an object already in the vendor's own format, which is passed through. *)
Record InputSchema := {
  schema_properties : option JsonText;
  schema_required : option (list string) }.

Record ToolFunction := {
  function_name : string;
  function_description : option string;
  function_parameters : InputSchema }.

Record VendorTool := {
  tool_name : string;
  tool_description : option string;
  input_schema : InputSchema }.

Inductive Tool :=
| FunctionTool (function : ToolFunction)
| OtherTool (tool : VendorTool).

(** [ChatCompletionOptions].  [messages] is a JavaScript array, that is, a
    reference: the options hold its address, the world holds its elements. *)
Definition loc := positive.

Record ChatCompletionOptions := {
  messages : loc;
  temperature : option float;
  top_p : option float;
  frequency_penalty : option float;
  presence_penalty : option float;
  image : option Image;
  response_model : option ResponseModel;
  tools : option (list Tool);
  maxTokens : option float;
  requestId : option string }.

(** [{ ...options, requestId }] *)
Definition withRequestId (requestId : option string) (options : ChatCompletionOptions)
  : ChatCompletionOptions :=
  {| messages := messages options;
     temperature := temperature options;
     top_p := top_p options;
     frequency_penalty := frequency_penalty options;
     presence_penalty := presence_penalty options;
     image := image options;
     response_model := response_model options;
     tools := tools options;
     maxTokens := maxTokens options;
     requestId := requestId |}.

(** ** The cache key

    The text [JSON.stringify] gives a [cacheOptions] object, as a record: a
    property whose value is [undefined] is not printed (here [None]), numbers
    print as [JSON.ofNumber] says, and an array prints the elements it has at
    the time of printing.  Both clients list the properties they share in the
    same relative order, so one record type serves both. *)
Record Fingerprint := {
  fp_model : string;
  fp_messages : list ChatMessage;
  fp_temperature : option JSON.Number;
  fp_top_p : option JSON.Number;
  fp_frequency_penalty : option JSON.Number;
  fp_presence_penalty : option JSON.Number;
  fp_image : option Image;
  fp_response_model : option ResponseModel;
  fp_tools : option (list Tool);
  fp_retries : option Z }.

#[global] Instance Role_eq_dec : EqDecision Role.
Proof. solve_decision. Defined.
#[global] Instance ChatMessageContentPart_eq_dec : EqDecision ChatMessageContentPart.
Proof. solve_decision. Defined.
#[global] Instance ChatMessageContent_eq_dec : EqDecision ChatMessageContent.
Proof. solve_decision. Defined.
#[global] Instance ChatMessage_eq_dec : EqDecision ChatMessage.
Proof. solve_decision. Defined.
#[global] Instance Image_eq_dec : EqDecision Image.
Proof. solve_decision. Defined.
#[global] Instance ResponseModel_eq_dec : EqDecision ResponseModel.
Proof. solve_decision. Defined.
#[global] Instance InputSchema_eq_dec : EqDecision InputSchema.
Proof. solve_decision. Defined.
#[global] Instance ToolFunction_eq_dec : EqDecision ToolFunction.
Proof. solve_decision. Defined.
#[global] Instance VendorTool_eq_dec : EqDecision VendorTool.
Proof. solve_decision. Defined.
#[global] Instance Tool_eq_dec : EqDecision Tool.
Proof. solve_decision. Defined.
#[global] Instance Fingerprint_eq_dec : EqDecision Fingerprint.
Proof. solve_decision. Defined.

#[global] Instance Role_countable : Countable Role :=
  inj_countable'
    (λ r, match r with system => 0 | user => 1 | assistant => 2 end)
    (λ n, match n with 0 => system | 1 => user | _ => assistant end)
    (λ r, match r with system | user | assistant => eq_refl end).

#[global] Instance ChatMessageContentPart_countable : Countable ChatMessageContentPart :=
  inj_countable'
    (λ p, match p with
          | ChatMessageTextContent ty t => inl (ty, t)
          | ChatMessageImageContent u t => inr (u, t)
          end)
    (λ c, match c with
          | inl (ty, t) => ChatMessageTextContent ty t
          | inr (u, t) => ChatMessageImageContent u t
          end)
    (λ p, match p with
          | ChatMessageTextContent _ _ | ChatMessageImageContent _ _ => eq_refl
          end).

#[global] Instance ChatMessageContent_countable : Countable ChatMessageContent :=
  inj_countable'
    (λ c, match c with ContentString s => inl s | ContentArray ps => inr ps end)
    (λ c, match c with inl s => ContentString s | inr ps => ContentArray ps end)
    (λ c, match c with ContentString _ | ContentArray _ => eq_refl end).

#[global] Instance ChatMessage_countable : Countable ChatMessage :=
  inj_countable'
    (λ m, (role m, content m))
    (λ '(r, c), {| role := r; content := c |})
    (λ m, match m with Build_ChatMessage _ _ => eq_refl end).

#[global] Instance Image_countable : Countable Image :=
  inj_countable'
    (λ i, (buffer i, description i))
    (λ '(b, d), {| buffer := b; description := d |})
    (λ i, match i with Build_Image _ _ => eq_refl end).

#[global] Instance JsonSchemaObject_countable : Countable Zod.JsonSchemaObject :=
  inj_countable'
    (λ o, (Zod.properties o, Zod.required o))
    (λ '(p, r), {| Zod.properties := p; Zod.required := r |})
    (λ o, match o with Zod.Build_JsonSchemaObject _ _ => eq_refl end).

#[global] Instance Schema_countable : Countable Zod.Schema :=
  inj_countable'
    (λ s, (Zod.definitions_MySchema (Zod.zodToJsonSchema s),
           Zod.root (Zod.zodToJsonSchema s)))
    (λ '(d, r),
       {| Zod.zodToJsonSchema := {| Zod.definitions_MySchema := d; Zod.root := r |} |})
    (λ s, match s with
          | Zod.Build_Schema (Zod.Build_JsonSchema _ _) => eq_refl
          end).

#[global] Instance ResponseModel_countable : Countable ResponseModel :=
  inj_countable'
    (λ m, (name m, schema m))
    (λ '(n, s), {| name := n; schema := s |})
    (λ m, match m with Build_ResponseModel _ _ => eq_refl end).

#[global] Instance InputSchema_countable : Countable InputSchema :=
  inj_countable'
    (λ s, (schema_properties s, schema_required s))
    (λ '(p, r), {| schema_properties := p; schema_required := r |})
    (λ s, match s with Build_InputSchema _ _ => eq_refl end).

#[global] Instance ToolFunction_countable : Countable ToolFunction :=
  inj_countable'
    (λ f, (function_name f, function_description f, function_parameters f))
    (λ '(n, d, p),
       {| function_name := n; function_description := d; function_parameters := p |})
    (λ f, match f with Build_ToolFunction _ _ _ => eq_refl end).

#[global] Instance VendorTool_countable : Countable VendorTool :=
  inj_countable'
    (λ t, (tool_name t, tool_description t, input_schema t))
    (λ '(n, d, s), {| tool_name := n; tool_description := d; input_schema := s |})
    (λ t, match t with Build_VendorTool _ _ _ => eq_refl end).

#[global] Instance Tool_countable : Countable Tool :=
  inj_countable'
    (λ t, match t with FunctionTool f => inl f | OtherTool v => inr v end)
    (λ c, match c with inl f => FunctionTool f | inr v => OtherTool v end)
    (λ t, match t with FunctionTool _ | OtherTool _ => eq_refl end).

#[global] Instance Fingerprint_countable : Countable Fingerprint :=
  inj_countable'
    (λ f, (fp_model f, fp_messages f, fp_temperature f, fp_top_p f,
           fp_frequency_penalty f, fp_presence_penalty f, fp_image f,
           fp_response_model f, fp_tools f, fp_retries f))
    (λ '(m, ms, t, tp, fq, pp, i, rm, ts, r),
       {| fp_model := m; fp_messages := ms; fp_temperature := t; fp_top_p := tp;
          fp_frequency_penalty := fq; fp_presence_penalty := pp; fp_image := i;
          fp_response_model := rm; fp_tools := ts; fp_retries := r |})
    (λ f, match f with Build_Fingerprint _ _ _ _ _ _ _ _ _ _ => eq_refl end).

(** ** The world of a client

    The arrays the caller holds, the cache, the requests that have reached the
    vendor so far, the clock and the log sink. *)
Record World (Req V : Type) := {
  heap : gmap loc (list ChatMessage);
  cache : gmap Fingerprint V;
  calls : list Req;
  clock : Z;
  logs : list LogLine }.
Arguments heap {Req V} w.
Arguments cache {Req V} w.
Arguments calls {Req V} w.
Arguments clock {Req V} w.
Arguments logs {Req V} w.

Section World.
Context {Req V : Type}.

Definition setHeap (h : gmap loc (list ChatMessage)) (w : World Req V) : World Req V :=
  {| heap := h; cache := cache w; calls := calls w; clock := clock w; logs := logs w |}.
Definition setCache (c : gmap Fingerprint V) (w : World Req V) : World Req V :=
  {| heap := heap w; cache := c; calls := calls w; clock := clock w; logs := logs w |}.
Definition setCalls (rs : list Req) (w : World Req V) : World Req V :=
  {| heap := heap w; cache := cache w; calls := rs; clock := clock w; logs := logs w |}.
Definition setLogs (ls : list LogLine) (w : World Req V) : World Req V :=
  {| heap := heap w; cache := cache w; calls := calls w; clock := clock w; logs := ls |}.

(** [this.logger(line)] *)
Definition logger (line : LogLine) : Eff (World Req V) unit :=
  modify (λ w, setLogs (logs w ++ [line]) w).

(** The elements an array has now. *)
Definition readArray (l : loc) : Eff (World Req V) (list ChatMessage) :=
  gets (λ w, heap w !!! l).

(** [array.push(message)] *)
Definition push (l : loc) (message : ChatMessage) : Eff (World Req V) unit :=
  modify (λ w, setHeap (<[l := (heap w !!! l) ++ [message]]> (heap w)) w).

(** [Date.now()] *)
Definition Date_now : Eff (World Req V) Z := gets clock.

(** A call into the vendor SDK.  The answer may depend on the request and on
    every request made before it. *)
Definition Vendor (Resp : Type) : Type := list Req → Req → Reply Resp.

Definition send {Resp} (vendor : Vendor Resp) (request : Req) : Eff (World Req V) Resp :=
  λ w,
    let w' := setCalls (calls w ++ [request]) w in
    match vendor (calls w) request with
    | Fulfilled response => (Returned response, w')
    | Rejected reason => (Thrown (VendorError reason), w')
    end.

(** Two worlds that differ at most in what has been logged. *)
Definition sameButLogs (w1 w2 : World Req V) : Prop :=
  heap w1 = heap w2 ∧ cache w1 = cache w2
  ∧ calls w1 = calls w2 ∧ clock w1 = clock w2.

End World.

End LLM.

Module LLMCache.

(** Modelled from the spec: [LLMCache] of [../cache/LLMCache], which is not
    part of these sources.  "A simple persistent key-value store from
    fingerprint to last-written value; a later write for the same fingerprint
    overwrites the previous entry"; "[requestId] is accepted for
    observability/tracing only and must not influence identity or hit/miss
    outcome"; [get] answers an entry or null, [set] answers nothing. *)
Definition get {V} (fingerprint : LLM.Fingerprint) (requestId : option string)
  (entries : gmap LLM.Fingerprint V) : option V :=
  entries !! fingerprint.

Definition set {V} (fingerprint : LLM.Fingerprint) (value : V)
  (requestId : option string) (entries : gmap LLM.Fingerprint V)
  : gmap LLM.Fingerprint V :=
  <[fingerprint := value]> entries.

End LLMCache.

(* ------------------------------------------------------------------------- *)
(** ** [src/lib/llm/AnthropicClient.ts]: [AnthropicClient] *)

Module Anthropic.

(** *** The vendor's types ([@anthropic-ai/sdk]) *)

Inductive ContentBlockParam :=
| TextBlockParam (text : string)
| ImageBlockParam (media_type : string) (data : string).

(** The content of a [MessageParam].  The callback of [msg.content.map] at
    lines 123-129 returns nothing for a part that is not text, so an element of
    the mapped array may be [undefined]. *)
Inductive MessageParamContent :=
| ParamString (s : string)
| ParamBlocks (blocks : list (option ContentBlockParam)).

Record MessageParam := {
  param_role : LLM.Role;
  param_content : MessageParamContent }.

Record MessageCreateParams := {
  req_model : string;
  req_max_tokens : float;
  req_messages : list MessageParam;
  req_tools : option (list LLM.VendorTool);
  req_system : option LLM.ChatMessageContent;
  req_temperature : option float }.

Inductive ContentBlock :=
| TextBlock (text : string)
| ToolUseBlock (id : string) (name : string) (input : JsonText).

Record Usage := { input_tokens : float; output_tokens : float }.

Record Message := {
  msg_id : string;
  msg_model : string;
  msg_content : list ContentBlock;
  msg_stop_reason : option string;
  msg_usage : Usage }.

(** *** What the client returns *)

Record ToolCall := {
  call_id : string;
  call_type : string;
  call_function_name : string;
  call_function_arguments : JsonText }.

Record Choice := {
  choice_index : Z;
  choice_role : string;
  choice_content : option string;
  choice_tool_calls : list ToolCall;
  choice_finish_reason : option string }.

Record TransformedResponse := {
  tr_id : string;
  tr_object : string;
  tr_created : Z;
  tr_model : string;
  tr_choices : list Choice;
  tr_prompt_tokens : float;
  tr_completion_tokens : float;
  tr_total_tokens : float }.

(** The value of a call: the input of a tool use, or a transformed
    response.  Either is an object, hence truthy when read back from the
    cache. *)
Inductive Completion :=
| Structured (input : JsonText)
| Transformed (response : TransformedResponse).

(** *** The client *)

Abbreviation World := (LLM.World MessageCreateParams Completion).

Record AnthropicClient := {
  client : LLM.Vendor (Req := MessageCreateParams) Message;  (* [client.messages.create] *)
  cache : bool;              (* whether [this.cache] is defined *)
  enableCaching : bool;
  modelName : string }.

(** [ChatCompletionOptions & { retries?: number }].  The counter is a
    JavaScript number.  It is held as an integer, which is exact on the safe
    integers: there [retries + 1], [retries < 5] and [!retries] are the
    operations on [Z] used below.  A call that enters without a counter only
    ever reaches the counters 1 to 6; a statement about a counter that the
    caller supplies is made for a safe integer. *)
Record Options := {
  base :> LLM.ChatCompletionOptions;
  retries : option Z }.

(** [Number.isSafeInteger(r)], for an integer [r]: its magnitude is at most
    [2^53 - 1]. *)
Definition isSafeInteger (r : Z) : bool :=
  bool_decide (- 9007199254740991 ≤ r ≤ 9007199254740991)%Z.

(** The [cacheOptions] object of lines 47-55.  [messages] is the caller's
    array itself, not a copy. *)
Record CacheOptions := {
  co_model : string;
  co_messages : LLM.loc;
  co_temperature : option float;
  co_image : option LLM.Image;
  co_response_model : option LLM.ResponseModel;
  co_tools : option (list LLM.Tool);
  co_retries : option Z }.

Definition cacheOptions (this : AnthropicClient) (options : Options) : CacheOptions :=
  {| co_model := modelName this;
     co_messages := LLM.messages options;
     co_temperature := LLM.temperature options;
     co_image := LLM.image options;
     co_response_model := LLM.response_model options;
     co_tools := LLM.tools options;
     co_retries := retries options |}.

(** [JSON.stringify(cacheOptions)], over the arrays as they are now. *)
Definition stringify (heap : gmap LLM.loc (list LLM.ChatMessage)) (o : CacheOptions)
  : LLM.Fingerprint :=
  {| LLM.fp_model := co_model o;
     LLM.fp_messages := heap !!! co_messages o;
     LLM.fp_temperature := JSON.ofNumber <$> co_temperature o;
     LLM.fp_top_p := None;
     LLM.fp_frequency_penalty := None;
     LLM.fp_presence_penalty := None;
     LLM.fp_image := co_image o;
     LLM.fp_response_model := co_response_model o;
     LLM.fp_tools := co_tools o;
     LLM.fp_retries := co_retries o |}.

(** [await this.cache.get(cacheOptions, requestId)] *)
Definition cacheGet (this : AnthropicClient) (o : CacheOptions)
  (requestId : option string) : Eff World (option Completion) :=
  if cache this then
    gets (λ w, LLMCache.get (stringify (LLM.heap w) o) requestId (LLM.cache w))
  else throw (TypeError "Cannot read properties of undefined (reading 'get')").

(** [this.cache.set(cacheOptions, value, requestId)] *)
Definition cacheSet (this : AnthropicClient) (o : CacheOptions) (value : Completion)
  (requestId : option string) : Eff World unit :=
  if cache this then
    modify (λ w, LLM.setCache
                   (LLMCache.set (stringify (LLM.heap w) o) value requestId (LLM.cache w))
                   w)
  else throw (TypeError "Cannot read properties of undefined (reading 'set')").

Definition log (message : string) (auxiliary : list (string * option string))
  : Eff World unit :=
  LLM.logger {| category := "anthropic"; message := message; level := Some 1%Z;
                auxiliary := auxiliary |}.

Definition logCache (message : string) (auxiliary : list (string * option string))
  : Eff World unit :=
  LLM.logger {| category := "llm_cache"; message := message; level := Some 1%Z;
                auxiliary := auxiliary |}.

(** Lines 103-109: the predicate of [options.messages.find]. *)
Definition isSystemMessage (msg : LLM.ChatMessage) : bool :=
  bool_decide (LLM.role msg = LLM.system)
  && match LLM.content msg with
     | LLM.ContentString _ => true
     | LLM.ContentArray parts =>
         forallb (λ content, negb (bool_decide (LLM.partType content = "image_url"))) parts
     end.

(** Lines 123-129: the callback of [msg.content.map].  An image part has type
    ["image_url"], so it falls through. *)
Definition formatPart (content : LLM.ChatMessageContentPart) : option ContentBlockParam :=
  match content with
  | LLM.ChatMessageTextContent type text =>
      if bool_decide (type = "text") then Some (TextBlockParam text) else None
  | LLM.ChatMessageImageContent _ _ => None
  end.

(** Lines 114-132: the callback of [userMessages.map]. *)
Definition formatMessage (msg : LLM.ChatMessage) : MessageParam :=
  match LLM.content msg with
  | LLM.ContentString s =>
      {| param_role := LLM.role msg; param_content := ParamString s |}
  | LLM.ContentArray parts =>
      {| param_role := LLM.role msg; param_content := ParamBlocks (formatPart <$> parts) |}
  end.

(** Lines 135-157: [screenshotMessage]. *)
Definition screenshotMessage (image : LLM.Image) : MessageParam :=
  {| param_role := LLM.user;
     param_content :=
       ParamBlocks
         (Some (ImageBlockParam "image/jpeg" (LLM.buffer image))
          :: match LLM.description image with
             | Some d => if bool_decide (d = "") then [] else [Some (TextBlockParam d)]
             | None => []
             end) |}.

(** Lines 103-160: [formattedMessages], once the screenshot is pushed. *)
Definition formattedMessages (options : LLM.ChatCompletionOptions)
  (messages : list LLM.ChatMessage) : list MessageParam :=
  let userMessages :=
    filter (λ msg, LLM.role msg ≠ LLM.system) messages in
  (formatMessage <$> userMessages)
  ++ match LLM.image options with
     | Some image => [screenshotMessage image]
     | None => []
     end.

(** Lines 163-176: the callback of [options.tools?.map]. *)
Definition toAnthropicTool (tool : LLM.Tool) : LLM.VendorTool :=
  match tool with
  | LLM.FunctionTool f =>
      {| LLM.tool_name := LLM.function_name f;
         LLM.tool_description := LLM.function_description f;
         LLM.input_schema :=
           {| LLM.schema_properties := LLM.schema_properties (LLM.function_parameters f);
              LLM.schema_required := LLM.schema_required (LLM.function_parameters f) |} |}
  | LLM.OtherTool tool => tool
  end.

(** Lines 179-203: [toolDefinition]. *)
Definition toolDefinition (response_model : LLM.ResponseModel) : LLM.VendorTool :=
  let jsonSchema := Zod.zodToJsonSchema (LLM.schema response_model) in
  let schemaProperties :=
    match Zod.definitions_MySchema jsonSchema ≫= Zod.properties with
    | Some p => Some p
    | None => Zod.properties (Zod.root jsonSchema)
    end in
  let schemaRequired :=
    match Zod.definitions_MySchema jsonSchema ≫= Zod.required with
    | Some r => Some r
    | None => Zod.required (Zod.root jsonSchema)
    end in
  {| LLM.tool_name := "print_extracted_data";
     LLM.tool_description :=
       Some "Prints the extracted data based on the provided schema.";
     LLM.input_schema :=
       {| LLM.schema_properties := schemaProperties;
          LLM.schema_required := schemaRequired |} |}.

(** Lines 163-208: [anthropicTools], once the tool definition is pushed. *)
Definition anthropicTools (options : LLM.ChatCompletionOptions)
  : option (list LLM.VendorTool) :=
  let anthropicTools : option (list LLM.VendorTool) :=
    (λ tools : list LLM.Tool, toAnthropicTool <$> tools) <$> LLM.tools options in
  match LLM.response_model options with
  | Some response_model =>
      Some (default [] anthropicTools ++ [toolDefinition response_model])
  | None => anthropicTools
  end.

(** [options.maxTokens || 1500] *)
Definition maxTokensOr (maxTokens : option float) (fallback : float) : float :=
  match maxTokens with
  | Some n => if is_zero n || is_nan n then fallback else n
  | None => fallback
  end.

(** Lines 210-219: the argument of [this.client.messages.create]. *)
Definition createParams (this : AnthropicClient) (options : LLM.ChatCompletionOptions)
  (messages : list LLM.ChatMessage) : MessageCreateParams :=
  {| req_model := modelName this;
     req_max_tokens := maxTokensOr (LLM.maxTokens options) 1500;
     req_messages := formattedMessages options messages;
     req_tools := anthropicTools options;
     req_system := LLM.content <$> find isSystemMessage messages;
     req_temperature := LLM.temperature options |}.

Definition isText (c : ContentBlock) : bool :=
  match c with TextBlock _ => true | ToolUseBlock _ _ _ => false end.

Definition isToolUse (c : ContentBlock) : bool :=
  match c with TextBlock _ => false | ToolUseBlock _ _ _ => true end.

(** Lines 238-270: [transformedResponse]. *)
Definition transform (response : Message) (now : Z) : TransformedResponse :=
  {| tr_id := msg_id response;
     tr_object := "chat.completion";
     tr_created := now;
     tr_model := msg_model response;
     tr_choices :=
       [ {| choice_index := 0;
            choice_role := "assistant";
            choice_content :=
              match find isText (msg_content response) with
              | Some (TextBlock text) => if bool_decide (text = "") then None else Some text
              | _ => None
              end;
            choice_tool_calls :=
              omap (λ c, match c with
                         | ToolUseBlock id name input =>
                             Some {| call_id := id; call_type := "function";
                                     call_function_name := name;
                                     call_function_arguments := input |}
                         | TextBlock _ => None
                         end)
                   (msg_content response);
            choice_finish_reason := msg_stop_reason response |} ];
     tr_prompt_tokens := input_tokens (msg_usage response);
     tr_completion_tokens := output_tokens (msg_usage response);
     tr_total_tokens :=
       (input_tokens (msg_usage response) + output_tokens (msg_usage response))%float |}.

(** [!options.retries || options.retries < 5] *)
Definition mayRetry (retries : option Z) : bool :=
  match retries with
  | None => true
  | Some r => bool_decide (r = 0%Z) || bool_decide (r < 5)%Z
  end.

(** [{ ...options, retries: (options.retries ?? 0) + 1 }] *)
Definition withRetry (options : Options) : Options :=
  {| base := base options; retries := Some (default 0 (retries options) + 1)%Z |}.

(** How one invocation ends: with a value for the caller, or in the tail call
    [return this.createChatCompletion(options')] of line 299. *)
Inductive Step :=
| Return (value : Completion)
| Recurse (options' : Options).

(** The body of [createChatCompletion], lines 30-345, up to that tail call. *)
Definition invocation (this : AnthropicClient) (options : Options) : Eff World Step :=
  _ ← log "creating chat completion" [];
  let cacheOptions := cacheOptions this options in
  hit ← (if enableCaching this then
           cachedResponse ← cacheGet this cacheOptions (LLM.requestId options);
           match cachedResponse with
           | Some cachedResponse =>
               _ ← logCache "LLM cache hit - returning cached response"
                     [("requestId", LLM.requestId options)];
               mret (Some cachedResponse)
           | None =>
               _ ← logCache "LLM cache miss - no cached response found"
                     [("requestId", LLM.requestId options)];
               mret None
           end
         else mret None);
  match hit with
  | Some cachedResponse => mret (Return cachedResponse)
  | None =>
      messages ← LLM.readArray (LLM.messages options);
      response ← LLM.send (client this) (createParams this options messages);
      _ ← log "response" [("requestId", LLM.requestId options)];
      now ← LLM.Date_now;
      let transformedResponse := transform response now in
      _ ← log "transformed response" [("requestId", LLM.requestId options)];
      match LLM.response_model options with
      | Some _ =>
          match find isToolUse (msg_content response) with
          | Some (ToolUseBlock _ _ input) =>
              let result := Structured input in
              _ ← (if enableCaching this
                   then cacheSet this cacheOptions result (LLM.requestId options)
                   else mret tt);
              mret (Return result)
          | _ =>
              if mayRetry (retries options) then
                mret (Recurse (withRetry options))
              else
                _ ← log "error creating chat completion"
                      [("requestId", LLM.requestId options)];
                throw (JsError
                  "Create Chat Completion Failed: No tool use with input in response")
          end
      | None =>
          _ ← (if enableCaching this then
                 _ ← cacheSet this cacheOptions (Transformed transformedResponse)
                       (LLM.requestId options);
                 log "cached response" [("requestId", LLM.requestId options)]
               else mret tt);
          mret (Return (Transformed transformedResponse))
      end
  end.

(** The retries an invocation may still make: the measure under which the
    tail call of line 299 descends. *)
Definition retriesLeft (options : Options) : nat :=
  Z.to_nat (5 - default 0 (retries options))%Z.

(** [AnthropicClient.createChatCompletion], lines 30-345. *)
Equations? createChatCompletion (this : AnthropicClient) (options : Options) (w : World)
  : Outcome Completion * World by wf (retriesLeft options) lt :=
createChatCompletion this options w with inspect (invocation this options w) := {
  | exist _ (Returned (Return value), w') _ => (Returned value, w')
  | exist _ (Returned (Recurse options'), w') H => createChatCompletion this options' w'
  | exist _ (Thrown e, w') _ => (Thrown e, w') }.
Proof.
  clear createChatCompletion.
  assert (mayRetry (retries options) = true ∧ options' = withRetry options) as [Hm ->].
  { unfold invocation, mbind, Eff_bind, mret, Eff_ret, throw in H.
    repeat (match type of H with
            | context [match ?x with _ => _ end] => destruct x eqn:?
            end; simplify_eq/=; try done). }
  unfold retriesLeft, withRetry, mayRetry in *. simpl.
  destruct (retries options) as [r|]; simpl in *; [|lia].
  apply orb_true_iff in Hm as [Hm|Hm]; apply bool_decide_eq_true in Hm; lia.
Qed.

(** *** Notions used to state what a call does *)

(** The key under which an invocation reads and writes the cache, the entry
    it finds there, and the request it sends if it finds none. *)
Definition fingerprint (this : AnthropicClient) (options : Options) (w : World)
  : LLM.Fingerprint :=
  stringify (LLM.heap w) (cacheOptions this options).

Definition cached (this : AnthropicClient) (options : Options) (w : World)
  : option Completion :=
  if enableCaching this
  then LLMCache.get (fingerprint this options w) (LLM.requestId options) (LLM.cache w)
  else None.

Definition request (this : AnthropicClient) (options : Options) (w : World)
  : MessageCreateParams :=
  createParams this options (LLM.heap w !!! LLM.messages options).

(** What a world looks like once the request has gone out. *)
Definition sent (this : AnthropicClient) (options : Options) (w w' : World) : Prop :=
  LLM.heap w' = LLM.heap w
  ∧ LLM.calls w' = LLM.calls w ++ [request this options w]
  ∧ LLM.clock w' = LLM.clock w.

(** The cache once an invocation has stored [value], if caching is on. *)
Definition stored (this : AnthropicClient) (options : Options) (w : World)
  (value : Completion) : gmap LLM.Fingerprint Completion :=
  if enableCaching this
  then LLMCache.set (fingerprint this options w) value (LLM.requestId options)
         (LLM.cache w)
  else LLM.cache w.

(** The value an invocation draws from the vendor's response, if there is
    one to draw: the transformed response when no schema was asked for, the
    input of the first tool use when one was. *)
Definition answer (options : Options) (response : Message) (now : Z)
  : option Completion :=
  match LLM.response_model options with
  | None => Some (Transformed (transform response now))
  | Some _ =>
      match find isToolUse (msg_content response) with
      | Some (ToolUseBlock _ _ input) => Some (Structured input)
      | _ => None
      end
  end.

(** Every invocation ends in one of six ways. *)
Inductive Invoked (this : AnthropicClient) (options : Options) (w : World)
  : Outcome Step → World → Prop :=
| invoked_no_cache w' :
    enableCaching this = true → cache this = false →
    LLM.sameButLogs w' w →
    Invoked this options w
      (Thrown (TypeError "Cannot read properties of undefined (reading 'get')")) w'
| invoked_hit value w' :
    cache this = true → cached this options w = Some value →
    LLM.sameButLogs w' w →
    Invoked this options w (Returned (Return value)) w'
| invoked_rejected reason w' :
    (enableCaching this = true → cache this = true) →
    cached this options w = None →
    client this (LLM.calls w) (request this options w) = Rejected reason →
    sent this options w w' → LLM.cache w' = LLM.cache w →
    Invoked this options w (Thrown (VendorError reason)) w'
| invoked_answer response value w' :
    (enableCaching this = true → cache this = true) →
    cached this options w = None →
    client this (LLM.calls w) (request this options w) = Fulfilled response →
    answer options response (LLM.clock w) = Some value →
    sent this options w w' → LLM.cache w' = stored this options w value →
    Invoked this options w (Returned (Return value)) w'
| invoked_recurse response w' :
    (enableCaching this = true → cache this = true) →
    cached this options w = None →
    client this (LLM.calls w) (request this options w) = Fulfilled response →
    answer options response (LLM.clock w) = None →
    mayRetry (retries options) = true →
    sent this options w w' → LLM.cache w' = LLM.cache w →
    Invoked this options w (Returned (Recurse (withRetry options))) w'
| invoked_exhausted response w' :
    (enableCaching this = true → cache this = true) →
    cached this options w = None →
    client this (LLM.calls w) (request this options w) = Fulfilled response →
    answer options response (LLM.clock w) = None →
    mayRetry (retries options) = false →
    sent this options w w' → LLM.cache w' = LLM.cache w →
    Invoked this options w
      (Thrown (JsError
         "Create Chat Completion Failed: No tool use with input in response")) w'.

(** The options of the [n]-th retry of a call, and the world in which it
    starts, provided each invocation before it ended in the tail call. *)
Definition retryOptions (options : Options) (n : nat) : Options :=
  Nat.iter n withRetry options.

Fixpoint retryWorld (this : AnthropicClient) (options : Options) (w : World)
  (n : nat) : option World :=
  match n with
  | O => Some w
  | S n' =>
      match retryWorld this options w n' with
      | Some w' =>
          match invocation this (retryOptions options n') w' with
          | (Returned (Recurse _), w'') => Some w''
          | _ => None
          end
      | None => None
      end
  end.

(** [{ ...options, requestId }] *)
Definition withRequestId (requestId : option string) (options : Options) : Options :=
  {| base := LLM.withRequestId requestId options; retries := retries options |}.

End Anthropic.

(* ------------------------------------------------------------------------- *)
(** ** [src/lib/llm/AnthropicClient.ts]: [OpenAIClient] *)

Module OpenAI.

(** *** The vendor's types ([openai/resources/chat]) *)

Inductive ChatCompletionContentPart :=
| ChatCompletionContentPartImage (url : string)
| ChatCompletionContentPartText (text : string).

Inductive MessageParamContent :=
| ParamString (s : string)
| ParamParts (parts : list ChatCompletionContentPart).

Record ChatCompletionMessageParam := {
  param_role : LLM.Role;
  param_content : MessageParamContent }.

(** The result of [zodResponseFormat(schema, name)], left uninterpreted. *)
Record ResponseFormat := {
  format_schema : Zod.Schema;
  format_name : string }.

(** The [body] of lines 527-534: the caller's options without
    [response_model], [requestId] and [image], with [model], [messages],
    [response_format], [stream] and [tools] set. *)
Record ChatCompletionCreateParams := {
  body_temperature : option float;
  body_top_p : option float;
  body_frequency_penalty : option float;
  body_presence_penalty : option float;
  body_maxTokens : option float;
  body_model : string;
  body_messages : list ChatCompletionMessageParam;
  body_response_format : option ResponseFormat;
  body_stream : bool;
  body_tools : option (list LLM.Tool) }.

Record ChatCompletionChoice := {
  choice_role : string;
  choice_content : option string;
  choice_finish_reason : option string }.

Record ChatCompletion := {
  cc_id : string;
  cc_model : string;
  cc_created : Z;
  cc_choices : list ChatCompletionChoice }.

(** The value of a call: the parsed content, or the vendor's response as it
    came.  Either is an object, hence truthy when read back from the cache. *)
Inductive Completion :=
| Parsed (parsedData : JsonText)
| Raw (response : ChatCompletion).

Abbreviation World := (LLM.World ChatCompletionCreateParams Completion).

Record OpenAIClient := {
  client : LLM.Vendor (Req := ChatCompletionCreateParams) ChatCompletion;
                                       (* [client.chat.completions.create] *)
  JSON_parse : string → option JsonText;  (* [JSON.parse]; [None] when it throws *)
  cache : bool;                        (* whether [this.cache] is defined *)
  enableCaching : bool;
  modelName : string }.

(** The [cacheOptions] object of lines 403-412.  [messages] is the caller's
    array itself, not a copy. *)
Record CacheOptions := {
  co_model : string;
  co_messages : LLM.loc;
  co_temperature : option float;
  co_top_p : option float;
  co_frequency_penalty : option float;
  co_presence_penalty : option float;
  co_image : option LLM.Image;
  co_response_model : option LLM.ResponseModel }.

Definition cacheOptions (this : OpenAIClient) (options : LLM.ChatCompletionOptions)
  : CacheOptions :=
  {| co_model := modelName this;
     co_messages := LLM.messages options;
     co_temperature := LLM.temperature options;
     co_top_p := LLM.top_p options;
     co_frequency_penalty := LLM.frequency_penalty options;
     co_presence_penalty := LLM.presence_penalty options;
     co_image := LLM.image options;
     co_response_model := LLM.response_model options |}.

(** [JSON.stringify(cacheOptions)], over the arrays as they are now. *)
Definition stringify (heap : gmap LLM.loc (list LLM.ChatMessage)) (o : CacheOptions)
  : LLM.Fingerprint :=
  {| LLM.fp_model := co_model o;
     LLM.fp_messages := heap !!! co_messages o;
     LLM.fp_temperature := JSON.ofNumber <$> co_temperature o;
     LLM.fp_top_p := JSON.ofNumber <$> co_top_p o;
     LLM.fp_frequency_penalty := JSON.ofNumber <$> co_frequency_penalty o;
     LLM.fp_presence_penalty := JSON.ofNumber <$> co_presence_penalty o;
     LLM.fp_image := co_image o;
     LLM.fp_response_model := co_response_model o;
     LLM.fp_tools := None;
     LLM.fp_retries := None |}.

(** [await this.cache.get(cacheOptions, requestId)] *)
Definition cacheGet (this : OpenAIClient) (o : CacheOptions)
  (requestId : option string) : Eff World (option Completion) :=
  if cache this then
    gets (λ w, LLMCache.get (stringify (LLM.heap w) o) requestId (LLM.cache w))
  else throw (TypeError "Cannot read properties of undefined (reading 'get')").

(** [this.cache.set(cacheOptions, value, requestId)] *)
Definition cacheSet (this : OpenAIClient) (o : CacheOptions) (value : Completion)
  (requestId : option string) : Eff World unit :=
  if cache this then
    modify (λ w, LLM.setCache
                   (LLMCache.set (stringify (LLM.heap w) o) value requestId (LLM.cache w))
                   w)
  else throw (TypeError "Cannot read properties of undefined (reading 'set')").

Definition log (message : string) (auxiliary : list (string * option string))
  : Eff World unit :=
  LLM.logger {| category := "openai"; message := message; level := Some 1%Z;
                auxiliary := auxiliary |}.

Definition logCache (message : string) (auxiliary : list (string * option string))
  : Eff World unit :=
  LLM.logger {| category := "llm_cache"; message := message; level := Some 1%Z;
                auxiliary := auxiliary |}.

(** Lines 453-466: [screenshotMessage]. *)
Definition screenshotMessage (image : LLM.Image) : LLM.ChatMessage :=
  {| LLM.role := LLM.user;
     LLM.content :=
       LLM.ContentArray
         (LLM.ChatMessageImageContent
            ("data:image/jpeg;base64," +:+ LLM.buffer image) None
          :: match LLM.description image with
             | Some d =>
                 if bool_decide (d = "") then []
                 else [LLM.ChatMessageTextContent "text" d]
             | None => []
             end) |}.

(** Lines 502-516: the callback of [message.content.map]. *)
Definition formatPart (content : LLM.ChatMessageContentPart) : ChatCompletionContentPart :=
  match content with
  | LLM.ChatMessageImageContent url _ => ChatCompletionContentPartImage url
  | LLM.ChatMessageTextContent _ text => ChatCompletionContentPartText text
  end.

(** Lines 500-525: the callback of [options.messages.map]. *)
Definition formatMessage (message : LLM.ChatMessage) : ChatCompletionMessageParam :=
  match LLM.content message with
  | LLM.ContentArray parts =>
      {| param_role := LLM.role message;
         param_content := ParamParts (formatPart <$> parts) |}
  | LLM.ContentString s =>
      {| param_role := LLM.role message; param_content := ParamString s |}
  end.

Definition isFunctionTool (tool : LLM.Tool) : bool :=
  match tool with LLM.FunctionTool _ => true | LLM.OtherTool _ => false end.

(** Lines 471-534: [body], over the messages the array holds at that point. *)
Definition body (this : OpenAIClient) (options : LLM.ChatCompletionOptions)
  (messages : list LLM.ChatMessage) : ChatCompletionCreateParams :=
  {| body_temperature := LLM.temperature options;
     body_top_p := LLM.top_p options;
     body_frequency_penalty := LLM.frequency_penalty options;
     body_presence_penalty := LLM.presence_penalty options;
     body_maxTokens := LLM.maxTokens options;
     body_model := modelName this;
     body_messages := formatMessage <$> messages;
     body_response_format :=
       (λ m, {| format_schema := LLM.schema m; format_name := LLM.name m |})
         <$> LLM.response_model options;
     body_stream := false;
     body_tools :=
       (λ tools : list LLM.Tool, List.filter isFunctionTool tools) <$> LLM.tools options |}.

(** [OpenAIClient.createChatCompletion], lines 383-597. *)
Definition createChatCompletion (this : OpenAIClient) (options : LLM.ChatCompletionOptions)
  : Eff World Completion :=
  _ ← log "creating chat completion" [("modelName", Some (modelName this))];
  let cacheOptions := cacheOptions this options in
  hit ← (if enableCaching this then
           cachedResponse ← cacheGet this cacheOptions (LLM.requestId options);
           match cachedResponse with
           | Some cachedResponse =>
               _ ← logCache "LLM cache hit - returning cached response"
                     [("requestId", LLM.requestId options)];
               mret (Some cachedResponse)
           | None =>
               _ ← logCache "LLM cache miss - no cached response found"
                     [("requestId", LLM.requestId options)];
               mret None
           end
         else mret None);
  match hit with
  | Some cachedResponse => mret cachedResponse
  | None =>
      _ ← match LLM.image options with
          | Some image => LLM.push (LLM.messages options) (screenshotMessage image)
          | None => mret tt
          end;
      _ ← log "creating chat completion" [];
      messages ← LLM.readArray (LLM.messages options);
      response ← LLM.send (client this) (body this options messages);
      _ ← log "response" [("requestId", LLM.requestId options)];
      match LLM.response_model options with
      | Some _ =>
          match cc_choices response with
          | [] => throw (TypeError "Cannot read properties of undefined (reading 'message')")
          | choice :: _ =>
              let extractedData := choice_content choice in
              match match extractedData with
                    | Some text => JSON_parse this text
                    | None => Some "null"
                    end with
              | None => throw (SyntaxError "Unexpected token in JSON")
              | Some parsedData =>
                  _ ← (if enableCaching this
                       then cacheSet this cacheOptions (Parsed parsedData)
                              (LLM.requestId options)
                       else mret tt);
                  mret (Parsed parsedData)
              end
          end
      | None =>
          _ ← (if enableCaching this then
                 _ ← logCache "caching response" [("requestId", LLM.requestId options)];
                 cacheSet this cacheOptions (Raw response) (LLM.requestId options)
               else mret tt);
          mret (Raw response)
      end
  end.

(** *** Notions used to state what a call does *)

(** The key under which a call reads the cache and the entry it finds there. *)
Definition fingerprint (this : OpenAIClient) (options : LLM.ChatCompletionOptions)
  (w : World) : LLM.Fingerprint :=
  stringify (LLM.heap w) (cacheOptions this options).

Definition cached (this : OpenAIClient) (options : LLM.ChatCompletionOptions)
  (w : World) : option Completion :=
  if enableCaching this
  then LLMCache.get (fingerprint this options w) (LLM.requestId options) (LLM.cache w)
  else None.

(** The caller's arrays as a call leaves them when it is not answered from
    the cache: the screenshot message, if there is an image, is on the array
    of the options. *)
Definition pushed (options : LLM.ChatCompletionOptions)
  (heap : gmap LLM.loc (list LLM.ChatMessage)) : gmap LLM.loc (list LLM.ChatMessage) :=
  match LLM.image options with
  | Some image =>
      <[LLM.messages options :=
          (heap !!! LLM.messages options) ++ [screenshotMessage image]]> heap
  | None => heap
  end.

(** How a call ends, given the vendor's reply. *)
Definition outcome (this : OpenAIClient) (options : LLM.ChatCompletionOptions)
  (reply : Reply ChatCompletion) : Outcome Completion :=
  match reply with
  | Rejected reason => Thrown (VendorError reason)
  | Fulfilled response =>
      match LLM.response_model options with
      | None => Returned (Raw response)
      | Some _ =>
          match cc_choices response with
          | [] => Thrown (TypeError "Cannot read properties of undefined (reading 'message')")
          | choice :: _ =>
              match match choice_content choice with
                    | Some text => JSON_parse this text
                    | None => Some "null"
                    end with
              | None => Thrown (SyntaxError "Unexpected token in JSON")
              | Some parsedData => Returned (Parsed parsedData)
              end
          end
      end
  end.

End OpenAI.

Module OpenAIScenario.
Import OpenAI.

Definition conversation : list LLM.ChatMessage :=
  [ {| LLM.role := LLM.system;
       LLM.content := LLM.ContentString "You extract data from web pages." |};
    {| LLM.role := LLM.user; LLM.content := LLM.ContentString "Stars: 1000" |} ].

(** A request with a screenshot, and the same request without. *)
Definition optionsWithImage : LLM.ChatCompletionOptions :=
  {| LLM.messages := 1%positive;
     LLM.temperature := Some 0.1%float;
     LLM.top_p := Some 1%float;
     LLM.frequency_penalty := Some 0%float;
     LLM.presence_penalty := Some 0%float;
     LLM.image :=
       Some {| LLM.buffer := "/9j/4AAQSkZJRg=="; LLM.description := Some "the page" |};
     LLM.response_model := None;
     LLM.tools := None;
     LLM.maxTokens := None;
     LLM.requestId := Some "req-1" |}.

Definition options : LLM.ChatCompletionOptions :=
  {| LLM.messages := 1%positive;
     LLM.temperature := Some 0.1%float;
     LLM.top_p := Some 1%float;
     LLM.frequency_penalty := Some 0%float;
     LLM.presence_penalty := Some 0%float;
     LLM.image := None;
     LLM.response_model := None;
     LLM.tools := None;
     LLM.maxTokens := None;
     LLM.requestId := Some "req-1" |}.

Definition completion : ChatCompletion :=
  {| cc_id := "chatcmpl-1";
     cc_model := "gpt-4o";
     cc_created := 1730592000;
     cc_choices :=
       [ {| choice_role := "assistant";
            choice_content := Some "The repository has 1000 stars.";
            choice_finish_reason := Some "stop" |} ] |}.

Definition gpt : OpenAIClient :=
  {| client := λ _ _, Fulfilled completion;
     JSON_parse := λ text, Some text;
     cache := true;
     enableCaching := true;
     modelName := "gpt-4o" |}.

(** A world in which nothing has been cached or sent yet, and the world in
    which the answer to the request with the screenshot is in the cache. *)
Definition world : World :=
  {| LLM.heap := {[ 1%positive := conversation ]};
     LLM.cache := ∅;
     LLM.calls := [];
     LLM.clock := 1730592000000;
     LLM.logs := [] |}.

Definition warmWorld : World :=
  {| LLM.heap := {[ 1%positive := conversation ]};
     LLM.cache := {[ fingerprint gpt optionsWithImage world := Raw completion ]};
     LLM.calls := [];
     LLM.clock := 1730592000000;
     LLM.logs := [] |}.

End OpenAIScenario.

(* ------------------------------------------------------------------------- *)
(** ** Concrete pages, backends and requests *)

Module Scenario.
Import ExtractHandler.

(** The scenario of the specification: a 1000 by 500 viewport and the box
    [{text: "Stars: 1000", left: 10, top: 20, width: 80, height: 20}]. *)
Definition viewport : ViewportSize.t := ViewportSize.mk 1000 500.
Definition stars : BoundingBox.t := BoundingBox.mk "Stars: 1000" 10 20 80 20.
Definition forks : BoundingBox.t := BoundingBox.mk "Forks: 7" 10 60 80 20.

Definition starsSchema : Zod.Schema :=
  {| Zod.zodToJsonSchema :=
       {| Zod.definitions_MySchema := None;
          Zod.root := {| Zod.properties := Some "{stars: {type: number}}";
                         Zod.required := Some ["stars"] |} |} |}.

(** A page with two elements.  Creating the text bounding boxes adds a node
    to the document; the first element carries both boxes, and [stars] twice;
    the second carries them again. *)
Definition page : Window :=
  {| processAllOfDom :=
       λ dom, (Fulfilled [(0%N, ["/html/body/a[1]"]); (1%N, ["/html/body/a[2]"])], dom);
     createTextBoundingBoxes :=
       λ dom, (Fulfilled tt, dom +:+ "<span class='stagehand-marker'></span>");
     getElementBoundingBoxes :=
       λ xpath dom,
         if bool_decide (xpath = Some "/html/body/a[1]")
         then (Fulfilled [stars; forks; stars], dom)
         else (Fulfilled [forks; stars], dom) |}.

(** A page on which the text of [stars] stands at a second place as well,
    forty pixels further down, and at the first place once more with the
    zeros of its geometry negative. *)
Definition starsBelow : BoundingBox.t := BoundingBox.mk "Stars: 1000" 10 60 80 20.
Definition starsAtOrigin : BoundingBox.t := BoundingBox.mk "Stars: 1000" 0 0 0 0.
Definition starsAtOrigin' : BoundingBox.t :=
  BoundingBox.mk "Stars: 1000" (-0)%float (-0)%float (-0)%float (-0)%float.

Definition crowdedPage : Window :=
  {| processAllOfDom :=
       λ dom, (Fulfilled [(0%N, ["/html/body/a[1]"]); (1%N, ["/html/body/a[2]"])], dom);
     createTextBoundingBoxes := λ dom, (Fulfilled tt, dom);
     getElementBoundingBoxes :=
       λ xpath dom,
         if bool_decide (xpath = Some "/html/body/a[1]")
         then (Fulfilled [stars; starsBelow; stars; starsAtOrigin], dom)
         else (Fulfilled [forks; starsAtOrigin'; starsBelow; stars], dom) |}.

(** The same page, except that the bounding boxes of the second element
    cannot be evaluated. *)
Definition brokenPage : Window :=
  {| processAllOfDom := processAllOfDom page;
     createTextBoundingBoxes := createTextBoundingBoxes page;
     getElementBoundingBoxes :=
       λ xpath dom,
         if bool_decide (xpath = Some "/html/body/a[1]")
         then (Fulfilled [stars; forks; stars], dom)
         else (Rejected "Execution context was destroyed", dom) |}.

Definition handler (window : Window) (reply : Reply ExtractionResponse)
  : StagehandExtractHandler :=
  {| window := window;
     viewportSize := viewport;
     defaultModelName := "gpt-4o";
     inference := λ _, reply;
     formatText := λ textAnnotations,
       String.concat "; " (TextAnnotation.text <$> textAnnotations) |}.

Definition complete : Reply ExtractionResponse :=
  Fulfilled {| metadata_completed := true; output := [("stars", "1000")] |}.
Definition incomplete : Reply ExtractionResponse :=
  Fulfilled {| metadata_completed := false; output := [("stars", "1000")] |}.
Definition unavailable : Reply ExtractionResponse :=
  Rejected "503 Service Unavailable".

Definition options : ExtractOptions :=
  {| instruction := "Extract the number of stars for the project";
     schema := starsSchema;
     content := None;
     modelName := None;
     requestId := Some "req-1";
     domSettleTimeoutMs := None |}.

Definition world : World :=
  {| DOM := "<body><a>Stars: 1000</a><a>Forks: 7</a></body>";
     domDebug := false;
     inferences := [];
     logs := [] |}.

End Scenario.

Module AnthropicScenario.
Import Anthropic.

(** The caller's array: a system message, and a user message of two parts, a
    text and an image. *)
Definition conversation : list LLM.ChatMessage :=
  [ {| LLM.role := LLM.system;
       LLM.content := LLM.ContentString "You extract data from web pages." |};
    {| LLM.role := LLM.user;
       LLM.content :=
         LLM.ContentArray
           [ LLM.ChatMessageTextContent "text" "Stars: 1000";
             LLM.ChatMessageImageContent "data:image/png;base64,iVBORw0KGgo=" None ] |} ].

Definition options : Options :=
  {| base :=
       {| LLM.messages := 1%positive;
          LLM.temperature := Some 0.1%float;
          LLM.top_p := None;
          LLM.frequency_penalty := None;
          LLM.presence_penalty := None;
          LLM.image := None;
          LLM.response_model :=
            Some {| LLM.name := "Extraction"; LLM.schema := Scenario.starsSchema |};
          LLM.tools := None;
          LLM.maxTokens := None;
          LLM.requestId := Some "req-1" |};
     retries := None |}.

(** The same request, with a screenshot attached. *)
Definition optionsWithImage : Options :=
  {| base :=
       {| LLM.messages := 1%positive;
          LLM.temperature := Some 0.1%float;
          LLM.top_p := None;
          LLM.frequency_penalty := None;
          LLM.presence_penalty := None;
          LLM.image := Some {| LLM.buffer := "/9j/4AAQSkZJRg=="; LLM.description := None |};
          LLM.response_model :=
            Some {| LLM.name := "Extraction"; LLM.schema := Scenario.starsSchema |};
          LLM.tools := None;
          LLM.maxTokens := None;
          LLM.requestId := Some "req-1" |};
     retries := None |}.

(** A response that only talks, and one that uses the tool. *)
Definition talk : Message :=
  {| msg_id := "msg_01";
     msg_model := "claude-3-5-sonnet-20241022";
     msg_content := [TextBlock "The repository has 1000 stars."];
     msg_stop_reason := Some "end_turn";
     msg_usage := {| input_tokens := 120; output_tokens := 9 |} |}.

Definition toolUse : Message :=
  {| msg_id := "msg_02";
     msg_model := "claude-3-5-sonnet-20241022";
     msg_content := [ToolUseBlock "toolu_01" "print_extracted_data" "{stars: 1000}"];
     msg_stop_reason := Some "tool_use";
     msg_usage := {| input_tokens := 120; output_tokens := 14 |} |}.

(** A backend that never uses the tool, and one that uses it at once; caching
    is on in both clients. *)
Definition talkative : AnthropicClient :=
  {| client := λ _ _, Fulfilled talk;
     cache := true;
     enableCaching := true;
     modelName := "claude-3-5-sonnet-20241022" |}.

Definition obedient : AnthropicClient :=
  {| client := λ _ _, Fulfilled toolUse;
     cache := true;
     enableCaching := true;
     modelName := "claude-3-5-sonnet-20241022" |}.

(** A backend that uses the tool only when asked a second time. *)
Definition reluctant : AnthropicClient :=
  {| client := λ history _,
       match history with [] => Fulfilled talk | _ => Fulfilled toolUse end;
     cache := true;
     enableCaching := true;
     modelName := "claude-3-5-sonnet-20241022" |}.

(** A world in which nothing has been cached or sent yet. *)
Definition world : World :=
  {| LLM.heap := {[ 1%positive := conversation ]};
     LLM.cache := ∅;
     LLM.calls := [];
     LLM.clock := 1730592000000;
     LLM.logs := [] |}.

End AnthropicScenario.

Module AnthropicCases.
Import Anthropic.

(** A chat request without a schema, on the conversation of the scenario. *)
Definition chat : Options :=
  {| base :=
       {| LLM.messages := 1%positive;
          LLM.temperature := Some 0.1%float;
          LLM.top_p := None;
          LLM.frequency_penalty := None;
          LLM.presence_penalty := None;
          LLM.image := None;
          LLM.response_model := None;
          LLM.tools := None;
          LLM.maxTokens := Some 0%float;
          LLM.requestId := Some "req-2" |};
     retries := None |}.

(** The request of the scenario as a caller would pass it who has counted
    five retries of its own. *)
Definition counted : Options :=
  {| base := base AnthropicScenario.options; retries := Some 5%Z |}.

(** A backend that is overloaded, and one that talks first, then uses a tool
    of the caller's, and only then the tool that prints the data. *)
Definition overloaded : AnthropicClient :=
  {| client := λ _ _, Rejected "529 overloaded_error";
     cache := true;
     enableCaching := true;
     modelName := "claude-3-5-sonnet-20241022" |}.

Definition eagerReply : Message :=
  {| msg_id := "msg_03";
     msg_model := "claude-3-5-sonnet-20241022";
     msg_content :=
       [ TextBlock "Let me look that up.";
         ToolUseBlock "toolu_02" "get_repository" "{name: react}";
         ToolUseBlock "toolu_03" "print_extracted_data" "{stars: 1000}" ];
     msg_stop_reason := Some "tool_use";
     msg_usage := {| input_tokens := 130; output_tokens := 40 |} |}.

Definition eager : AnthropicClient :=
  {| client := λ _ _, Fulfilled eagerReply;
     cache := true;
     enableCaching := true;
     modelName := "claude-3-5-sonnet-20241022" |}.

(** A conversation whose only system message carries an image. *)
Definition illustrated : list LLM.ChatMessage :=
  [ {| LLM.role := LLM.system;
       LLM.content :=
         LLM.ContentArray
           [ LLM.ChatMessageTextContent "text" "You extract data from web pages.";
             LLM.ChatMessageImageContent "data:image/png;base64,iVBORw0KGgo=" None ] |};
    {| LLM.role := LLM.user; LLM.content := LLM.ContentString "Stars: 1000" |} ].

End AnthropicCases.

Module OpenAICases.
Import OpenAI.

(** The request of the scenario, with its screenshot, asking for structured
    data; and a client whose [JSON.parse] accepts objects only, in front of
    the backend of the scenario, which answers in prose. *)
Definition structured : LLM.ChatCompletionOptions :=
  {| LLM.messages := 1%positive;
     LLM.temperature := Some 0.1%float;
     LLM.top_p := Some 1%float;
     LLM.frequency_penalty := Some 0%float;
     LLM.presence_penalty := Some 0%float;
     LLM.image :=
       Some {| LLM.buffer := "/9j/4AAQSkZJRg=="; LLM.description := Some "the page" |};
     LLM.response_model :=
       Some {| LLM.name := "Extraction"; LLM.schema := Scenario.starsSchema |};
     LLM.tools := None;
     LLM.maxTokens := None;
     LLM.requestId := Some "req-3" |}.

Definition strict : OpenAIClient :=
  {| client := λ _ _, Fulfilled OpenAIScenario.completion;
     JSON_parse := λ text, if String.prefix "{" text then Some text else None;
     cache := true;
     enableCaching := true;
     modelName := "gpt-4o" |}.

End OpenAICases.

(* ------------------------------------------------------------------------- *)
(** ** [src/unnamed/part_002], lines 120-350: the eval runner *)

Module Evals.

(** [env], lines 145-148. *)
Inductive Env := BROWSERBASE | LOCAL.

#[global] Instance Env_eq_dec : EqDecision Env.
Proof. solve_decision. Defined.

(** [models], line 150. *)
Definition models : list string := ["gpt-4o"; "claude-3-5-sonnet-20241022"].

(** The keys of [tasks], lines 152-171, in the order of the object literal. *)
Definition taskNames : list string :=
  [ "vanta"; "vanta_h"; "peeler_simple"; "peeler_complex"; "wikipedia";
    "simple_google_search"; "extract_github_stars"; "extract_collaborators";
    "extract_github_commits"; "costar"; "google_jobs"; "homedepot";
    "extract_partners"; "laroche_form"; "arxiv"; "expedia_search";
    "amazon_add_to_cart"; "extract_press_releases" ].

(** The object an eval function returns, as far as the runner reads it: its
    [_success] and its [error].  [_success] is absent or a boolean, as it is
    in every eval function of these sources; [error] is absent or a JSON
    value, held as its text. *)
Record Result := {
  _success : option bool;
  error : option JsonText }.

(** [output: any].  An object has an identity, which is what [===] compares,
    and the two properties above. *)
Inductive Value :=
| Undefined
| Null
| Bool (b : bool)
| Number (n : float)
| Str (s : string)
| Object (id : positive) (result : Result).

(** [a === b] *)
Definition strictEquals (a b : Value) : bool :=
  match a, b with
  | Undefined, Undefined | Null, Null => true
  | Bool x, Bool y => bool_decide (x = y)
  | Number x, Number y => PrimFloat.eqb x y
  | Str x, Str y => bool_decide (x = y)
  | Object x _, Object y _ => bool_decide (x = y)
  | _, _ => false
  end.

(** [output?._success] and [output?.error]: a property read off a primitive
    gives [undefined], as does the optional chain off [undefined] or
    [null]. *)
Definition success_of (output : Value) : option bool :=
  match output with
  | Object _ result => _success result
  | _ => None
  end.

Definition error_of (output : Value) : option JsonText :=
  match output with
  | Object _ result => error result
  | _ => None
  end.

Record EvalInput := { name : string; modelName : string }.

#[global] Instance EvalInput_eq_dec : EqDecision EvalInput.
Proof. solve_decision. Defined.

Record Args := {
  input : EvalInput;
  output : Value;
  expected : Value }.

Record Score := { score_name : string; score : Z }.

(** [exactMatch], lines 173-195.  What it prints on the console is left
    out. *)
Definition exactMatch (args : Args) : Score :=
  let expected :=
    match expected args with
    | Undefined | Null => Bool true
    | expected => expected
    end in
  if strictEquals expected (Bool true) then
    {| score_name := "Exact match";
       score := if strictEquals (output args) (Bool true)
                   || bool_decide (success_of (output args) = Some true)
                then 1 else 0 |}
  else
    {| score_name := "Exact match";
       score := if strictEquals (output args) expected then 1 else 0 |}.

(** [errorMatch], lines 197-211. *)
Definition errorMatch (args : Args) : Score :=
  {| score_name := "Error rate";
     score := if error_of (output args) is Some _ then 1 else 0 |}.

(** [testcases], lines 213-231. *)
Definition testcases (env : Env) : list string :=
  [ "vanta"; "vanta_h" ]
  ++ match env with BROWSERBASE => [] | LOCAL => ["peeler_simple"] end
  ++ [ "wikipedia"; "peeler_complex"; "simple_google_search";
       "extract_github_stars"; "extract_collaborators_from_github_repository";
       "extract_last_twenty_github_commits"; "google_jobs"; "homedepot";
       "extract_partners"; "laroche_form"; "arxiv"; "amazon_add_to_cart";
       "extract_press_releases"; "expedia_search" ].

(** An element of [results]. *)
Record EvalResult := {
  result_input : EvalInput;
  result_output : Value }.

Record TaskStatus := {
  status_name : string;
  status_modelName : string;
  success : bool }.

Record FormattedSummary := {
  exactMatchScore : option float;
  totalTasks : nat;
  passedTasks : list EvalInput;
  failedTasks : list EvalInput }.

(** [generateSummary], lines 233-263: the object it writes to
    [eval-summary.json].  [exactMatch] is the entry of [summary.scores] under
    ["Exact match"], if there is one, with its score, which may be [null]. *)
Definition generateSummary (exactMatch : option (option float))
  (results : list EvalResult) : FormattedSummary :=
  let exactMatch := default None exactMatch in
  let taskStatuses :=
    (λ result,
       {| status_name := name (result_input result);
          status_modelName := modelName (result_input result);
          success := default false (success_of (result_output result)) |})
      <$> results in
  let totalTasks := length taskStatuses in
  let passedTasks :=
    (λ task, {| name := status_name task; modelName := status_modelName task |})
      <$> filter (λ task, success task = true) taskStatuses in
  let failedTasks :=
    (λ task, {| name := status_name task; modelName := status_modelName task |})
      <$> filter (λ task, negb (success task) = true) taskStatuses in
  {| exactMatchScore := (λ score, (score * 100)%float) <$> exactMatch;
     totalTasks := totalTasks;
     passedTasks := passedTasks;
     failedTasks := failedTasks |}.

Record Testcase := {
  testcase_input : EvalInput;
  testcase_name : string;
  tags : list string;
  metadata_model : string;
  metadata_test : string }.

(** [data], lines 273-300.  [ciEvals] is the constant of line 265, absent or
    a list of names; [filter] is [process.argv[2]]. *)
Definition data (env : Env) (ciEvals : option (list string)) (filter : option string)
  : list Testcase :=
  let allTestcases :=
    models ≫= λ model,
      testcases env ≫= λ test,
        [ {| testcase_input := {| name := test; modelName := model |};
             testcase_name := test;
             tags := [model; test];
             metadata_model := model;
             metadata_test := test |} ] in
  let allTestcases :=
    match ciEvals with
    | Some ((_ :: _) as ciEvals) =>
        base.filter (λ testcase, testcase_name testcase ∈ ciEvals) allTestcases
    | _ => allTestcases
    end in
  match filter with
  | Some ((String _ _) as filter) =>
      base.filter (λ testcase,
                     testcase_name testcase = filter
                     ∨ name (testcase_input testcase) = filter)
        allTestcases
  | _ => allTestcases
  end.

(** The arguments with which the runner calls a scorer for a result: no test
    case of [data] has an [expected]. *)
Definition scored (result : EvalResult) : Args :=
  {| input := result_input result;
     output := result_output result;
     expected := Undefined |}.

(** What an eval function may throw, as far as [task] can tell: whether it is
    [undefined] or [null], and what [JSON.stringify] makes of it, which is
    nothing for [undefined], a function or a symbol. *)
Record Exception := {
  nullish : bool;
  stringified : option JsonText }.

(** An [Error] without enumerable properties of its own, such as the
    [TypeError] of a call of [undefined]. *)
Definition plainError : Exception :=
  {| nullish := false; stringified := Some "{}" |}.

Inductive Settled :=
| Resolves (value : Value)
| Rejects (error : Exception).

(** An eval function, given the model it is to run with. *)
Definition EvalFunction := string → Settled.

(** [tasks], lines 152-171: each key with the function imported under its
    name. *)
Definition tasks (imported : string → EvalFunction) : list (string * EvalFunction) :=
  (λ key, (key, imported key)) <$> taskNames.

(** [tasks[input.name]]: the function under an own key of [tasks], if there
    is one.  The names the runner passes are those of [testcases], none of
    which names a property that an object inherits. *)
Definition tasks_lookup (imported : string → EvalFunction) (key : string)
  : option EvalFunction :=
  snd <$> find (λ entry, bool_decide (entry.1 = key)) (tasks imported).

(** [task], lines 301-340.  [fresh] is the identity of the object the [catch]
    block makes.  What goes to the console and to the logger is left out. *)
Definition task (imported : string → EvalFunction) (fresh : positive)
  (input : EvalInput) : Outcome Value :=
  let settled :=
    match tasks_lookup imported (name input) with
    | Some function => function (modelName input)
    | None => Rejects plainError
    end in
  match settled with
  | Resolves result => Returned result
  | Rejects error =>
      if nullish error then
        Thrown (TypeError "Cannot read properties of undefined (reading 'stack')")
      else
        match stringified error with
        | None => Thrown (SyntaxError "undefined is not valid JSON")
        | Some json =>
            Returned (Object fresh {| _success := Some false; error := Some json |})
        end
  end.

End Evals.

(* ------------------------------------------------------------------------- *)
(** ** The eval functions: [src/evals/act/wikipedia.ts],
       [src/evals/combination/arxiv.ts], [src/unnamed/part_000] to
       [part_002] *)

Module EvalScripts.
Import Evals.

(** The double quotation mark, as a string. *)
Definition quote : string :=
  String (Ascii.Ascii false true false false false true false false) EmptyString.

(** What an eval function asks of its collaborators, [initStagehand], the
    [stagehand] this gives it and the [logger], in the order in which it asks.
    Of an extraction the instruction and the model are kept, the schema is
    not; of a line for the logger, the message. *)
Inductive Call :=
| Init (modelName : string)
| Goto (url : string)
| Act (action : string) (variables : list (string * string))
| Extract (instruction : string) (modelName : option string)
| PageUrl
| LoggerLog (message : string)
| LoggerError (message : string)
| Close.

#[global] Instance Call_eq_dec : EqDecision Call.
Proof. solve_decision. Defined.

Definition Trace := list Call.

(** What the extractions of these functions give, by their schemas. *)
Record PaperLink := { title : string; link : option string }.

Record PaperLinks := { papers : option (list PaperLink) }.

Record Abstract := {
  category : string;
  problem : option string;
  methodology : option string;
  results : option string;
  conclusion : option string;
  code : option string }.

(** [{ title: paper.title, link: paper.link, ...abstract }] *)
Record Paper := {
  paper_title : string;
  paper_link : string;
  paper_abstract : Abstract }.

Record Commit := {
  commit_message : string;
  commit_url : string;
  commit_hash : string }.

(** A string of which the code reads the length only: its UTF-16 code
    units. *)
Definition CodeUnits := list N.

(** The collaborators.  Each answers in view of the calls made so far; an
    answer is a value or a rejection.  [page_url] is [stagehand.page.url()],
    a read that gives a string, and [json_of] is
    [JSON.parse(JSON.stringify(error, null, 2))]. *)
Record Stagehand := {
  settle : Trace → Call → Reply unit;
  page_url : Trace → string;
  extract_papers : Trace → Reply (option PaperLinks);
  extract_abstract : Trace → Reply Abstract;
  extract_title : Trace → Reply (option CodeUnits);
  extract_price : Trace → Reply (option float);
  extract_commits : Trace → Reply (list Commit);
  json_of : Error → JsonText }.

(** A call, and the call of a method that answers nothing. *)
Definition call {A} (c : Call) (answer : Trace → Reply A) : Eff Trace A :=
  λ trace,
    match answer trace with
    | Fulfilled a => (Returned a, trace ++ [c])
    | Rejected reason => (Thrown (JsError reason), trace ++ [c])
    end.

Definition perform (stagehand : Stagehand) (c : Call) : Eff Trace unit :=
  call c (λ trace, settle stagehand trace c).

(** Modelled from the spec: the logger, the "logging sink" to which records
    are "emitted".  [logger.log] and [logger.error] take a record, answer
    nothing and do not fail. *)
Definition logger_log (message : string) : Eff Trace unit :=
  call (LoggerLog message) (λ _, Fulfilled tt).

Definition logger_error (message : string) : Eff Trace unit :=
  call (LoggerError message) (λ _, Fulfilled tt).

(** [try { body } catch (error) { handler }] and
    [try { body } finally { finalizer }], for a finalizer that does not
    return. *)
Definition tryCatch {W A} (body : Eff W A) (handler : Error → Eff W A) : Eff W A :=
  λ w,
    match body w with
    | (Returned a, w') => (Returned a, w')
    | (Thrown e, w') => handler e w'
    end.

Definition tryFinally {W A} (body : Eff W A) (finalizer : Eff W unit) : Eff W A :=
  λ w,
    let '(r, w') := body w in
    match finalizer w' with
    | (Returned _, w'') => (r, w'')
    | (Thrown e, w'') => (Thrown e, w'')
    end.

(** A value is truthy, for a string that may be missing, when it is there and
    not empty. *)
Definition truthy (s : option string) : bool :=
  match s with
  | Some (String _ _) => true
  | _ => false
  end.

(** The object a function returns, as the runner reads it. *)
Definition result (fresh : positive) (success : bool) (error : option JsonText)
  : Value :=
  Object fresh {| _success := Some success; error := error |}.

(** [wikipedia], src/evals/act/wikipedia.ts, lines 4-29. *)
Definition wikipedia (stagehand : Stagehand) (fresh : positive) (modelName : string)
  : Eff Trace Value :=
  _ ← perform stagehand (Init modelName);
  _ ← perform stagehand (Goto "https://en.wikipedia.org/wiki/Baseball");
  _ ← perform stagehand
        (Act ("click the " +:+ quote +:+ "hit and run" +:+ quote
              +:+ " link in this article") []);
  let url := "https://en.wikipedia.org/wiki/Hit_and_run_(baseball)" in
  currentUrl ← call PageUrl (λ trace, Fulfilled (page_url stagehand trace));
  _ ← perform stagehand Close;
  mret (result fresh (bool_decide (currentUrl = url)) None).

(** [expedia], src/unnamed/part_002, lines 4-35.  The [catch] block is
    empty, so that a run that comes through it returns nothing. *)
Definition expedia (stagehand : Stagehand) (fresh : positive) (modelName : string)
  : Eff Trace Value :=
  _ ← perform stagehand (Init modelName);
  tryFinally
    (tryCatch
       (_ ← perform stagehand (Goto "https://www.expedia.com/flights");
        _ ← perform stagehand
              (Act "find round-trip flights from San Francisco (SFO) to Toronto (YYZ) for Jan 1, 2025 (up to one to two weeks)" []);
        _ ← perform stagehand (Act "Go to the first non-stop flight" []);
        _ ← perform stagehand (Act "select the cheapest flight" []);
        _ ← perform stagehand (Act "click on the first non-stop flight" []);
        _ ← perform stagehand (Act "Take me to the checkout page" []);
        url ← call PageUrl (λ trace, Fulfilled (page_url stagehand trace));
        mret (result fresh (String.prefix "https://www.expedia.com/Checkout/" url)
                None))
       (λ error, mret Undefined))
    (perform stagehand Close).

(** [costar], src/unnamed/part_002, lines 40-119.  The race of line 49 with
    the timer gives the navigation one more way to be rejected. *)
Definition costar (stagehand : Stagehand) (fresh : positive) (modelName : string)
  : Eff Trace Value :=
  _ ← perform stagehand (Init modelName);
  tryFinally
    (tryCatch
       (_ ← perform stagehand (Goto "https://www.costar.com/");
        _ ← perform stagehand (Act "click on the first article" []);
        _ ← perform stagehand
              (Act "click on the learn more button for the first job" []);
        articleTitle_title ←
          call (Extract "extract the title of the article" (Some "gpt-4o-2024-08-06"))
            (extract_title stagehand);
        _ ← logger_log "got article title";
        let isTitleValid :=
          match articleTitle_title with
          | Some title => bool_decide (5 < length title)
          | None => false
          end in
        _ ← perform stagehand Close;
        mret (result fresh isTitleValid None))
       (λ error,
          _ ← logger_error "error in costar function";
          mret (result fresh false None)))
    (perform stagehand Close).

(** [peeler_complex], src/unnamed/part_000, lines 5-65. *)
Definition peeler_complex (stagehand : Stagehand) (fresh : positive)
  (modelName : string) : Eff Trace Value :=
  _ ← perform stagehand (Init modelName);
  tryFinally
    (tryCatch
       (_ ← perform stagehand (Goto "https://chefstoys.com/");
        _ ← perform stagehand
              (Act "search for %search_query%" [("search_query", "peeler")]);
        _ ← perform stagehand
              (Act ("click on the first " +:+ quote +:+ "OXO" +:+ quote
                    +:+ " brand peeler") []);
        price ←
          call (Extract "get the price of the peeler" (Some "gpt-4o-2024-08-06"))
            (extract_price stagehand);
        mret (result fresh
                match price with
                | Some price => PrimFloat.eqb price 11.99
                | None => false
                end
                None))
       (λ error,
          _ ← logger_error "error in peeler_complex function";
          mret (result fresh false (Some (json_of stagehand error)))))
    (perform stagehand Close).

(** [extract_github_commits], src/unnamed/part_001, lines 5-66.  A close
    that is rejected is let pass, by [.catch(() => {})]. *)
Definition extract_github_commits (stagehand : Stagehand) (fresh : positive)
  (modelName : string) : Eff Trace Value :=
  _ ← perform stagehand (Init modelName);
  tryCatch
    (_ ← perform stagehand (Goto "https://github.com/facebook/react");
     _ ← perform stagehand
           (Act "find commit history, generally described by the number of commits"
              []);
     commits ←
       call (Extract "Extract last 20 commits" (Some modelName))
         (extract_commits stagehand);
     _ ← logger_log "Extracted commits";
     _ ← tryCatch (perform stagehand Close) (λ _, mret tt);
     mret (result fresh (bool_decide (length commits = 20)) None))
    (λ error,
       _ ← tryCatch (perform stagehand Close) (λ _, mret tt);
       mret (result fresh false (Some (json_of stagehand error)))).

(** [arxiv], src/evals/combination/arxiv.ts, lines 5-186: the body of the
    first loop, the [try] block, and the function. *)
Definition arxiv_visit (stagehand : Stagehand) (paper : PaperLink)
  (papers : list Paper) : Eff Trace (list Paper) :=
  match link paper with
  | Some ((String _ _) as paper_link) =>
      _ ← perform stagehand (Goto paper_link);
      abstract ←
        call (Extract "extract details of the paper from the abstract"
                (Some "gpt-4o-2024-08-06"))
          (extract_abstract stagehand);
      mret (papers ++ [ {| paper_title := title paper;
                           paper_link := paper_link;
                           paper_abstract := abstract |} ])
  | _ => mret papers
  end.

Definition incomplete (paper : Paper) : bool :=
  negb (truthy (problem (paper_abstract paper)))
  || negb (truthy (methodology (paper_abstract paper))).

Definition arxiv_try (stagehand : Stagehand) (fresh : positive) : Eff Trace Value :=
  _ ← perform stagehand (Goto "https://arxiv.org/search/");
  _ ← perform stagehand
        (Act "search for the recent papers about web agents with multimodal models"
           []);
  paper_links ←
    call (Extract "extract the titles and links for two papers"
            (Some "gpt-4o-2024-08-06"))
      (extract_papers stagehand);
  match paper_links ≫= papers with
  | None | Some [] => mret (result fresh false None)
  | Some paper_links_papers =>
      papers ← forOf paper_links_papers (arxiv_visit stagehand) [];
      if bool_decide (length papers = 0) then mret (result fresh false None)
      else if bool_decide (length papers ≠ 2) then
        _ ← logger_error "incorrect number of papers extracted";
        mret (result fresh false (Some "Incorrect number of papers extracted"))
      else
        match find incomplete papers with
        | Some _ =>
            _ ← logger_error "paper missing problem or methodology";
            mret (result fresh false (Some "Incomplete paper information"))
        | None => mret (result fresh true None)
        end
  end.

Definition arxiv (stagehand : Stagehand) (fresh : positive) (modelName : string)
  : Eff Trace Value :=
  _ ← perform stagehand (Init modelName);
  tryFinally
    (tryCatch
       (arxiv_try stagehand fresh)
       (λ error,
          _ ← logger_error "error in arxiv function";
          mret (result fresh false None)))
    (perform stagehand Close).

(** How often a trace closes the browser context. *)
Definition closes (trace : list Call) : nat :=
  length (filter (λ c, c = Close) trace).

End EvalScripts.

Module EvalCases.
Import Evals EvalScripts.

(** A session in which every call is answered: the browser is on the article
    it was sent to, the listing has three papers, two of them with a link,
    and every abstract is complete. *)
Definition abstract : Abstract :=
  {| category := "Benchmark";
     problem := Some "Web agents are hard to evaluate.";
     methodology := Some "A benchmark of realistic tasks.";
     results := None;
     conclusion := None;
     code := None |}.

Definition listing : PaperLinks :=
  {| papers :=
       Some [ {| title := "WebArena"; link := Some "https://arxiv.org/abs/2307.13854" |};
              {| title := "Mind2Web"; link := None |};
              {| title := "SeeAct"; link := Some "https://arxiv.org/abs/2401.01614" |} ] |}.

Definition cooperative : Stagehand :=
  {| settle := λ _ _, Fulfilled tt;
     page_url := λ _, "https://en.wikipedia.org/wiki/Hit_and_run_(baseball)";
     extract_papers := λ _, Fulfilled (Some listing);
     extract_abstract := λ _, Fulfilled abstract;
     extract_title := λ _, Fulfilled (Some [72; 101; 97; 100; 108; 105; 110; 101]%N);
     extract_price := λ _, Fulfilled (Some 11.99%float);
     extract_commits := λ _, Fulfilled [];
     json_of := λ _, "{}" |}.

(** The same session, but that no action is carried out. *)
Definition stubborn : Stagehand :=
  {| settle := λ _ c,
       match c with
       | Act _ _ => Rejected "Timeout 30000ms exceeded."
       | _ => Fulfilled tt
       end;
     page_url := page_url cooperative;
     extract_papers := extract_papers cooperative;
     extract_abstract := extract_abstract cooperative;
     extract_title := extract_title cooperative;
     extract_price := extract_price cooperative;
     extract_commits := extract_commits cooperative;
     json_of := json_of cooperative |}.

End EvalCases.

(* ------------------------------------------------------------------------- *)
(** * Properties *)

(** ** Running a computation *)

Section Eff.
Context {W : Type}.

Lemma run_ret {A} (a : A) (w : W) : (mret a : Eff W A) w = (Returned a, w).
Proof. reflexivity. Qed.

Lemma run_bind {A B} (m : Eff W A) (k : A → Eff W B) (w : W) :
  ((m ≫= k) : Eff W B) w =
  match m w with
  | (Returned a, w') => k a w'
  | (Thrown e, w') => (Thrown e, w')
  end.
Proof. reflexivity. Qed.

Lemma run_bind_returned {A B} (m : Eff W A) (k : A → Eff W B) w a w' :
  m w = (Returned a, w') → ((m ≫= k) : Eff W B) w = k a w'.
Proof. intros H. rewrite run_bind, H. reflexivity. Qed.

Lemma run_bind_thrown {A B} (m : Eff W A) (k : A → Eff W B) w e w' :
  m w = (Thrown e, w') → ((m ≫= k) : Eff W B) w = (Thrown e, w').
Proof. intros H. rewrite run_bind, H. reflexivity. Qed.

Lemma run_modify (f : W → W) (w : W) : modify f w = (Returned tt, f w).
Proof. reflexivity. Qed.

Lemma run_gets {A} (f : W → A) (w : W) : gets f w = (Returned (f w), w).
Proof. reflexivity. Qed.

Lemma run_throw {A} (e : Error) (w : W) : throw (A := A) e w = (Thrown e, w).
Proof. reflexivity. Qed.

(** How a sequence got to its outcome. *)
Lemma bind_inv {A B} (m : Eff W A) (k : A → Eff W B) w r w' :
  ((m ≫= k) : Eff W B) w = (r, w') →
  (∃ a w1, m w = (Returned a, w1) ∧ k a w1 = (r, w'))
  ∨ (∃ e, m w = (Thrown e, w') ∧ r = Thrown e).
Proof.
  rewrite run_bind. destruct (m w) as [[a|e] w1]; intros H.
  - left. eauto.
  - right. inversion H. eauto.
Qed.

End Eff.

(** Split a hypothesis [H : (m ≫= k) w = (r, w')] into the run of [m] and the
    run of the continuation. *)
Ltac bind_inv H :=
  let a := fresh "a" in
  let w1 := fresh "w" in
  let e := fresh "e" in
  let H1 := fresh "Hrun" in
  apply bind_inv in H as [(a & w1 & H1 & H) | (e & H1 & ->)].

(* ------------------------------------------------------------------------- *)
(** ** The annotation sequence (extractHandler.ts, lines 96-139) *)

Section Annotations.
Import ExtractHandler.

Implicit Types (box : BoundingBox.t) (boxes : list BoundingBox.t).
Implicit Types (k : AnnotationKey) (vp : ViewportSize.t).

Lemma filter_keeps_all {A} (P : A → Prop) `{∀ x, Decision (P x)} (l : list A) :
  (∀ x, x ∈ l → P x) → filter P l = l.
Proof.
  induction l as [|a l IH]; intros Hall; [done|].
  rewrite filter_cons_True by (apply Hall; left).
  f_equal. apply IH. intros x Hx. apply Hall. by right.
Qed.

(** *** When two boxes have the same key *)

Lemma SFeqb_finite s1 m1 e1 s2 m2 e2 :
  SFeqb (S754_finite s1 m1 e1) (S754_finite s2 m2 e2) = true
  ↔ s1 = s2 ∧ m1 = m2 ∧ e1 = e2.
Proof.
  unfold SFeqb, SFcompare.
  change (Pos.compare_cont Eq m1 m2) with (Pos.compare m1 m2).
  split.
  - destruct s1, s2; try done;
      destruct (Z.compare_spec e1 e2) as [->|?|?]; try done;
      destruct (Pos.compare_spec m1 m2) as [->|?|?]; done.
  - intros (-> & -> & ->). rewrite Z.compare_refl, Pos.compare_refl.
    by destruct s2.
Qed.

(** Two numbers print as the same JSON text exactly when they are equal as
    numbers or neither is finite. *)
Lemma ofNumber_sameNumber x y :
  JSON.ofNumber x = JSON.ofNumber y ↔ JSON.sameNumber x y = true.
Proof.
  assert (∀ s m e, SFeqb (S754_finite s m e) (S754_finite s m e) = true) as Hrefl
    by (intros; by apply SFeqb_finite).
  unfold JSON.sameNumber, JSON.ofNumber, is_finite, is_nan, is_infinity.
  rewrite !FloatAxioms.eqb_spec, !abs_spec.
  change (Prim2SF infinity) with (S754_infinity false).
  destruct (Prim2SF x) as [| | |? mx ex], (Prim2SF y) as [| | |? my ey];
    rewrite ?Hrefl; cbn [SFabs].
  16:{ change (SFeqb (S754_finite false mx ex) (S754_infinity false)) with false.
       change (SFeqb (S754_finite false my ey) (S754_infinity false)) with false.
       cbn [negb orb andb]. rewrite orb_false_r, SFeqb_finite.
       split; [by intros [= -> -> ->]|by intros (-> & -> & ->)]. }
  all: repeat match goal with s : bool |- _ => destruct s end; done.
Qed.

(** The key of a box is its text, its centre, its width and its height. *)
Lemma annotationKey_eq box1 box2 :
  annotationKey box1 = annotationKey box2
  ↔ BoundingBox.text box1 = BoundingBox.text box2
    ∧ JSON.sameNumber (BoundingBox.left box1 + BoundingBox.width box1 / 2)
        (BoundingBox.left box2 + BoundingBox.width box2 / 2) = true
    ∧ JSON.sameNumber (BoundingBox.top box1 + BoundingBox.height box1 / 2)
        (BoundingBox.top box2 + BoundingBox.height box2 / 2) = true
    ∧ JSON.sameNumber (BoundingBox.width box1) (BoundingBox.width box2) = true
    ∧ JSON.sameNumber (BoundingBox.height box1) (BoundingBox.height box2) = true.
Proof.
  rewrite <- !ofNumber_sameNumber. unfold annotationKey. split.
  - by intros [= -> -> -> -> ->].
  - by intros (-> & -> & -> & -> & ->).
Qed.

Lemma firstOccurrences_app boxes1 boxes2 :
  firstOccurrences (boxes1 ++ boxes2) =
  firstOccurrences boxes1
  ++ filter (λ box, annotationKey box ∉ annotationKey <$> boxes1)
       (firstOccurrences boxes2).
Proof.
  induction boxes1 as [|b boxes1 IH]; simpl.
  - symmetry. apply filter_keeps_all. intros box _. apply not_elem_of_nil.
  - f_equal. rewrite IH, filter_app. f_equal.
    rewrite list_filter_filter. apply list_filter_iff. intros box.
    rewrite not_elem_of_cons. tauto.
Qed.

Lemma firstOccurrences_sublist boxes : firstOccurrences boxes `sublist_of` boxes.
Proof.
  induction boxes as [|b boxes IH]; simpl; [done|].
  apply sublist_skip. etrans; [apply sublist_filter|done].
Qed.

Lemma firstOccurrences_keys boxes k :
  k ∈ annotationKey <$> firstOccurrences boxes ↔ k ∈ annotationKey <$> boxes.
Proof.
  induction boxes as [|b boxes IH]; simpl; [done|].
  rewrite !elem_of_cons, <- IH, !list_elem_of_fmap.
  split.
  - intros [->|(box & -> & Hin)]; [by left|].
    apply list_elem_of_filter in Hin as [_ Hin]. right. eauto.
  - intros [->|(box & -> & Hin)]; [by left|].
    destruct (decide (annotationKey box = annotationKey b)) as [Heq|Hne]; [by left|].
    right. exists box. split; [done|]. by apply list_elem_of_filter.
Qed.

Lemma firstOccurrences_NoDup boxes :
  NoDup (annotationKey <$> firstOccurrences boxes).
Proof.
  induction boxes as [|b boxes IH]; simpl; [constructor|].
  apply NoDup_cons. split.
  - rewrite list_elem_of_fmap. intros (box & Heq & Hin).
    apply list_elem_of_filter in Hin as [Hne _]. congruence.
  - eapply sublist_NoDup; [exact IH|apply fmap_sublist, sublist_filter].
Qed.

(** A box whose key has been met before leaves no trace, wherever it stands. *)
Lemma firstOccurrences_duplicate boxes1 box boxes2 :
  annotationKey box ∈ annotationKey <$> boxes1 →
  firstOccurrences (boxes1 ++ box :: boxes2) = firstOccurrences (boxes1 ++ boxes2).
Proof.
  intros Hin. rewrite !firstOccurrences_app. f_equal. simpl.
  rewrite filter_cons_False by (intros Hn; by apply Hn).
  rewrite list_filter_filter. apply list_filter_iff. intros b.
  split; [tauto|]. intros Hb. split; [done|]. congruence.
Qed.

(** Every kept box is the first of the sequence to carry its key. *)
Lemma firstOccurrences_first boxes box :
  box ∈ firstOccurrences boxes →
  ∃ boxes1 boxes2,
    boxes = boxes1 ++ box :: boxes2
    ∧ annotationKey box ∉ annotationKey <$> boxes1.
Proof.
  induction boxes as [|b boxes IH]; simpl; [by intros ?%elem_of_nil|].
  intros [->|Hin]%elem_of_cons.
  - exists [], boxes. split; [done|]. apply not_elem_of_nil.
  - apply list_elem_of_filter in Hin as [Hne Hin].
    destruct (IH Hin) as (boxes1 & boxes2 & -> & Hfresh).
    exists (b :: boxes1), boxes2. split; [done|].
    rewrite fmap_cons, not_elem_of_cons. done.
Qed.

(** The loop of lines 113-138 computes the first occurrences, given that it
    starts from what earlier boxes have left. *)
Lemma visitBoxes_firstOccurrences vp boxes earlier (seen : gset AnnotationKey) :
  (∀ k, k ∈ seen ↔ k ∈ annotationKey <$> earlier) →
  ∃ seen' : gset AnnotationKey,
    visitBoxes vp boxes (seen, textAnnotation vp <$> firstOccurrences earlier)
    = (seen', textAnnotation vp <$> firstOccurrences (earlier ++ boxes))
    ∧ ∀ k, k ∈ seen' ↔ k ∈ annotationKey <$> (earlier ++ boxes).
Proof.
  revert earlier seen.
  induction boxes as [|b boxes IH]; intros earlier seen Hseen; simpl.
  - exists seen. by rewrite app_nil_r.
  - unfold visitBoxes in *. simpl.
    replace (earlier ++ b :: boxes) with ((earlier ++ [b]) ++ boxes)
      by (by rewrite <- app_assoc).
    case_bool_decide as Hb.
    + destruct (IH (earlier ++ [b]) seen) as (seen' & Heq & Hseen').
      { intros k. rewrite fmap_app, elem_of_app, Hseen. simpl.
        rewrite list_elem_of_singleton. split; [tauto|].
        intros [?| ->]; [done|]. by apply Hseen. }
      exists seen'. split; [|done]. rewrite <- Heq. do 3 f_equal.
      rewrite <- (app_nil_r (earlier ++ [b])), <- app_assoc. simpl.
      symmetry. rewrite <- (app_nil_r earlier) at 2.
      apply firstOccurrences_duplicate. by apply Hseen.
    + destruct (IH (earlier ++ [b]) ({[annotationKey b]} ∪ seen)) as (seen' & Heq & Hseen').
      { intros k. rewrite fmap_app, elem_of_app, elem_of_union, elem_of_singleton, Hseen.
        simpl. rewrite list_elem_of_singleton. tauto. }
      exists seen'. split; [|done]. rewrite <- Heq. do 2 f_equal.
      rewrite firstOccurrences_app, fmap_app. f_equal. simpl.
      rewrite filter_cons_True; [done|]. intros Hin. by apply Hb, Hseen.
Qed.

End Annotations.

(* ------------------------------------------------------------------------- *)
(** ** One run of [extract] (extractHandler.ts, lines 54-196) *)

Section Extract.
Import ExtractHandler.

Implicit Types (this : StagehandExtractHandler) (options : ExtractOptions).
Implicit Types (w : World).

Ltac prim H :=
  cbv [logger waitForSettledDom startDomDebug cleanupDomDebug evaluate storeDOM
       restoreDOM modify gets throw mret Eff_ret] in H;
  inversion H; subst; clear H.

Lemma run_evaluate {A} (script : Script A) w :
  evaluate script w =
  match script (DOM w) with
  | (Fulfilled a, d) => (Returned a, setDOM d w)
  | (Rejected reason, d) => (Thrown (EvaluateError reason), setDOM d w)
  end.
Proof. reflexivity. Qed.

(** The loop over the selector map: when it comes to its end, it has visited
    the boxes of the page in order; when it does not, a page evaluation has
    failed.  Either way it has had no exchange with the backend. *)
Lemma collectAnnotations_outcome this entries acc w :
  match collectAnnotations this entries acc w with
  | (Returned acc', w') =>
      acc' = visitBoxes (viewportSize this)
               (boundingBoxesOf (window this) entries (DOM w)) acc
      ∧ inferences w' = inferences w
  | (Thrown e, w') =>
      (∃ reason, e = EvaluateError reason) ∧ inferences w' = inferences w
  end.
Proof.
  revert acc w. induction entries as [|xpaths entries IH]; intros acc w; [done|].
  unfold collectAnnotations in *. simpl. rewrite !run_bind, run_evaluate.
  destruct (getElementBoundingBoxes (window this) (head xpaths) (DOM w))
    as [[boundingBoxes|reason] d]; simpl; [|by eauto].
  specialize (IH (visitBoxes (viewportSize this) boundingBoxes acc) (setDOM d w)).
  destruct (forOf entries _ _ _) as [[acc'|e] w']; simpl in *.
  - destruct IH as [-> ->]. split; [|done].
    unfold visitBoxes. by rewrite fold_left_app.
  - done.
Qed.

(** Every run of [extract] is of one of two kinds.  Either a page evaluation
    fails, and the run ends there, before the backend is asked.  Or the page
    evaluations succeed: then the document is put back, the backend is asked
    exactly once, and its reply alone decides how the run ends. *)
Ltac loop_outcome Hloop :=
  match goal with
  | H : collectAnnotations ?t ?entries ?acc ?w0 = _ |- _ =>
      pose proof (collectAnnotations_outcome t entries acc w0) as Hloop;
      rewrite H in Hloop
  end.

Lemma extract_outcome this options w :
  let '(r, w') := extract this options w in
  ((∃ reason, r = Thrown (EvaluateError reason)) ∧ inferences w' = inferences w)
  ∨ (DOM w' = DOM w
     ∧ ∃ o, inferences w' = inferences w ++ [(o, inference this o)]
       ∧ r = match inference this o with
             | Rejected reason => Thrown (InferenceError reason)
             | Fulfilled response =>
                 if metadata_completed response then Returned (output response)
                 else Thrown (JsError "Extraction not completed")
             end).
Proof.
  destruct (extract this options w) as [r w'] eqn:Hrun. unfold extract in Hrun.
  bind_inv Hrun; [|by prim Hrun0]. prim Hrun0.
  bind_inv Hrun; [|by prim Hrun0]. prim Hrun0.
  bind_inv Hrun; [|by prim Hrun0]. prim Hrun0.
  bind_inv Hrun; [|by prim Hrun0]. prim Hrun0.
  bind_inv Hrun.
  2:{ left. rewrite run_evaluate in Hrun0. simpl in Hrun0.
      destruct (processAllOfDom _ _) as [[?|reason] d]; simplify_eq/=. eauto. }
  rewrite run_evaluate in Hrun0. simpl in Hrun0.
  destruct (processAllOfDom _ _) as [[selectorMap|reason] d1]; simplify_eq/=.
  bind_inv Hrun; [|by prim Hrun0]. prim Hrun0.
  bind_inv Hrun.
  2:{ left. rewrite run_evaluate in Hrun0. simpl in Hrun0.
      destruct (createTextBoundingBoxes _ _) as [[?|reason] d]; simplify_eq/=. eauto. }
  rewrite run_evaluate in Hrun0. simpl in Hrun0.
  destruct (createTextBoundingBoxes _ _) as [[[]|reason] d2]; simplify_eq/=.
  bind_inv Hrun.
  2:{ left. loop_outcome Hloop. destruct Hloop as [[reason ->] ->]. eauto. }
  loop_outcome Hloop. destruct Hloop as [-> Hinf].
  bind_inv Hrun; [|by prim Hrun1]. prim Hrun1.
  right.
  bind_inv Hrun; unfold inferenceExtract in Hrun1; simpl in Hrun1;
    destruct (inference this _) as [response|reason] eqn:Hreply; simplify_eq/=;
    match type of Hreply with inference _ ?o = _ => (split; [|exists o]) end;
    rewrite ?Hreply.
  - bind_inv Hrun; [|by prim Hrun1]. prim Hrun1.
    bind_inv Hrun; [|by prim Hrun1]. prim Hrun1.
    destruct (metadata_completed _).
    + bind_inv Hrun; [|by prim Hrun1]. prim Hrun1. by prim Hrun.
    + by prim Hrun.
  - bind_inv Hrun; [|by prim Hrun1]. prim Hrun1.
    bind_inv Hrun; [|by prim Hrun1]. prim Hrun1.
    destruct (metadata_completed _).
    + bind_inv Hrun; [|by prim Hrun1]. prim Hrun1. prim Hrun. simpl.
      by rewrite Hinf.
    + prim Hrun. simpl. by rewrite Hinf.
  - done.
  - simpl. by rewrite Hinf.
Qed.

End Extract.

(* ------------------------------------------------------------------------- *)
(** ** The claims about [extract] *)

Section ExtractClaims.
Import ExtractHandler.

Implicit Types (this : StagehandExtractHandler) (options : ExtractOptions).
Implicit Types (w : World).

(** What [visitBox] pushes for a box whose key is new: the anchor is the
    bottom-left corner, and the normalised ordinate is [top] plus the
    normalised height. *)
Lemma visitBox_first_occurrence vp (seen : gset AnnotationKey) textAnnotations box :
  annotationKey box ∉ seen →
  visitBox vp (seen, textAnnotations) box
  = ({[annotationKey box]} ∪ seen, textAnnotations ++ [textAnnotation vp box])
  ∧ TextAnnotation.midpoint (textAnnotation vp box)
    = {| Point.x := BoundingBox.left box;
         Point.y := (BoundingBox.top box + BoundingBox.height box)%float |}
  ∧ TextAnnotation.midpoint_normalized (textAnnotation vp box)
    = {| Point.x := (BoundingBox.left box / ViewportSize.width vp)%float;
         Point.y := (BoundingBox.top box
                     + BoundingBox.height box / ViewportSize.height vp)%float |}.
Proof.
  intros Hnew. unfold visitBox. by rewrite bool_decide_eq_false_2.
Qed.

(** C1, as the code has it.  Whenever no page evaluation fails, the document
    after [extract] is the document before it, whether [extract] returns, the
    completion call fails, or the extraction is reported incomplete. *)
Theorem extract_restores_dom this options w :
  (∀ reason, (extract this options w).1 ≠ Thrown (EvaluateError reason)) →
  DOM (extract this options w).2 = DOM w.
Proof.
  intros Hpage. pose proof (extract_outcome this options w) as Hrun.
  destruct (extract this options w) as [r w']. simpl in *.
  destruct Hrun as [[[reason ->] _]|[Hdom _]]; [|done].
  by destruct (Hpage reason).
Qed.

(** C1 at a run in which the completion call fails. *)
Lemma extract_restores_dom_witness :
  DOM (extract (Scenario.handler Scenario.page Scenario.unavailable)
         Scenario.options Scenario.world).2
  = DOM Scenario.world.
Proof.
  apply extract_restores_dom. intros reason H. vm_compute in H. discriminate H.
Defined.

(** C1, as the specification states it, fails: when the bounding boxes of an
    element cannot be evaluated, [extract] throws and the node added by
    [createTextBoundingBoxes] stays in the document. *)
Lemma extract_leaves_dom_modified :
  (extract (Scenario.handler Scenario.brokenPage Scenario.complete)
     Scenario.options Scenario.world).1
  = Thrown (EvaluateError "Execution context was destroyed")
  ∧ DOM (extract (Scenario.handler Scenario.brokenPage Scenario.complete)
           Scenario.options Scenario.world).2
    = "<body><a>Stars: 1000</a><a>Forks: 7</a></body><span class='stagehand-marker'></span>"
  ∧ DOM (extract (Scenario.handler Scenario.brokenPage Scenario.complete)
           Scenario.options Scenario.world).2
    ≠ DOM Scenario.world.
Proof. split; [|split]; [vm_compute; reflexivity ..|]. vm_compute. discriminate. Qed.

(** C2.  If the one reply of the backend in a run carries [completed = false],
    the run throws "Extraction not completed"; and a run that returns data
    has had a reply with [completed = true], whose fields it returns. *)
Theorem extract_completion_gate this options w :
  let '(r, w') := extract this options w in
  (∀ o response,
     inferences w' = inferences w ++ [(o, Fulfilled response)] →
     metadata_completed response = false →
     r = Thrown (JsError "Extraction not completed"))
  ∧ (∀ data,
       r = Returned data →
       ∃ o response,
         inferences w' = inferences w ++ [(o, Fulfilled response)]
         ∧ metadata_completed response = true
         ∧ data = output response).
Proof.
  pose proof (extract_outcome this options w) as Hrun.
  destruct (extract this options w) as [r w'].
  destruct Hrun as [[[reason ->] Hinf]|[_ (o & Hinf & ->)]].
  - split.
    + intros o response Happ _. rewrite Hinf in Happ.
      apply (f_equal length) in Happ. rewrite length_app in Happ. simpl in Happ. lia.
    + intros data [=].
  - split.
    + intros o' response Happ Hc. rewrite Hinf in Happ.
      apply app_inv_head in Happ. injection Happ as -> ->. by rewrite Hc.
    + intros data Hr. destruct (inference this o) as [response|reason] eqn:Hreply;
        [|done].
      destruct (metadata_completed response) eqn:Hc; [|done].
      injection Hr as <-. eauto.
Qed.

(** Two runs against the scenario's page: the backend reports the extraction
    incomplete, respectively complete. *)
Example extract_incomplete_run :
  (extract (Scenario.handler Scenario.page Scenario.incomplete)
     Scenario.options Scenario.world).1
  = Thrown (JsError "Extraction not completed").
Proof. vm_compute. reflexivity. Qed.

Example extract_complete_run :
  (extract (Scenario.handler Scenario.page Scenario.complete)
     Scenario.options Scenario.world).1
  = Returned [("stars", "1000")].
Proof. vm_compute. reflexivity. Qed.

(** C3 at the scenario of the specification.  The anchor is [(10, 40)] and the
    normalised abscissa is [0.01], as specified; the normalised ordinate is
    [20 + 20/500], not the specified [(20 + 20)/500 = 0.08]. *)
Theorem textAnnotation_scenario :
  let a := textAnnotation Scenario.viewport Scenario.stars in
  TextAnnotation.midpoint a = {| Point.x := 10; Point.y := 40 |}
  ∧ Point.x (TextAnnotation.midpoint_normalized a) = 0.01%float
  ∧ Point.y (TextAnnotation.midpoint_normalized a) = (20 + 20 / 500)%float
  ∧ Point.y (midpointNormalizedSpec Scenario.viewport Scenario.stars) = 0.08%float
  ∧ Point.y (TextAnnotation.midpoint_normalized a)
    ≠ Point.y (midpointNormalizedSpec Scenario.viewport Scenario.stars).
Proof.
  repeat split; try (vm_compute; reflexivity).
  intros H. apply (f_equal Prim2SF) in H. vm_compute in H. discriminate H.
Qed.

(** C5.  Two boxes have the same dedup key exactly when their texts are
    equal and their centre [(left + width/2, top + height/2)], their width and
    their height are the same numbers.  When the loop over the selector map
    comes to its end, the annotations it has collected are those of the first
    occurrences of the boxes the page has handed over, in their order: every
    box has a kept box with its key, no two kept boxes have the same key, each
    kept box is the first of the sequence with its key, and a box whose key
    has occurred before makes no difference, wherever it stands. *)
Theorem collectAnnotations_first_occurrences this entries w collected w' :
  collectAnnotations this entries (∅, []) w = (Returned collected, w') →
  let boxes := boundingBoxesOf (window this) entries (DOM w) in
  let kept := firstOccurrences boxes in
  let sameKey box1 box2 :=
    BoundingBox.text box1 = BoundingBox.text box2
    ∧ JSON.sameNumber (BoundingBox.left box1 + BoundingBox.width box1 / 2)
        (BoundingBox.left box2 + BoundingBox.width box2 / 2) = true
    ∧ JSON.sameNumber (BoundingBox.top box1 + BoundingBox.height box1 / 2)
        (BoundingBox.top box2 + BoundingBox.height box2 / 2) = true
    ∧ JSON.sameNumber (BoundingBox.width box1) (BoundingBox.width box2) = true
    ∧ JSON.sameNumber (BoundingBox.height box1) (BoundingBox.height box2) = true in
  (∀ box1 box2, annotationKey box1 = annotationKey box2 ↔ sameKey box1 box2)
  ∧ collected.2 = textAnnotation (viewportSize this) <$> kept
  ∧ (∀ box, box ∈ boxes → ∃ box', box' ∈ kept ∧ sameKey box' box)
  ∧ (∀ i j box1 box2,
       kept !! i = Some box1 → kept !! j = Some box2 → sameKey box1 box2 → i = j)
  ∧ NoDup (annotationKey <$> kept)
  ∧ (∀ k, k ∈ annotationKey <$> kept ↔ k ∈ annotationKey <$> boxes)
  ∧ kept `sublist_of` boxes
  ∧ (∀ box, box ∈ kept →
       ∃ boxes1 boxes2,
         boxes = boxes1 ++ box :: boxes2
         ∧ (annotationKey box ∉ annotationKey <$> boxes1)
         ∧ ∀ box0, box0 ∈ boxes1 → ¬ sameKey box0 box)
  ∧ (∀ boxes1 box boxes2,
       boxes = boxes1 ++ box :: boxes2 →
       annotationKey box ∈ annotationKey <$> boxes1 →
       kept = firstOccurrences (boxes1 ++ boxes2)).
Proof.
  intros Hrun boxes kept sameKey.
  pose proof (collectAnnotations_outcome this entries (∅, []) w) as Hloop.
  rewrite Hrun in Hloop. destruct Hloop as [-> _].
  destruct (visitBoxes_firstOccurrences (viewportSize this) boxes [] ∅)
    as (seen' & Heq & _); [set_solver|].
  assert (∀ box1 box2, annotationKey box1 = annotationKey box2 ↔ sameKey box1 box2)
    as Hkey by apply annotationKey_eq.
  simpl in Heq. fold boxes. rewrite Heq. simpl. fold kept.
  split; [exact Hkey|]. split; [done|].
  split; [|split; [|split; [|split; [|split; [|split]]]]].
  - intros box Hin.
    assert (annotationKey box ∈ annotationKey <$> kept) as Hkept
      by (apply firstOccurrences_keys, list_elem_of_fmap; eauto).
    apply list_elem_of_fmap in Hkept as (box' & Heq' & Hin').
    exists box'. split; [done|]. by apply Hkey.
  - intros i j box1 box2 Hi Hj Hsame%Hkey.
    pose proof (firstOccurrences_NoDup boxes) as Hnodup.
    eapply NoDup_lookup; [exact Hnodup| |].
    + rewrite list_lookup_fmap. fold kept. by rewrite Hi.
    + rewrite list_lookup_fmap. fold kept. rewrite Hj. simpl. by rewrite Hsame.
  - apply firstOccurrences_NoDup.
  - apply firstOccurrences_keys.
  - apply firstOccurrences_sublist.
  - intros box Hin.
    destruct (firstOccurrences_first boxes box Hin)
      as (boxes1 & boxes2 & Hsplit & Hfresh).
    exists boxes1, boxes2. split; [done|]. split; [done|].
    intros box0 Hin0 Hsame%Hkey. apply Hfresh, list_elem_of_fmap. eauto.
  - intros boxes1 box boxes2 Hsplit Hdup. subst kept. rewrite Hsplit.
    by apply firstOccurrences_duplicate.
Qed.

(** C5 at a page on which one text stands at three places: at two of them
    more than once, and at the third with its zeros once positive and once
    negative.  Each place keeps one annotation, the first. *)
Lemma collectAnnotations_first_occurrences_witness :
  boundingBoxesOf Scenario.crowdedPage
    [["/html/body/a[1]"]; ["/html/body/a[2]"]] (DOM Scenario.world)
  = [Scenario.stars; Scenario.starsBelow; Scenario.stars; Scenario.starsAtOrigin;
     Scenario.forks; Scenario.starsAtOrigin'; Scenario.starsBelow; Scenario.stars]
  ∧ ∃ collected w',
      collectAnnotations (Scenario.handler Scenario.crowdedPage Scenario.complete)
        [["/html/body/a[1]"]; ["/html/body/a[2]"]] (∅, []) Scenario.world
      = (Returned collected, w')
      ∧ collected.2
        = textAnnotation Scenario.viewport
            <$> [Scenario.stars; Scenario.starsBelow; Scenario.starsAtOrigin;
                 Scenario.forks].
Proof.
  split; [vm_compute; reflexivity|].
  assert (∃ collected w',
            collectAnnotations (Scenario.handler Scenario.crowdedPage Scenario.complete)
              [["/html/body/a[1]"]; ["/html/body/a[2]"]] (∅, []) Scenario.world
            = (Returned collected, w')) as (collected & w' & Hrun).
  { eexists _, _. unfold collectAnnotations. cbn -[visitBoxes]. reflexivity. }
  exists collected, w'. split; [exact Hrun|].
  destruct (collectAnnotations_first_occurrences _ _ _ _ _ Hrun) as (_ & -> & _).
  vm_compute. reflexivity.
Defined.

End ExtractClaims.

(* ------------------------------------------------------------------------- *)
(** ** One invocation of the Anthropic client (AnthropicClient.ts, 30-345) *)

Section AnthropicInvocation.
Import Anthropic.

Implicit Types (this : AnthropicClient) (options : Options) (w : World).

Lemma createChatCompletion_eq this options w :
  createChatCompletion this options w =
  match invocation this options w with
  | (Returned (Return value), w') => (Returned value, w')
  | (Returned (Recurse options'), w') => createChatCompletion this options' w'
  | (Thrown e, w') => (Thrown e, w')
  end.
Proof.
  rewrite createChatCompletion_equation_1. unfold inspect.
  assert (∀ y (H : invocation this options w = y),
    createChatCompletion_unfold_clause_1 this options w (exist _ y H) =
    match y with
    | (Returned (Return value), w') => (Returned value, w')
    | (Returned (Recurse options'), w') => createChatCompletion this options' w'
    | (Thrown e, w') => (Thrown e, w')
    end) as Hclause by (by intros [[[v|o']|e] w'] H).
  apply Hclause.
Qed.

Ltac run_invocation :=
  cbv [invocation mbind Eff_bind mret Eff_ret cacheGet cacheSet log logCache
       LLM.logger LLM.readArray LLM.send LLM.Date_now gets modify throw];
  cbn [LLM.heap LLM.cache LLM.calls LLM.clock LLM.logs
       LLM.setLogs LLM.setCache LLM.setCalls LLM.setHeap].

Lemma invocation_hit this options w value :
  cache this = true →
  cached this options w = Some value →
  ∃ w', invocation this options w = (Returned (Return value), w')
        ∧ LLM.sameButLogs w' w.
Proof.
  unfold cached, fingerprint. intros Hcache Hhit.
  destruct (enableCaching this) eqn:Hon; [|done].
  run_invocation. rewrite Hon, Hcache.
  cbn [LLM.heap LLM.cache LLM.calls LLM.clock LLM.logs
       LLM.setLogs LLM.setCache LLM.setCalls LLM.setHeap].
  rewrite Hhit. eexists. split; [reflexivity|]. done.
Qed.

(** With caching on and no cache attached, the lookup itself throws. *)
Lemma invocation_no_cache this options w :
  enableCaching this = true →
  cache this = false →
  ∃ w', invocation this options w
        = (Thrown (TypeError "Cannot read properties of undefined (reading 'get')"),
           w')
        ∧ LLM.sameButLogs w' w.
Proof.
  intros Hon Hcache. run_invocation. rewrite Hon, Hcache.
  eexists. split; [reflexivity|done].
Qed.

Ltac miss Hon Hcache Hmiss :=
  match goal with
  | |- context [enableCaching ?this] =>
      destruct (enableCaching this) eqn:Hon;
      [rewrite (Hcache eq_refl);
       cbn [LLM.heap LLM.cache LLM.calls LLM.clock LLM.logs
            LLM.setLogs LLM.setCache LLM.setCalls LLM.setHeap];
       rewrite Hmiss|];
      cbn [LLM.heap LLM.cache LLM.calls LLM.clock LLM.logs
           LLM.setLogs LLM.setCache LLM.setCalls LLM.setHeap]
  end.

Lemma invocation_rejected this options w reason :
  (enableCaching this = true → cache this = true) →
  cached this options w = None →
  client this (LLM.calls w) (request this options w) = Rejected reason →
  ∃ w', invocation this options w = (Thrown (VendorError reason), w')
        ∧ sent this options w w' ∧ LLM.cache w' = LLM.cache w.
Proof.
  unfold cached, fingerprint, request. intros Hcache Hmiss Hreply.
  run_invocation. miss Hon Hcache Hmiss; rewrite Hreply;
    (eexists; split; [reflexivity|done]).
Qed.

Lemma invocation_transformed this options w response :
  (enableCaching this = true → cache this = true) →
  cached this options w = None →
  client this (LLM.calls w) (request this options w) = Fulfilled response →
  LLM.response_model options = None →
  let value := Transformed (transform response (LLM.clock w)) in
  ∃ w', invocation this options w = (Returned (Return value), w')
        ∧ sent this options w w'
        ∧ LLM.cache w' = stored this options w value.
Proof.
  unfold cached, stored, fingerprint, request. intros Hcache Hmiss Hreply Hmodel.
  run_invocation. miss Hon Hcache Hmiss; rewrite Hreply, Hmodel;
    (eexists; split; [reflexivity|done]).
Qed.

Lemma invocation_structured this options w response response_model id name input :
  (enableCaching this = true → cache this = true) →
  cached this options w = None →
  client this (LLM.calls w) (request this options w) = Fulfilled response →
  LLM.response_model options = Some response_model →
  find isToolUse (msg_content response) = Some (ToolUseBlock id name input) →
  ∃ w', invocation this options w = (Returned (Return (Structured input)), w')
        ∧ sent this options w w'
        ∧ LLM.cache w' = stored this options w (Structured input).
Proof.
  unfold cached, stored, fingerprint, request.
  intros Hcache Hmiss Hreply Hmodel Htool.
  run_invocation.
  miss Hon Hcache Hmiss; rewrite Hreply, Hmodel, Htool;
    (eexists; split; [reflexivity|done]).
Qed.

Lemma find_isToolUse_None content :
  find isToolUse content = None →
  match find isToolUse content with
  | Some (ToolUseBlock _ _ _) => false
  | _ => true
  end = true.
Proof. by intros ->. Qed.

Lemma invocation_recurse this options w response response_model :
  (enableCaching this = true → cache this = true) →
  cached this options w = None →
  client this (LLM.calls w) (request this options w) = Fulfilled response →
  LLM.response_model options = Some response_model →
  find isToolUse (msg_content response) = None →
  mayRetry (retries options) = true →
  ∃ w', invocation this options w = (Returned (Recurse (withRetry options)), w')
        ∧ sent this options w w' ∧ LLM.cache w' = LLM.cache w.
Proof.
  unfold cached, fingerprint, request.
  intros Hcache Hmiss Hreply Hmodel Htool Hretry.
  run_invocation.
  miss Hon Hcache Hmiss; rewrite Hreply, Hmodel, Htool, Hretry;
    (eexists; split; [reflexivity|done]).
Qed.

Lemma invocation_exhausted this options w response response_model :
  (enableCaching this = true → cache this = true) →
  cached this options w = None →
  client this (LLM.calls w) (request this options w) = Fulfilled response →
  LLM.response_model options = Some response_model →
  find isToolUse (msg_content response) = None →
  mayRetry (retries options) = false →
  ∃ w', invocation this options w
        = (Thrown (JsError
             "Create Chat Completion Failed: No tool use with input in response"), w')
        ∧ sent this options w w' ∧ LLM.cache w' = LLM.cache w.
Proof.
  unfold cached, fingerprint, request.
  intros Hcache Hmiss Hreply Hmodel Htool Hretry.
  run_invocation.
  miss Hon Hcache Hmiss; rewrite Hreply, Hmodel, Htool, Hretry;
    (eexists; split; [reflexivity|done]).
Qed.

Lemma find_isToolUse_Some content block :
  find isToolUse content = Some block →
  ∃ id name input, block = ToolUseBlock id name input.
Proof.
  intros Hfind. apply find_some in Hfind as [_ Hblock].
  destruct block; [done|eauto].
Qed.

Lemma invocation_invoked_miss this options w :
  (enableCaching this = true → cache this = true) →
  cached this options w = None →
  Invoked this options w (invocation this options w).1 (invocation this options w).2.
Proof.
  intros Hc Hmiss.
  destruct (client this (LLM.calls w) (request this options w))
    as [response|reason] eqn:Hreply.
  2:{ destruct (invocation_rejected this options w reason)
        as (w' & -> & ? & ?); [done..|]. by eapply invoked_rejected. }
  destruct (answer options response (LLM.clock w)) as [value|] eqn:Hanswer;
    pose proof Hanswer as Hanswer'; unfold answer in Hanswer';
    destruct (LLM.response_model options) as [response_model|] eqn:Hmodel;
    try done.
  - destruct (find isToolUse (msg_content response)) as [block|] eqn:Hfind;
      [|done].
    destruct (find_isToolUse_Some _ _ Hfind) as (id & name & input & ->).
    simplify_eq/=.
    destruct (invocation_structured this options w response response_model
                id name input) as (w' & -> & ? & ?); [done..|].
    by eapply invoked_answer.
  - simplify_eq/=.
    destruct (invocation_transformed this options w response)
      as (w' & -> & ? & ?); [done..|].
    by eapply invoked_answer.
  - destruct (find isToolUse (msg_content response)) as [block|] eqn:Hfind.
    { by destruct (find_isToolUse_Some _ _ Hfind) as (id & name & input & ->). }
    destruct (mayRetry (retries options)) eqn:Hretry.
    + destruct (invocation_recurse this options w response response_model)
        as (w' & -> & ? & ?); [done..|].
      by eapply invoked_recurse.
    + destruct (invocation_exhausted this options w response response_model)
        as (w' & -> & ? & ?); [done..|].
      by eapply invoked_exhausted.
Qed.

Lemma invocation_invoked this options w :
  Invoked this options w (invocation this options w).1 (invocation this options w).2.
Proof.
  destruct (cached this options w) as [value|] eqn:Hhit.
  - pose proof Hhit as Hon. unfold cached in Hon.
    destruct (enableCaching this) eqn:Hon'; [|done].
    destruct (cache this) eqn:Hcache.
    + destruct (invocation_hit this options w value) as (w' & -> & ?); [done..|].
      by eapply invoked_hit.
    + destruct (invocation_no_cache this options w) as (w' & -> & ?);
        [done..|].
      by eapply invoked_no_cache.
  - destruct (enableCaching this) eqn:Hon, (cache this) eqn:Hcache;
      try (apply invocation_invoked_miss; [congruence|done]).
    destruct (invocation_no_cache this options w) as (w' & -> & ?);
      [done..|].
    by eapply invoked_no_cache.
Qed.

(** What every invocation leaves as it was, and what a tail call leaves. *)
Lemma invocation_frame this options w :
  let w' := (invocation this options w).2 in
  LLM.heap w' = LLM.heap w ∧ LLM.clock w' = LLM.clock w
  ∧ (LLM.calls w' = LLM.calls w
     ∨ LLM.calls w' = LLM.calls w ++ [request this options w]).
Proof.
  destruct (invocation_invoked this options w);
    repeat match goal with
           | H : LLM.sameButLogs _ _ |- _ => destruct H as (? & ? & ? & ?)
           | H : sent _ _ _ _ |- _ => destruct H as (? & ? & ?)
           end; auto.
Qed.

Lemma invocation_recurse_inv this options w options' w' :
  invocation this options w = (Returned (Recurse options'), w') →
  options' = withRetry options
  ∧ mayRetry (retries options) = true
  ∧ cached this options w = None
  ∧ sent this options w w'
  ∧ LLM.cache w' = LLM.cache w.
Proof.
  intros Hrun. pose proof (invocation_invoked this options w) as Hcase.
  rewrite Hrun in Hcase. simpl in Hcase. by inversion Hcase.
Qed.

(** An invocation that draws a value from the vendor's response stores it
    and returns it. *)
Lemma invocation_answer this options w response value :
  (enableCaching this = true → cache this = true) →
  cached this options w = None →
  client this (LLM.calls w) (request this options w) = Fulfilled response →
  answer options response (LLM.clock w) = Some value →
  ∃ w', invocation this options w = (Returned (Return value), w')
        ∧ sent this options w w'
        ∧ LLM.cache w' = stored this options w value.
Proof.
  intros Hc Hmiss Hreply Hanswer. unfold answer in Hanswer.
  destruct (LLM.response_model options) as [response_model|] eqn:Hmodel.
  - destruct (find isToolUse (msg_content response)) as [block|] eqn:Hfind;
      [|done].
    destruct (find_isToolUse_Some _ _ Hfind) as (id & name & input & ->).
    simplify_eq/=. by eapply invocation_structured.
  - simplify_eq/=. by eapply invocation_transformed.
Qed.


End AnthropicInvocation.

(* ------------------------------------------------------------------------- *)
(** ** The whole call of the Anthropic client, retries included *)

Section AnthropicCall.
Import Anthropic.

Implicit Types (this : AnthropicClient) (options : Options) (w : World).

Lemma mayRetry_retriesLeft options :
  mayRetry (retries options) = true ↔ retriesLeft options ≠ 0.
Proof.
  unfold mayRetry, retriesLeft. destruct (retries options) as [r|]; simpl.
  - rewrite orb_true_iff, !bool_decide_eq_true. lia.
  - split; [lia|done].
Qed.

Lemma retriesLeft_withRetry options :
  mayRetry (retries options) = true →
  S (retriesLeft (withRetry options)) = retriesLeft options.
Proof.
  intros Hretry%mayRetry_retriesLeft. revert Hretry.
  unfold retriesLeft, withRetry. simpl.
  destruct (retries options) as [r|]; simpl; lia.
Qed.

(** Neither the counter nor the log matters to the request that is sent, and
    the world matters to the cache lookup only through its heap and cache. *)
Lemma request_withRetry this options w w' :
  LLM.heap w' = LLM.heap w →
  request this (withRetry options) w' = request this options w.
Proof. unfold request. simpl. by intros ->. Qed.

Lemma cached_same this options w w' :
  LLM.heap w' = LLM.heap w → LLM.cache w' = LLM.cache w →
  cached this options w' = cached this options w.
Proof. unfold cached, fingerprint. by intros -> ->. Qed.

(** The requests a call sends are all the same request, and there are at
    most [1 + retriesLeft] of them; the heap and the clock stay as they
    were. *)
Lemma createChatCompletion_calls this options w :
  let w' := (createChatCompletion this options w).2 in
  LLM.heap w' = LLM.heap w ∧ LLM.clock w' = LLM.clock w
  ∧ ∃ n : nat, (n ≤ S (retriesLeft options))%nat
         ∧ LLM.calls w' = LLM.calls w ++ replicate n (request this options w).
Proof.
  remember (retriesLeft options) as left eqn:Hleft.
  revert options w Hleft.
  induction (lt_wf left) as [left _ IH]. intros options w ->. cbv zeta.
  rewrite createChatCompletion_eq.
  pose proof (invocation_frame this options w) as (Hheap & Hclock & Hcalls).
  destruct (invocation this options w) as [[[value|options']|e] w1] eqn:Hrun;
    simpl in *.
  1,3: split; [done|]; split; [done|];
       destruct Hcalls as [->| ->];
       [exists 0; split; [lia|by rewrite app_nil_r]
       |exists 1; split; [lia|done]].
  apply invocation_recurse_inv in Hrun
    as (-> & Hretry & _ & (_ & Hsent & _) & _).
  pose proof (retriesLeft_withRetry options Hretry) as Hless.
  destruct (IH (retriesLeft (withRetry options)) ltac:(lia) (withRetry options) w1
              eq_refl) as (Hheap' & Hclock' & n & Hn & Hcalls').
  split; [congruence|]. split; [congruence|].
  exists (S n). split; [lia|].
  rewrite Hcalls', Hsent, (request_withRetry this options w w1) by done.
  by rewrite <- app_assoc.
Qed.

(** A backend that never uses the tool makes a call use up its retries: it
    sends [1 + retriesLeft] requests and then throws. *)
Lemma createChatCompletion_exhausts this options w response_model :
  (enableCaching this = true → cache this = true) →
  LLM.response_model options = Some response_model →
  (∀ r, cached this {| base := options; retries := r |} w = None) →
  (∀ history request, ∃ response,
      client this history request = Fulfilled response
      ∧ find isToolUse (msg_content response) = None) →
  ∃ w',
    createChatCompletion this options w
    = (Thrown (JsError
         "Create Chat Completion Failed: No tool use with input in response"), w')
    ∧ LLM.calls w'
      = LLM.calls w ++ replicate (S (retriesLeft options)) (request this options w)
    ∧ LLM.cache w' = LLM.cache w.
Proof.
  intros Hc Hmodel Hcold Hvendor.
  remember (retriesLeft options) as left eqn:Hleft.
  revert options w Hleft Hmodel Hcold.
  induction left as [|left IH]; intros options w Hleft Hmodel Hcold;
    rewrite createChatCompletion_eq;
    destruct (Hvendor (LLM.calls w) (request this options w))
      as (response & Hreply & Htool);
    (assert (cached this options w = None) as Hmiss
       by (destruct options as [b r]; apply Hcold)).
  - destruct (invocation_exhausted this options w response response_model)
      as (w' & -> & (_ & Hsent & _) & Hcache); [done..| |].
    { destruct (mayRetry (retries options)) eqn:Hretry; [|done].
      apply mayRetry_retriesLeft in Hretry. lia. }
    exists w'. by rewrite Hsent.
  - assert (mayRetry (retries options) = true) as Hretry
      by (apply mayRetry_retriesLeft; lia).
    destruct (invocation_recurse this options w response response_model)
      as (w1 & -> & (Hheap & Hsent & _) & Hcache); [done..|].
    pose proof (retriesLeft_withRetry options Hretry) as Hless.
    destruct (IH (withRetry options) w1) as (w' & -> & Hcalls & Hcache');
      [lia|done| |].
    { intros r. rewrite <- (Hcold r). by apply cached_same. }
    exists w'. split; [done|]. split; [|congruence].
    rewrite Hcalls, Hsent, (request_withRetry this options w w1) by done.
    by rewrite <- app_assoc.
Qed.

Lemma fingerprint_same this options w w' :
  LLM.heap w' = LLM.heap w →
  fingerprint this options w' = fingerprint this options w.
Proof. unfold fingerprint. by intros ->. Qed.

Lemma retryOptions_S options n :
  retryOptions (withRetry options) n = retryOptions options (S n).
Proof. unfold retryOptions. symmetry. apply Nat.iter_succ_r. Qed.

Lemma retries_withRetry options :
  retries (withRetry options) = Some (default 0 (retries options) + 1)%Z.
Proof. reflexivity. Qed.

(** The counter of the [n]-th retry. *)
Lemma retries_retryOptions options n :
  retries (retryOptions options (S n))
  = Some (default 0 (retries options) + Z.of_nat (S n))%Z.
Proof.
  induction n as [|n IH].
  - reflexivity.
  - change (retryOptions options (S (S n)))
      with (withRetry (retryOptions options (S n))).
    rewrite retries_withRetry, IH. simpl default. f_equal. lia.
Qed.

Lemma retries_retryOptions_lt options m n :
  m < n → retries (retryOptions options m) ≠ retries (retryOptions options n).
Proof.
  intros Hlt. destruct n as [|n]; [lia|]. rewrite retries_retryOptions.
  destruct m as [|m].
  - simpl. destruct (retries options) as [r|]; simpl; [|done].
    intros [=]. lia.
  - rewrite retries_retryOptions. intros [=]. lia.
Qed.

(** Retrying touches neither the heap nor the cache, and the [n]-th retry is
    what remains of the call. *)
Lemma retryWorld_spec this options w n wn :
  retryWorld this options w n = Some wn →
  createChatCompletion this options w
  = createChatCompletion this (retryOptions options n) wn
  ∧ LLM.heap wn = LLM.heap w ∧ LLM.cache wn = LLM.cache w.
Proof.
  revert wn. induction n as [|n IH]; intros wn Hn; simpl in Hn.
  - by simplify_eq/=.
  - destruct (retryWorld this options w n) as [w1|]; [|done].
    destruct (IH w1 eq_refl) as (Hcall & Hheap & Hcache).
    destruct (invocation this (retryOptions options n) w1)
      as [[[value|options']|e] w2] eqn:Hrun; simplify_eq/=.
    pose proof (invocation_recurse_inv _ _ _ _ _ Hrun)
      as (-> & _ & _ & (Hheap' & _ & _) & Hcache').
    rewrite Hcall, createChatCompletion_eq, Hrun.
    split; [done|split; congruence].
Qed.



End AnthropicCall.

(* ------------------------------------------------------------------------- *)
(** ** The claims about the Anthropic client *)

Section AnthropicClaims.
Import Anthropic.

Implicit Types (this : AnthropicClient) (options : Options) (w : World).







(** C8.  The cache key contains the counter.  When a call has come to its
    [n]-th retry, nothing has been stored since the call began, the key of
    this retry differs from the key of every earlier attempt, and so what the
    retry finds in the cache was there before the call; what it draws from the
    vendor it stores under its own key. *)
Theorem retries_keyed_apart this options w n wn :
  retryWorld this options w n = Some wn →
  createChatCompletion this options w
  = createChatCompletion this (retryOptions options n) wn
  ∧ LLM.heap wn = LLM.heap w
  ∧ LLM.cache wn = LLM.cache w
  ∧ LLM.fp_retries (fingerprint this (retryOptions options n) wn)
    = retries (retryOptions options n)
  ∧ (retries options = None → 0 < n →
     retries (retryOptions options n) = Some (Z.of_nat n))
  ∧ (∀ m, m < n →
       fingerprint this (retryOptions options m) w
       ≠ fingerprint this (retryOptions options n) wn)
  ∧ cached this (retryOptions options n) wn = cached this (retryOptions options n) w
  ∧ (∀ response value,
       (enableCaching this = true → cache this = true) →
       cached this (retryOptions options n) wn = None →
       client this (LLM.calls wn) (request this (retryOptions options n) wn)
       = Fulfilled response →
       answer (retryOptions options n) response (LLM.clock wn) = Some value →
       ∃ w', createChatCompletion this options w = (Returned value, w')
             ∧ LLM.cache w' = stored this (retryOptions options n) w value).
Proof.
  intros Hn. destruct (retryWorld_spec this options w n wn Hn)
    as (Hcall & Hheap & Hcache).
  split; [done|]. split; [done|]. split; [done|]. split; [done|].
  split; [|split; [|split]].
  - intros Hnone Hpos. destruct n as [|n]; [lia|].
    rewrite retries_retryOptions, Hnone. simpl default. f_equal; lia.
  - intros m Hlt Heq. apply (f_equal LLM.fp_retries) in Heq. simpl in Heq.
    by apply (retries_retryOptions_lt options m n).
  - by apply cached_same.
  - intros response value Hc Hmiss Hreply Hanswer.
    destruct (invocation_answer this (retryOptions options n) wn response value)
      as (w' & Hrun & _ & Hstored); [done..|].
    exists w'. rewrite Hcall, createChatCompletion_eq, Hrun. split; [done|].
    rewrite Hstored. unfold stored.
    by rewrite (fingerprint_same this _ w wn Hheap), Hcache.
Qed.

(** C8 at a backend that uses the tool only when asked a second time: the
    value is stored under the key with [retries = 1], and the key without a
    counter stays absent. *)
Lemma retries_keyed_apart_witness :
  ∃ w1 w',
    retryWorld AnthropicScenario.reluctant AnthropicScenario.options
      AnthropicScenario.world 1 = Some w1
    ∧ retries (retryOptions AnthropicScenario.options 1) = Some 1%Z
    ∧ fingerprint AnthropicScenario.reluctant AnthropicScenario.options
        AnthropicScenario.world
      ≠ fingerprint AnthropicScenario.reluctant
          (retryOptions AnthropicScenario.options 1) w1
    ∧ createChatCompletion AnthropicScenario.reluctant AnthropicScenario.options
        AnthropicScenario.world
      = (Returned (Structured "{stars: 1000}"), w')
    ∧ LLM.cache w'
      = stored AnthropicScenario.reluctant (retryOptions AnthropicScenario.options 1)
          AnthropicScenario.world (Structured "{stars: 1000}").
Proof.
  destruct (retryWorld AnthropicScenario.reluctant AnthropicScenario.options
              AnthropicScenario.world 1) as [w1|] eqn:Hretry;
    [|vm_compute in Hretry; discriminate Hretry].
  destruct (retries_keyed_apart _ _ _ _ _ Hretry)
    as (_ & Hheap & Hcache & _ & Hcounter & Hapart & _ & Hstore).
  assert (cached AnthropicScenario.reluctant
            (retryOptions AnthropicScenario.options 1) w1 = None) as Hmiss.
  { unfold cached, fingerprint. rewrite Hheap, Hcache. apply lookup_empty. }
  assert (client AnthropicScenario.reluctant (LLM.calls w1)
            (request AnthropicScenario.reluctant
               (retryOptions AnthropicScenario.options 1) w1)
          = Fulfilled AnthropicScenario.toolUse) as Hreply.
  { vm_compute in Hretry. injection Hretry as <-. reflexivity. }
  destruct (Hstore AnthropicScenario.toolUse (Structured "{stars: 1000}")
              (λ _, eq_refl) Hmiss Hreply eq_refl) as (w' & Hcall & Hstored).
  exists w1, w'. split; [reflexivity|]. split; [by apply Hcounter; [|lia]|].
  split; [apply (Hapart 0); lia|]. by split.
Defined.

(** C9.  Every request of a call carries the same messages: the caller's
    messages other than system messages, each part of an array mapped to a
    text block when its type is ["text"] and to nothing otherwise, followed by
    the screenshot turn when [options.image] is present.  An image part is
    mapped to nothing, so an image block can only be the screenshot's. *)
Theorem anthropic_forwards_text_parts_only this options w :
  let messages := LLM.heap w !!! LLM.messages options in
  (∃ n, LLM.calls (createChatCompletion this options w).2
        = LLM.calls w ++ replicate n (request this options w))
  ∧ req_messages (request this options w)
    = (formatMessage <$> filter (λ msg, LLM.role msg ≠ LLM.system) messages)
      ++ match LLM.image options with
         | Some image => [screenshotMessage image]
         | None => []
         end
  ∧ (∀ msg parts,
       LLM.content msg = LLM.ContentArray parts →
       param_content (formatMessage msg) = ParamBlocks (formatPart <$> parts))
  ∧ (∀ type text,
       formatPart (LLM.ChatMessageTextContent type text)
       = if bool_decide (type = "text") then Some (TextBlockParam text) else None)
  ∧ (∀ url text, formatPart (LLM.ChatMessageImageContent url text) = None)
  ∧ (∀ msg blocks media_type data,
       param_content (formatMessage msg) = ParamBlocks blocks →
       Some (ImageBlockParam media_type data) ∉ blocks)
  ∧ (∀ param blocks media_type data,
       param ∈ req_messages (request this options w) →
       param_content param = ParamBlocks blocks →
       Some (ImageBlockParam media_type data) ∈ blocks →
       ∃ image,
         LLM.image options = Some image
         ∧ param = screenshotMessage image
         ∧ media_type = "image/jpeg" ∧ data = LLM.buffer image).
Proof.
  intros messages.
  assert (∀ msg blocks media_type data,
            param_content (formatMessage msg) = ParamBlocks blocks →
            Some (ImageBlockParam media_type data) ∉ blocks) as Hno_image.
  { intros msg blocks media_type data. unfold formatMessage.
    destruct (LLM.content msg) as [s|parts]; simpl; [done|].
    intros [= <-] (part & Hpart & _)%list_elem_of_fmap.
    destruct part as [type text|url text]; simpl in Hpart; [|done].
    by case_bool_decide. }
  split; [|split; [|split; [|split; [|split; [|split]]]]].
  - destruct (createChatCompletion_calls this options w) as (_ & _ & n & _ & Hn).
    by exists n.
  - reflexivity.
  - intros msg parts Hparts. unfold formatMessage. by rewrite Hparts.
  - reflexivity.
  - reflexivity.
  - exact Hno_image.
  - intros param blocks media_type data Hin Hblocks Himage.
    unfold request, createParams, formattedMessages in Hin. simpl in Hin.
    apply elem_of_app in Hin as [Hin|Hin].
    + apply list_elem_of_fmap in Hin as (msg & -> & _).
      by destruct (Hno_image msg blocks media_type data Hblocks).
    + destruct (LLM.image options) as [image|]; [|by apply elem_of_nil in Hin].
      apply list_elem_of_singleton in Hin as ->. exists image.
      unfold screenshotMessage in Hblocks. simpl in Hblocks.
      injection Hblocks as <-.
      apply elem_of_cons in Himage as [[= -> ->]|Himage]; [done|].
      destruct (LLM.description image) as [d|]; [|by apply elem_of_nil in Himage].
      case_bool_decide; [by apply elem_of_nil in Himage|].
      by apply list_elem_of_singleton in Himage.
Qed.

(** The scenario's conversation as the backend receives it: the system
    message is set apart, the text part is kept and the image part is not. *)
Example anthropic_request_messages :
  req_messages (request AnthropicScenario.talkative AnthropicScenario.options
                  AnthropicScenario.world)
  = [ {| param_role := LLM.user;
         param_content := ParamBlocks [Some (TextBlockParam "Stars: 1000"); None] |} ]
  ∧ req_messages (request AnthropicScenario.talkative
                    AnthropicScenario.optionsWithImage AnthropicScenario.world)
    = [ {| param_role := LLM.user;
           param_content := ParamBlocks [Some (TextBlockParam "Stars: 1000"); None] |};
        {| param_role := LLM.user;
           param_content :=
             ParamBlocks [Some (ImageBlockParam "image/jpeg" "/9j/4AAQSkZJRg==")] |} ].
Proof. split; vm_compute; reflexivity. Qed.

End AnthropicClaims.

(* ------------------------------------------------------------------------- *)
(** ** The OpenAI client (AnthropicClient.ts, lines 383-597) *)

Section OpenAICall.
Import OpenAI.

Implicit Types (this : OpenAIClient) (options : LLM.ChatCompletionOptions).
Implicit Types (w : World).

Ltac run_openai :=
  cbv [createChatCompletion mbind Eff_bind mret Eff_ret cacheGet cacheSet log logCache
       LLM.logger LLM.readArray LLM.push LLM.send LLM.Date_now gets modify throw];
  cbn [LLM.heap LLM.cache LLM.calls LLM.clock LLM.logs
       LLM.setLogs LLM.setCache LLM.setCalls LLM.setHeap].

(** A call that is answered from the cache, or that fails to reach it,
    changes nothing but the log. *)
Lemma openai_hit this options w value :
  cache this = true →
  cached this options w = Some value →
  ∃ w', createChatCompletion this options w = (Returned value, w')
        ∧ LLM.sameButLogs w' w.
Proof.
  unfold cached, fingerprint. intros Hcache Hhit.
  destruct (enableCaching this) eqn:Hon; [|done].
  run_openai. rewrite Hon, Hcache.
  cbn [LLM.heap LLM.cache LLM.calls LLM.clock LLM.logs
       LLM.setLogs LLM.setCache LLM.setCalls LLM.setHeap].
  rewrite Hhit. eexists. split; [reflexivity|done].
Qed.

Lemma openai_no_cache this options w :
  enableCaching this = true →
  cache this = false →
  ∃ w', createChatCompletion this options w
        = (Thrown (TypeError "Cannot read properties of undefined (reading 'get')"),
           w')
        ∧ LLM.sameButLogs w' w.
Proof.
  intros Hon Hcache. run_openai. rewrite Hon, Hcache.
  eexists. split; [reflexivity|done].
Qed.

(** A call that is not answered from the cache pushes the screenshot, if
    there is one, onto the caller's array, and sends the array as it then is;
    this holds however the call ends.  If the call returns a value and
    caching is on, the value is stored under the key of the array as it then
    is. *)
Lemma openai_miss this options w :
  (enableCaching this = true → cache this = true) →
  cached this options w = None →
  let run := createChatCompletion this options w in
  run.1
  = outcome this options
      (client this (LLM.calls w)
         (body this options (pushed options (LLM.heap w) !!! LLM.messages options)))
  ∧ LLM.heap run.2 = pushed options (LLM.heap w)
  ∧ LLM.calls run.2
    = LLM.calls w
      ++ [body this options (pushed options (LLM.heap w) !!! LLM.messages options)]
  ∧ LLM.clock run.2 = LLM.clock w
  ∧ match run.1 with
    | Returned value =>
        LLM.cache run.2
        = if enableCaching this
          then LLMCache.set
                 (stringify (pushed options (LLM.heap w)) (cacheOptions this options))
                 value (LLM.requestId options) (LLM.cache w)
          else LLM.cache w
    | Thrown _ => LLM.cache run.2 = LLM.cache w
    end.
Proof.
  unfold cached, fingerprint, pushed, outcome. intros Hcache Hmiss.
  run_openai.
  destruct (enableCaching this) eqn:Hon;
    [rewrite (Hcache eq_refl);
     cbn [LLM.heap LLM.cache LLM.calls LLM.clock LLM.logs
          LLM.setLogs LLM.setCache LLM.setCalls LLM.setHeap];
     rewrite Hmiss|];
    destruct (LLM.image options) as [image|];
    cbn [LLM.heap LLM.cache LLM.calls LLM.clock LLM.logs
         LLM.setLogs LLM.setCache LLM.setCalls LLM.setHeap fst snd];
    (destruct (client this _ _) as [response|reason]; [|done]);
    (destruct (LLM.response_model options); [|done]);
    (destruct (cc_choices response) as [|choice choices]; [done|]);
    (destruct (choice_content choice) as [text|];
     [destruct (JSON_parse this text)|]);
    done.
Qed.

(** C10, as the code has it.  A call that is not answered from the cache and
    carries an image leaves the caller's array one message longer: the
    screenshot message, pushed after the cache was read and before the
    request was sent and the value stored.  A call without an image, and a
    call that is answered from the cache or fails to reach it, leaves every
    array as it was. *)
Theorem openai_pushes_screenshot this options w :
  let w' := (createChatCompletion this options w).2 in
  let array := LLM.messages options in
  (∀ image,
     LLM.image options = Some image →
     (enableCaching this = true → cache this = true) →
     cached this options w = None →
     LLM.heap w' !!! array = (LLM.heap w !!! array) ++ [screenshotMessage image]
     ∧ (∀ l, l ≠ array → LLM.heap w' !! l = LLM.heap w !! l)
     ∧ LLM.calls w'
       = LLM.calls w
         ++ [body this options ((LLM.heap w !!! array) ++ [screenshotMessage image])]
     ∧ (∀ value,
          (createChatCompletion this options w).1 = Returned value →
          enableCaching this = true →
          LLM.cache w'
          = LLMCache.set (fingerprint this options w') value (LLM.requestId options)
              (LLM.cache w)))
  ∧ (LLM.image options = None → LLM.heap w' = LLM.heap w)
  ∧ (enableCaching this = true →
     cache this = false ∨ is_Some (cached this options w) →
     LLM.heap w' = LLM.heap w).
Proof.
  intros w' array. subst w' array. split; [|split].
  - intros image Himage Hc Hmiss.
    destruct (openai_miss this options w Hc Hmiss)
      as (_ & Hheap & Hcalls & _ & Hcache).
    unfold pushed in *. rewrite Himage in *. rewrite Hheap, Hcalls.
    rewrite !lookup_total_insert_eq.
    split; [done|]. split; [by intros l Hl; apply lookup_insert_ne|].
    split; [done|].
    intros value Hvalue Hon. rewrite Hvalue, Hon in Hcache.
    unfold fingerprint. by rewrite Hheap.
  - intros Himage.
    destruct (enableCaching this) eqn:Hon, (cache this) eqn:Hcache,
      (cached this options w) as [value|] eqn:Hhit;
      try (destruct (openai_no_cache this options w Hon Hcache)
             as (w' & -> & Hheap & _); exact Hheap);
      try (destruct (openai_hit this options w value Hcache Hhit)
             as (w' & -> & Hheap & _); exact Hheap);
      try (destruct (openai_miss this options w) as (_ & Hheap & _);
             [congruence|done|]; unfold pushed in Hheap;
             by rewrite Himage in Hheap).
    all: unfold cached in Hhit; by rewrite Hon in Hhit.
  - intros Hon [Hcache|[value Hhit]].
    + by destruct (openai_no_cache this options w Hon Hcache)
        as (w' & -> & Hheap & _).
    + destruct (cache this) eqn:Hcache.
      * by destruct (openai_hit this options w value Hcache Hhit)
          as (w' & -> & Hheap & _).
      * by destruct (openai_no_cache this options w Hon Hcache)
          as (w' & -> & Hheap & _).
Qed.

(** C10, as the specification states it, fails: a call with an image that is
    answered from the cache returns before the push, and the caller's array
    is as long as it was. *)
Lemma openai_hit_leaves_messages :
  LLM.image OpenAIScenario.optionsWithImage
  = Some {| LLM.buffer := "/9j/4AAQSkZJRg=="; LLM.description := Some "the page" |}
  ∧ (createChatCompletion OpenAIScenario.gpt OpenAIScenario.optionsWithImage
       OpenAIScenario.warmWorld).1
    = Returned (Raw OpenAIScenario.completion)
  ∧ LLM.heap (createChatCompletion OpenAIScenario.gpt OpenAIScenario.optionsWithImage
                OpenAIScenario.warmWorld).2 !!! 1%positive
    = OpenAIScenario.conversation
  ∧ length (LLM.heap (createChatCompletion OpenAIScenario.gpt
                        OpenAIScenario.optionsWithImage
                        OpenAIScenario.warmWorld).2 !!! 1%positive)
    ≠ S (length (LLM.heap OpenAIScenario.warmWorld !!! 1%positive)).
Proof.
  split; [reflexivity|]. split; [vm_compute; reflexivity|].
  split; [vm_compute; reflexivity|]. vm_compute. lia.
Qed.

(** The same request on a cold cache: the array grows by the screenshot
    message, and the entry is stored under the key of the longer array, so
    that the request, made again from the array as it was, misses. *)
Example openai_miss_pushes :
  let run := createChatCompletion OpenAIScenario.gpt OpenAIScenario.optionsWithImage
               OpenAIScenario.world in
  LLM.heap run.2 !!! 1%positive
  = OpenAIScenario.conversation
    ++ [screenshotMessage {| LLM.buffer := "/9j/4AAQSkZJRg==";
                             LLM.description := Some "the page" |}]
  ∧ cached OpenAIScenario.gpt OpenAIScenario.optionsWithImage run.2
    = Some (Raw OpenAIScenario.completion)
  ∧ cached OpenAIScenario.gpt OpenAIScenario.optionsWithImage
      (LLM.setHeap (LLM.heap OpenAIScenario.world) run.2)
    = None.
Proof.
  intros run.
  destruct (openai_miss OpenAIScenario.gpt OpenAIScenario.optionsWithImage
              OpenAIScenario.world (λ _, eq_refl) (lookup_empty _))
    as (Hout & Hheap & _ & _ & Hcache).
  fold run in Hout, Hheap, Hcache. rewrite Hout in Hcache.
  change (LLM.cache run.2
          = <[stringify (pushed OpenAIScenario.optionsWithImage
                           (LLM.heap OpenAIScenario.world))
                (cacheOptions OpenAIScenario.gpt OpenAIScenario.optionsWithImage)
              := Raw OpenAIScenario.completion]> ∅) in Hcache.
  split; [|split].
  - rewrite Hheap. reflexivity.
  - unfold cached, fingerprint, LLMCache.get. rewrite Hheap, Hcache.
    apply lookup_insert_eq.
  - unfold cached, fingerprint, LLMCache.get.
    change (LLM.cache run.2
            !! stringify (LLM.heap OpenAIScenario.world)
                 (cacheOptions OpenAIScenario.gpt OpenAIScenario.optionsWithImage)
            = None).
    rewrite Hcache, lookup_insert_ne; [apply lookup_empty|].
    intros Heq. apply (f_equal (λ f, length (LLM.fp_messages f))) in Heq.
    vm_compute in Heq. discriminate Heq.
Qed.

End OpenAICall.

(* ------------------------------------------------------------------------- *)
(** ** The request id and the cache (both clients) *)

Section RequestId.
Import Anthropic.

(** Nothing that decides what an invocation of the Anthropic client does
    looks at the request id or at the log. *)
Lemma anthropic_requestId_irrelevant (this : AnthropicClient)
    (options : Options) requestId (w1 w2 : World) :
  LLM.sameButLogs w1 w2 →
  let options' := withRequestId requestId options in
  cacheOptions this options' = cacheOptions this options
  ∧ fingerprint this options' w2 = fingerprint this options w1
  ∧ cached this options' w2 = cached this options w1
  ∧ request this options' w2 = request this options w1
  ∧ (∀ response now,
       answer options' response now = answer options response now)
  ∧ (∀ value,
       stored this options' w2 value = stored this options w1 value)
  ∧ withRetry options' = withRequestId requestId (withRetry options)
  ∧ retriesLeft options' = retriesLeft options.
Proof.
  intros (Hheap & Hcache & _ & _) options'.
  unfold fingerprint, cached, request, stored,
    fingerprint.
  rewrite Hheap, Hcache. done.
Qed.

Lemma anthropic_answer_None options response now :
  answer options response now = None →
  ∃ response_model,
    LLM.response_model options = Some response_model
    ∧ find isToolUse (msg_content response) = None.
Proof.
  unfold answer. intros Hanswer.
  destruct (LLM.response_model options) as [response_model|]; [|done].
  exists response_model. split; [done|].
  destruct (find isToolUse (msg_content response))
    as [block|] eqn:Hfind; [|done].
  by destruct (find_isToolUse_Some _ _ Hfind) as (id & name & input & ->).
Qed.

(** Two invocations that differ in the request id and in what has been
    logged end alike. *)
Lemma anthropic_invocation_requestId (this : AnthropicClient)
    (options : Options) requestId (w1 w2 : World) :
  LLM.sameButLogs w1 w2 →
  let run1 := invocation this options w1 in
  let run2 :=
    invocation this (withRequestId requestId options) w2 in
  LLM.sameButLogs run1.2 run2.2
  ∧ match run1.1, run2.1 with
    | Returned (Return value1), Returned (Return value2) =>
        value1 = value2
    | Returned (Recurse next1), Returned (Recurse next2) =>
        next2 = withRequestId requestId next1
    | Thrown e1, Thrown e2 => e1 = e2
    | _, _ => False
    end.
Proof.
  intros Hsame run1 run2. subst run1 run2.
  destruct (anthropic_requestId_irrelevant this options requestId w1 w2 Hsame)
    as (_ & Hfp & Hcached & Hrequest & Hanswer & Hstored & Hretry & _).
  destruct Hsame as (Hheap & Hcache & Hcalls & Hclock).
  set (options' := withRequestId requestId options) in *.
  destruct (invocation_invoked this options w1)
    as [w1' Hon Hno (Hh1 & Hc1 & Hs1 & Hk1)
       |value w1' Hattached Hhit (Hh1 & Hc1 & Hs1 & Hk1)
       |reason w1' Hc Hmiss Hreply (Hh1 & Hs1 & Hk1) Hc1
       |response value w1' Hc Hmiss Hreply Hvalue (Hh1 & Hs1 & Hk1) Hc1
       |response w1' Hc Hmiss Hreply Hvalue Hmay (Hh1 & Hs1 & Hk1) Hc1
       |response w1' Hc Hmiss Hreply Hvalue Hmay (Hh1 & Hs1 & Hk1) Hc1].
  - destruct (invocation_no_cache this options' w2 Hon Hno)
      as (w2' & -> & Hh2 & Hc2 & Hs2 & Hk2).
    simpl. repeat split; congruence.
  - destruct (invocation_hit this options' w2 value) as (w2' & -> & Hh2 & Hc2 & Hs2 & Hk2);
      [done|congruence|].
    simpl. repeat split; congruence.
  - destruct (invocation_rejected this options' w2 reason)
      as (w2' & -> & (Hh2 & Hs2 & Hk2) & Hc2); [done|congruence|congruence|].
    simpl. repeat split; congruence.
  - destruct (invocation_answer this options' w2 response value)
      as (w2' & -> & (Hh2 & Hs2 & Hk2) & Hc2);
      [done|congruence|congruence|by rewrite Hanswer, <- Hclock|].
    simpl. rewrite Hstored in Hc2. repeat split; congruence.
  - destruct (anthropic_answer_None _ _ _ Hvalue) as (response_model & Hmodel & Hfind).
    destruct (invocation_recurse this options' w2 response response_model)
      as (w2' & -> & (Hh2 & Hs2 & Hk2) & Hc2);
      [done|congruence|congruence|done..|].
    simpl. repeat split; congruence.
  - destruct (anthropic_answer_None _ _ _ Hvalue) as (response_model & Hmodel & Hfind).
    destruct (invocation_exhausted this options' w2 response response_model)
      as (w2' & -> & (Hh2 & Hs2 & Hk2) & Hc2);
      [done|congruence|congruence|done..|].
    simpl. repeat split; congruence.
Qed.

(** Two calls that differ in the request id and in what has been logged
    return the same value or throw the same error, and leave worlds that
    differ at most in what has been logged. *)
Lemma anthropic_call_requestId (this : AnthropicClient)
    (options : Options) requestId (w1 w2 : World) :
  LLM.sameButLogs w1 w2 →
  (createChatCompletion this options w1).1
  = (createChatCompletion this (withRequestId requestId options) w2).1
  ∧ LLM.sameButLogs (createChatCompletion this options w1).2
      (createChatCompletion this (withRequestId requestId options) w2).2.
Proof.
  remember (retriesLeft options) as left eqn:Hleft.
  revert options w1 w2 Hleft.
  induction (lt_wf left) as [left _ IH]. intros options w1 w2 -> Hsame.
  pose proof (anthropic_invocation_requestId this options requestId w1 w2 Hsame)
    as (Hsame' & Hend).
  rewrite !createChatCompletion_eq.
  pose proof (invocation_recurse_inv this options w1) as Hinv.
  destruct (invocation this options w1) as [[[value1|next1]|e1] w1'],
    (invocation this (withRequestId requestId options) w2) as [[[value2|next2]|e2] w2'];
    simpl in *; try done; simplify_eq/=; try done.
  destruct (Hinv _ _ eq_refl) as (-> & Hretry & _).
  pose proof (retriesLeft_withRetry options Hretry) as Hless.
  apply (IH (retriesLeft (withRetry options))); [lia|done..].
Qed.

(** The OpenAI client: the same, in one step. *)
Lemma openai_call_requestId (this : OpenAI.OpenAIClient)
    (options : LLM.ChatCompletionOptions) requestId (w1 w2 : OpenAI.World) :
  LLM.sameButLogs w1 w2 →
  (OpenAI.createChatCompletion this options w1).1
  = (OpenAI.createChatCompletion this (LLM.withRequestId requestId options) w2).1
  ∧ LLM.sameButLogs (OpenAI.createChatCompletion this options w1).2
      (OpenAI.createChatCompletion this (LLM.withRequestId requestId options) w2).2.
Proof.
  intros (Hheap & Hcache & Hcalls & Hclock).
  set (options' := LLM.withRequestId requestId options).
  assert (OpenAI.cached this options' w2 = OpenAI.cached this options w1) as Hcached.
  { unfold OpenAI.cached, OpenAI.fingerprint. by rewrite Hheap, Hcache. }
  destruct (OpenAI.enableCaching this) eqn:Hon, (OpenAI.cache this) eqn:Hattached,
    (OpenAI.cached this options w1) as [value|] eqn:Hhit;
    try (destruct (openai_no_cache this options w1 Hon Hattached)
           as (w1' & -> & Hh1 & Hc1 & Hs1 & Hk1);
         destruct (openai_no_cache this options' w2 Hon Hattached)
           as (w2' & -> & Hh2 & Hc2 & Hs2 & Hk2);
         simpl; repeat split; congruence);
    try (destruct (openai_hit this options w1 value Hattached Hhit)
           as (w1' & -> & Hh1 & Hc1 & Hs1 & Hk1);
         destruct (openai_hit this options' w2 value Hattached)
           as (w2' & -> & Hh2 & Hc2 & Hs2 & Hk2); [congruence|];
         simpl; repeat split; congruence);
    try (exfalso; unfold OpenAI.cached in Hhit; rewrite Hon in Hhit; congruence).
  all: destruct (openai_miss this options w1) as (Hr1 & Hh1 & Hs1 & Hk1 & Hc1);
         [congruence|done|];
       destruct (openai_miss this options' w2) as (Hr2 & Hh2 & Hs2 & Hk2 & Hc2);
         [congruence|congruence|];
       change (OpenAI.pushed options' (LLM.heap w2))
         with (OpenAI.pushed options (LLM.heap w2)) in *;
       change (OpenAI.body this options') with (OpenAI.body this options) in *;
       change (OpenAI.outcome this options') with (OpenAI.outcome this options) in *;
       change (OpenAI.cacheOptions this options')
         with (OpenAI.cacheOptions this options) in *;
       change (LLM.messages options') with (LLM.messages options) in *;
       rewrite <- Hheap, <- Hcalls in *;
       assert ((OpenAI.createChatCompletion this options w1).1
               = (OpenAI.createChatCompletion this options' w2).1) as Hsame
         by congruence;
       split; [done|];
       rewrite <- Hsame in Hc2;
       destruct ((OpenAI.createChatCompletion this options w1).1);
       repeat split; unfold LLMCache.set in *; try congruence;
       rewrite Hc1, Hc2, Hcache; reflexivity.
Qed.

(** C6.  For both clients, a request and the same request under another
    request id give the same [cacheOptions], read the same entry or the same
    absence of one, and, run from the same world, end with the same value or
    error in worlds that differ at most in what has been logged. *)
Theorem requestId_outside_cache_identity (anthropic : AnthropicClient)
    (openai : OpenAI.OpenAIClient) (options : Options) requestId
    (wa : World) (wo : OpenAI.World) :
  let renamed := withRequestId requestId options in
  cacheOptions anthropic renamed = cacheOptions anthropic options
  ∧ OpenAI.cacheOptions openai (base renamed) = OpenAI.cacheOptions openai (base options)
  ∧ cacheGet anthropic (cacheOptions anthropic renamed) (LLM.requestId renamed) wa
    = cacheGet anthropic (cacheOptions anthropic options) (LLM.requestId options) wa
  ∧ OpenAI.cacheGet openai (OpenAI.cacheOptions openai (base renamed))
      (LLM.requestId renamed) wo
    = OpenAI.cacheGet openai (OpenAI.cacheOptions openai (base options))
        (LLM.requestId options) wo
  ∧ cached anthropic renamed wa = cached anthropic options wa
  ∧ OpenAI.cached openai (base renamed) wo = OpenAI.cached openai (base options) wo
  ∧ (createChatCompletion anthropic renamed wa).1
    = (createChatCompletion anthropic options wa).1
  ∧ LLM.sameButLogs (createChatCompletion anthropic renamed wa).2
      (createChatCompletion anthropic options wa).2
  ∧ (OpenAI.createChatCompletion openai (base renamed) wo).1
    = (OpenAI.createChatCompletion openai (base options) wo).1
  ∧ LLM.sameButLogs (OpenAI.createChatCompletion openai (base renamed) wo).2
      (OpenAI.createChatCompletion openai (base options) wo).2.
Proof.
  intros renamed.
  destruct (anthropic_call_requestId anthropic options requestId wa wa)
    as (Hvalue & Hheap & Hcache & Hcalls & Hclock); [done|].
  destruct (openai_call_requestId openai (base options) requestId wo wo)
    as (Hvalue' & Hheap' & Hcache' & Hcalls' & Hclock'); [done|].
  repeat split; try reflexivity; by symmetry.
Qed.

(** The entry cached for the request of the scenario is found under any
    request id. *)
Example openai_hit_under_other_requestId :
  OpenAI.cached OpenAIScenario.gpt OpenAIScenario.optionsWithImage
    OpenAIScenario.warmWorld
  = Some (OpenAI.Raw OpenAIScenario.completion)
  ∧ OpenAI.cached OpenAIScenario.gpt
      (LLM.withRequestId (Some "req-2") OpenAIScenario.optionsWithImage)
      OpenAIScenario.warmWorld
    = Some (OpenAI.Raw OpenAIScenario.completion).
Proof. split; apply lookup_insert_eq. Qed.

End RequestId.
(* ------------------------------------------------------------------------- *)
(** ** More on [extract]: what reaches the backend, the instrumentation and
       the log (extractHandler.ts, lines 54-196) *)

Section ExtractTrail.
Import ExtractHandler.

Implicit Types (this : StagehandExtractHandler) (options : ExtractOptions).
Implicit Types (w : World).

(** The loop over the selector map touches the document only. *)
Lemma collectAnnotations_frame this entries acc w :
  let w' := (collectAnnotations this entries acc w).2 in
  domDebug w' = domDebug w ∧ inferences w' = inferences w ∧ logs w' = logs w.
Proof.
  revert acc w. induction entries as [|xpaths entries IH]; intros acc w; [done|].
  unfold collectAnnotations in *. simpl. rewrite !run_bind, run_evaluate.
  destruct (getElementBoundingBoxes (window this) (head xpaths) (DOM w))
    as [[boundingBoxes|reason] d]; simpl; [|done].
  apply (IH (visitBoxes (viewportSize this) boundingBoxes acc) (setDOM d w)).
Qed.

(** The document the loop leaves when it comes to its end is the one the last
    evaluation has left. *)
Lemma collectAnnotations_annotations this entries w collected w' :
  collectAnnotations this entries (∅, []) w = (Returned collected, w') →
  collected.2
  = textAnnotation (viewportSize this)
      <$> firstOccurrences (boundingBoxesOf (window this) entries (DOM w)).
Proof.
  intros Hrun.
  pose proof (collectAnnotations_outcome this entries (∅, []) w) as Hloop.
  rewrite Hrun in Hloop. destruct Hloop as [-> _].
  destruct (visitBoxes_firstOccurrences (viewportSize this)
              (boundingBoxesOf (window this) entries (DOM w)) [] ∅)
    as (seen' & Heq & _); [set_solver|].
  simpl in Heq. by rewrite Heq.
Qed.

(** The four lines [extract] may log, in the order it logs them. *)
Lemma extract_trail this options w :
  let '(r, w') := extract this options w in
  let start := {| category := "extraction"; message := "starting extraction";
                  level := Some 1%Z;
                  auxiliary := [("instruction", Some (instruction options))] |} in
  let received := {| category := "extraction";
                     message := "received extraction response";
                     level := None; auxiliary := [] |} in
  let got := {| category := "extraction"; message := "got response";
                level := None; auxiliary := [] |} in
  let sized (selectorMap : SelectorMap) :=
    {| category := "extraction";
       message := "received output from processAllOfDom. selectorMap has "
                  +:+ pretty (length (Object_keys selectorMap)) +:+ " entries";
       level := None; auxiliary := [] |} in
  (∃ reason, r = Thrown (EvaluateError reason)
     ∧ inferences w' = inferences w ∧ domDebug w' = true
     ∧ match processAllOfDom (window this) (DOM w) with
       | (Rejected reason', _) => reason' = reason ∧ logs w' = logs w ++ [start]
       | (Fulfilled selectorMap, _) => logs w' = logs w ++ [start; sized selectorMap]
       end)
  ∨ (∃ selectorMap d1 d2 o,
       processAllOfDom (window this) (DOM w) = (Fulfilled selectorMap, d1)
       ∧ createTextBoundingBoxes (window this) d1 = (Fulfilled tt, d2)
       ∧ o = {| inf_instruction := instruction options;
                previouslyExtractedContent := default [] (content options);
                domElements :=
                  formatText this
                    (textAnnotation (viewportSize this)
                       <$> firstOccurrences
                             (boundingBoxesOf (window this)
                                (Object_values selectorMap) d2));
                inf_schema := schema options;
                inf_modelName :=
                  modelNameOr (modelName options) (defaultModelName this);
                inf_requestId := requestId options |}
       ∧ inferences w' = inferences w ++ [(o, inference this o)]
       ∧ DOM w' = DOM w
       ∧ match inference this o with
         | Rejected reason =>
             r = Thrown (InferenceError reason) ∧ domDebug w' = true
             ∧ logs w' = logs w ++ [start; sized selectorMap]
         | Fulfilled response =>
             domDebug w' = false
             ∧ if metadata_completed response
               then r = Returned (output response)
                    ∧ logs w' = logs w ++ [start; sized selectorMap; received; got]
               else r = Thrown (JsError "Extraction not completed")
                    ∧ logs w' = logs w ++ [start; sized selectorMap; received]
         end).
Proof.
  destruct (extract this options w) as [r w'] eqn:Hrun. cbv zeta.
  unfold extract in Hrun.
  cbv [logger waitForSettledDom startDomDebug cleanupDomDebug modify mret Eff_ret
       throw] in Hrun.
  rewrite !run_bind in Hrun. cbn [setLogs setDomDebug logs DOM domDebug inferences]
    in Hrun.
  rewrite run_evaluate in Hrun. unfold storeDOM in Hrun.
  cbn [setDOM setLogs setDomDebug logs DOM domDebug inferences] in Hrun.
  rewrite run_bind, run_evaluate in Hrun.
  cbn [setDOM setLogs setDomDebug logs DOM domDebug inferences] in Hrun.
  destruct (processAllOfDom (window this) (DOM w)) as [[selectorMap|reason] d1]
    eqn:Hprocess.
  2:{ simplify_eq/=. left. exists reason. done. }
  cbn [setDOM setLogs setDomDebug logs DOM domDebug inferences] in Hrun.
  rewrite !run_bind in Hrun.
  cbn [setDOM setLogs setDomDebug logs DOM domDebug inferences] in Hrun.
  rewrite run_evaluate in Hrun.
  cbn [setDOM setLogs setDomDebug logs DOM domDebug inferences] in Hrun.
  destruct (createTextBoundingBoxes (window this) d1) as [[[]|reason] d2]
    eqn:Hcreate.
  2:{ simplify_eq/=. left. exists reason. repeat split.
      by rewrite <- app_assoc. }
  cbn [setDOM setLogs setDomDebug logs DOM domDebug inferences] in Hrun.
  rewrite run_bind in Hrun.
  match type of Hrun with
  | context [collectAnnotations this ?entries ?acc ?w0] =>
      pose proof (collectAnnotations_frame this entries acc w0) as Hframe;
      pose proof (collectAnnotations_outcome this entries acc w0) as Hloop;
      pose proof (collectAnnotations_annotations this entries w0) as Hanns;
      destruct (collectAnnotations this entries acc w0) as [[collected|e] w1]
  end; simpl in Hframe; destruct Hframe as (Hdebug & Hinf & Hlogs).
  2:{ destruct Hloop as [[reason ->] _]. simplify_eq/=. left. exists reason.
      rewrite Hinf, Hdebug, Hlogs. repeat split.
      by rewrite <- app_assoc. }
  specialize (Hanns collected w1 eq_refl). simpl in Hanns.
  right. rewrite !run_bind, run_evaluate in Hrun. unfold restoreDOM in Hrun.
  cbn [setDOM setLogs setDomDebug logs DOM domDebug inferences] in Hrun.
  unfold inferenceExtract in Hrun.
  cbn [setDOM setInferences setLogs setDomDebug logs DOM domDebug inferences]
    in Hrun.
  rewrite Hanns in Hrun.
  eexists selectorMap, d1, d2, _.
  split; [done|]. split; [done|]. split; [reflexivity|].
  match type of Hrun with
  | context [inference this ?o] => destruct (inference this o) as [response|reason]
  end;
    repeat (rewrite run_bind in Hrun;
            cbn [setDOM setInferences setLogs setDomDebug
                 logs DOM domDebug inferences] in Hrun);
    [destruct (metadata_completed response);
     repeat (rewrite run_bind in Hrun;
             cbn [setDOM setInferences setLogs setDomDebug
                  logs DOM domDebug inferences] in Hrun)|];
    simplify_eq/=; rewrite ?Hinf, ?Hlogs, ?Hdebug, <- ?app_assoc; done.
Qed.

(** The instrumentation that [startDomDebug] switches on at line 81 is
    switched off, by [cleanupDomDebug] at line 167, in the runs in which the
    backend answers, and in those only: a run that ends because a page
    evaluation or the backend call has failed leaves it on. *)
Theorem extract_debug_teardown this options w :
  let '(r, w') := extract this options w in
  domDebug w' = match r with
                | Returned _ | Thrown (JsError _) => false
                | Thrown _ => true
                end.
Proof.
  pose proof (extract_trail this options w) as Hrun.
  destruct (extract this options w) as [r w']. cbv zeta in Hrun.
  destruct Hrun as [(reason & -> & _ & Hdebug & _)
                   |(selectorMap & d1 & d2 & o & _ & _ & _ & _ & _ & Hend)];
    [done|].
  destruct (inference this o) as [response|reason].
  - destruct Hend as [Hdebug Hend].
    by destruct (metadata_completed response), Hend as [-> _].
  - by destruct Hend as (-> & Hdebug & _).
Qed.

(** What reaches the backend.  A run in which a page evaluation fails asks
    the backend nothing.  Every other run asks it exactly once, and what it
    hands over as [domElements] is the formatted text of the annotations of
    the first occurrences of the boxes of the page, read off the document as
    [createTextBoundingBoxes] has left it; the content extracted so far
    defaults to the empty object, and the model to the handler's own when
    the caller names none. *)
Theorem extract_backend_request this options w :
  let '(r, w') := extract this options w in
  match r with
  | Thrown (EvaluateError _) => inferences w' = inferences w
  | _ =>
      ∃ selectorMap d1 d2,
        processAllOfDom (window this) (DOM w) = (Fulfilled selectorMap, d1)
        ∧ createTextBoundingBoxes (window this) d1 = (Fulfilled tt, d2)
        ∧ let o :=
            {| inf_instruction := instruction options;
               previouslyExtractedContent := default [] (content options);
               domElements :=
                 formatText this
                   (textAnnotation (viewportSize this)
                      <$> firstOccurrences
                            (boundingBoxesOf (window this)
                               (Object_values selectorMap) d2));
               inf_schema := schema options;
               inf_modelName :=
                 match modelName options with
                 | Some m => if bool_decide (m = "") then defaultModelName this else m
                 | None => defaultModelName this
                 end;
               inf_requestId := requestId options |} in
          inferences w' = inferences w ++ [(o, inference this o)]
  end.
Proof.
  pose proof (extract_trail this options w) as Hrun.
  destruct (extract this options w) as [r w']. cbv zeta in Hrun.
  destruct Hrun as [(reason & -> & Hinf & _)
                   |(selectorMap & d1 & d2 & o & Hp & Hc & -> & Hinf & _ & Hend)];
    [done|].
  assert (∃ selectorMap d1 d2,
    processAllOfDom (window this) (DOM w) = (Fulfilled selectorMap, d1)
    ∧ createTextBoundingBoxes (window this) d1 = (Fulfilled tt, d2)
    ∧ inferences w' = inferences w ++ [(_, inference this _)]) as Hgoal
    by (exists selectorMap, d1, d2; split; [done|]; split; [done|]; exact Hinf).
  destruct (inference this _) as [response|reason] in Hend.
  - destruct Hend as [_ Hend].
    destruct (metadata_completed response), Hend as [-> _]; exact Hgoal.
  - destruct Hend as (-> & _). exact Hgoal.
Qed.

(** What the log holds.  [extract] logs its progress and nothing else.  The
    first line is ["starting extraction"], with the instruction.  When
    [processAllOfDom] has answered, the second line gives the number of keys
    of the selector map.  The third and fourth lines follow when the backend
    has answered, the fourth only when the extraction is complete.  A run
    that fails logs the lines up to the step that failed and none about the
    failure. *)
Theorem extract_logs_progress_only this options w :
  let '(r, w') := extract this options w in
  let start := {| category := "extraction"; message := "starting extraction";
                  level := Some 1%Z;
                  auxiliary := [("instruction", Some (instruction options))] |} in
  let sized (selectorMap : SelectorMap) :=
    {| category := "extraction";
       message := "received output from processAllOfDom. selectorMap has "
                  +:+ pretty (length (Object_keys selectorMap)) +:+ " entries";
       level := None; auxiliary := [] |} in
  let received := {| category := "extraction";
                     message := "received extraction response";
                     level := None; auxiliary := [] |} in
  let got := {| category := "extraction"; message := "got response";
                level := None; auxiliary := [] |} in
  match processAllOfDom (window this) (DOM w) with
  | (Rejected reason, _) =>
      r = Thrown (EvaluateError reason) ∧ logs w' = logs w ++ [start]
  | (Fulfilled selectorMap, _) =>
      logs w'
      = logs w ++ [start; sized selectorMap]
          ++ match r with
             | Returned _ => [received; got]
             | Thrown (JsError _) => [received]
             | Thrown _ => []
             end
  end.
Proof.
  pose proof (extract_trail this options w) as Hrun.
  destruct (extract this options w) as [r w']. cbv zeta in Hrun. cbv zeta.
  destruct Hrun as [(reason & -> & _ & _ & Hlogs)
                   |(selectorMap & d1 & d2 & o & Hprocess & _ & _ & _ & _ & Hend)].
  - destruct (processAllOfDom (window this) (DOM w)) as [[selectorMap|reason'] d1];
      [exact Hlogs|].
    by destruct Hlogs as [-> Hlogs].
  - rewrite Hprocess. destruct (inference this o) as [response|reason].
    + destruct Hend as [_ Hend].
      by destruct (metadata_completed response), Hend as [-> Hlogs].
    + by destruct Hend as (-> & _ & Hlogs).
Qed.

End ExtractTrail.
(* ------------------------------------------------------------------------- *)
(** ** More on the Anthropic client: what a call leaves alone, what it sends,
       and how it ends (AnthropicClient.ts, lines 30-345) *)

Section AnthropicMore.
Import Anthropic.

Implicit Types (this : AnthropicClient) (options : Options) (w : World).

(** The caller's arrays are never written: the screenshot message goes onto
    [formattedMessages], an array of the call's own (lines 114-160). *)
Theorem anthropic_leaves_messages this options w :
  let w' := (createChatCompletion this options w).2 in
  LLM.heap w' = LLM.heap w
  ∧ (∀ array, LLM.heap w' !!! array = LLM.heap w !!! array)
  ∧ fingerprint this options w' = fingerprint this options w.
Proof.
  destruct (createChatCompletion_calls this options w) as (Hheap & _).
  simpl in *. split; [done|]. split; [by intros array; rewrite Hheap|].
  by apply fingerprint_same.
Qed.

(** A system message is never among the [messages] of a request.  The
    [system] of the request is the content of the first system message that
    has no image part; the system messages after it, and every system message
    that has an image part, appear nowhere in the request. *)
Theorem anthropic_system_prompt this options w :
  let messages := LLM.heap w !!! LLM.messages options in
  let request := request this options w in
  (∀ param, param ∈ req_messages request → param_role param ≠ LLM.system)
  ∧ length (req_messages request)
    = (length (filter (λ msg, LLM.role msg ≠ LLM.system) messages)
       + match LLM.image options with Some _ => 1 | None => 0 end)%nat
  ∧ match req_system request with
    | Some content =>
        ∃ before msg after,
          messages = before ++ msg :: after
          ∧ LLM.role msg = LLM.system
          ∧ LLM.content msg = content
          ∧ (∀ parts part,
               content = LLM.ContentArray parts → part ∈ parts →
               LLM.partType part ≠ "image_url")
          ∧ (∀ earlier, earlier ∈ before → isSystemMessage earlier = false)
    | None =>
        ∀ msg, msg ∈ messages → LLM.role msg = LLM.system →
          ∃ parts part,
            LLM.content msg = LLM.ContentArray parts
            ∧ part ∈ parts ∧ LLM.partType part = "image_url"
    end.
Proof.
  intros messages rq. subst rq. unfold request, createParams. simpl.
  fold messages. split; [|split].
  - intros param. unfold formattedMessages. rewrite elem_of_app.
    intros [Hin|Hin].
    + apply list_elem_of_fmap in Hin as (msg & -> & Hin).
      apply list_elem_of_filter in Hin as [Hrole _].
      unfold formatMessage. by destruct (LLM.content msg).
    + destruct (LLM.image options); [|by apply elem_of_nil in Hin].
      apply list_elem_of_singleton in Hin as ->. done.
  - unfold formattedMessages. rewrite length_app, length_fmap.
    by destruct (LLM.image options).
  - induction messages as [|m messages IH]; simpl.
    { intros msg Hin. by apply elem_of_nil in Hin. }
    destruct (isSystemMessage m) eqn:Hm; simpl.
    + exists [], m, messages. split; [done|].
      unfold isSystemMessage in Hm. apply andb_true_iff in Hm as [Hrole Hparts].
      apply bool_decide_eq_true in Hrole. split; [done|]. split; [done|].
      split; [|by intros earlier Hin; apply elem_of_nil in Hin].
      intros parts part Hcontent Hin. rewrite Hcontent in Hparts.
      rewrite forallb_forall in Hparts.
      specialize (Hparts part). rewrite <- list_elem_of_In in Hparts.
      specialize (Hparts Hin). apply negb_true_iff, bool_decide_eq_false in Hparts.
      done.
    + destruct (find isSystemMessage messages) as [found|]; simpl in *.
      * destruct IH as (before & msg & after & -> & Hrole & Hcontent & Hparts & Hbefore).
        exists (m :: before), msg, after. split; [done|]. split; [done|].
        split; [done|]. split; [done|].
        intros earlier [->|Hin]%elem_of_cons; [done|by apply Hbefore].
      * intros msg [->|Hin]%elem_of_cons Hrole; [|by apply IH].
        unfold isSystemMessage in Hm. rewrite Hrole in Hm.
        rewrite bool_decide_eq_true_2 in Hm by done. simpl in Hm.
        destruct (LLM.content m) as [s|parts]; [done|].
        exists parts. induction parts as [|p parts IHp]; [done|]. simpl in Hm.
        apply andb_false_iff in Hm as [Hp|Hm].
        -- exists p. split; [done|]. split; [by left|].
           apply negb_false_iff, bool_decide_eq_true in Hp. done.
        -- destruct (IHp Hm) as (part & _ & Hin & Htype).
           exists part. split; [done|]. split; [by right|done].
Qed.

(** A conversation whose only system message carries an image: the request
    has no [system], and the system message is not among its [messages]. *)
Example anthropic_illustrated_system_dropped :
  let w := LLM.setHeap {[ 1%positive := AnthropicCases.illustrated ]}
             AnthropicScenario.world in
  let request := request AnthropicScenario.talkative AnthropicCases.chat w in
  req_system request = None
  ∧ req_messages request
    = [ {| param_role := LLM.user; param_content := ParamString "Stars: 1000" |} ]
  ∧ req_max_tokens request = 1500%float.
Proof. repeat split. Qed.

Lemma find_first_tool_use texts id name input rest :
  Forall (λ c, isText c = true) texts →
  find isToolUse (texts ++ ToolUseBlock id name input :: rest)
  = Some (ToolUseBlock id name input).
Proof.
  induction texts as [|c texts IH]; intros Htexts; [done|].
  apply Forall_cons in Htexts as [Hc Htexts]. simpl.
  destruct c; [by apply IH|done].
Qed.

(** With a schema asked for, what a call returns is the input of the first
    tool use of the response, whatever tool it names and whatever follows it
    (lines 289-296): the name is not compared with that of the tool that
    prints the data. *)
Theorem anthropic_first_tool_use_wins this options w response_model response
    texts id name input rest :
  (enableCaching this = true → cache this = true) →
  cached this options w = None →
  LLM.response_model options = Some response_model →
  client this (LLM.calls w) (request this options w) = Fulfilled response →
  msg_content response = texts ++ ToolUseBlock id name input :: rest →
  Forall (λ c, isText c = true) texts →
  ∃ w', createChatCompletion this options w = (Returned (Structured input), w')
        ∧ LLM.calls w' = LLM.calls w ++ [request this options w]
        ∧ LLM.cache w' = stored this options w (Structured input).
Proof.
  intros Hc Hmiss Hmodel Hreply Hcontent Htexts.
  destruct (invocation_structured this options w response response_model
              id name input) as (w' & Hrun & (_ & Hsent & _) & Hcache); [done..| |].
  { rewrite Hcontent. by apply find_first_tool_use. }
  exists w'. by rewrite createChatCompletion_eq, Hrun.
Qed.

Lemma anthropic_first_tool_use_wins_witness :
  ∃ w',
    createChatCompletion AnthropicCases.eager AnthropicScenario.options
      AnthropicScenario.world
    = (Returned (Structured "{name: react}"), w')
    ∧ LLM.calls w'
      = LLM.calls AnthropicScenario.world
        ++ [request AnthropicCases.eager AnthropicScenario.options
              AnthropicScenario.world]
    ∧ LLM.cache w'
      = stored AnthropicCases.eager AnthropicScenario.options
          AnthropicScenario.world (Structured "{name: react}").
Proof.
  eapply (anthropic_first_tool_use_wins AnthropicCases.eager
            AnthropicScenario.options AnthropicScenario.world _
            AnthropicCases.eagerReply [TextBlock "Let me look that up."]
            "toolu_02" "get_repository" "{name: react}"
            [ToolUseBlock "toolu_03" "print_extracted_data" "{stars: 1000}"]).
  - reflexivity.
  - apply lookup_empty.
  - reflexivity.
  - reflexivity.
  - reflexivity.
  - repeat constructor.
Defined.

(** A request that the vendor rejects is not sent again: the call throws the
    vendor's error after this one request, whatever the counter says, and
    stores nothing. *)
Theorem anthropic_rejection_not_retried this options w reason :
  (enableCaching this = true → cache this = true) →
  cached this options w = None →
  client this (LLM.calls w) (request this options w) = Rejected reason →
  ∃ w', createChatCompletion this options w = (Thrown (VendorError reason), w')
        ∧ LLM.calls w' = LLM.calls w ++ [request this options w]
        ∧ LLM.cache w' = LLM.cache w.
Proof.
  intros Hc Hmiss Hreply.
  destruct (invocation_rejected this options w reason)
    as (w' & Hrun & (_ & Hsent & _) & Hcache); [done..|].
  exists w'. by rewrite createChatCompletion_eq, Hrun.
Qed.

Lemma anthropic_rejection_not_retried_witness :
  mayRetry (retries AnthropicScenario.options) = true
  ∧ ∃ w',
      createChatCompletion AnthropicCases.overloaded AnthropicScenario.options
        AnthropicScenario.world
      = (Thrown (VendorError "529 overloaded_error"), w')
      ∧ LLM.calls w'
        = LLM.calls AnthropicScenario.world
          ++ [request AnthropicCases.overloaded AnthropicScenario.options
                AnthropicScenario.world]
      ∧ LLM.cache w' = LLM.cache AnthropicScenario.world.
Proof.
  split; [reflexivity|].
  apply (anthropic_rejection_not_retried AnthropicCases.overloaded
           AnthropicScenario.options AnthropicScenario.world).
  - reflexivity.
  - apply lookup_empty.
  - reflexivity.
Defined.

(** Without a schema there is no retry: a call sends at most one request,
    and when the vendor answers it, the call returns the transformed
    response, whatever the response holds. *)
Theorem anthropic_chat_single_request this options w :
  LLM.response_model options = None →
  let '(r, w') := createChatCompletion this options w in
  (LLM.calls w' = LLM.calls w
   ∨ LLM.calls w' = LLM.calls w ++ [request this options w])
  ∧ (∀ response,
       (enableCaching this = true → cache this = true) →
       cached this options w = None →
       client this (LLM.calls w) (request this options w) = Fulfilled response →
       r = Returned (Transformed (transform response (LLM.clock w)))
       ∧ LLM.cache w'
         = stored this options w (Transformed (transform response (LLM.clock w)))).
Proof.
  intros Hmodel. rewrite createChatCompletion_eq.
  pose proof (invocation_invoked this options w) as Hcase.
  pose proof (invocation_frame this options w) as (_ & _ & Hcalls).
  destruct (invocation this options w) as [[[value|options']|e] w1] eqn:Hrun;
    simpl in *.
  - split; [done|]. intros response Hc Hmiss Hreply.
    destruct (invocation_transformed this options w response)
      as (w2 & Hrun' & _ & Hcache); [done..|].
    rewrite Hrun in Hrun'. by simplify_eq/=.
  - exfalso. inversion Hcase as [| | | |response ? _ _ _ Hanswer|]; subst.
    unfold answer in Hanswer. by rewrite Hmodel in Hanswer.
  - split; [done|]. intros response Hc Hmiss Hreply.
    destruct (invocation_transformed this options w response)
      as (w2 & Hrun' & _ & Hcache); [done..|].
    rewrite Hrun in Hrun'. by simplify_eq/=.
Qed.

Lemma anthropic_chat_single_request_witness :
  let run := createChatCompletion AnthropicScenario.talkative AnthropicCases.chat
               AnthropicScenario.world in
  (LLM.calls run.2 = LLM.calls AnthropicScenario.world
   ∨ LLM.calls run.2
     = LLM.calls AnthropicScenario.world
       ++ [request AnthropicScenario.talkative AnthropicCases.chat
             AnthropicScenario.world])
  ∧ run.1
    = Returned (Transformed (transform AnthropicScenario.talk
                               (LLM.clock AnthropicScenario.world))).
Proof.
  intros run.
  pose proof (anthropic_chat_single_request AnthropicScenario.talkative
                AnthropicCases.chat AnthropicScenario.world eq_refl) as Hrun.
  fold run in Hrun. destruct run as [r w']. destruct Hrun as [Hcalls Hanswer].
  split; [exact Hcalls|].
  destruct (Hanswer AnthropicScenario.talk (λ _, eq_refl) (lookup_empty _) eq_refl)
    as [Hr _].
  exact Hr.
Defined.

(** The counter may come from the caller.  Against a backend that never uses
    a tool, a call that enters with the counter at a safe integer [r] sends
    [1 + max 0 (5 - r)] requests and then throws: one request and no retry
    from 5 on, more than six for a negative counter. *)
Theorem anthropic_attempts_from_counter this options w response_model r :
  (enableCaching this = true → cache this = true) →
  LLM.response_model options = Some response_model →
  retries options = Some r →
  isSafeInteger r = true →
  (∀ r', cached this {| base := options; retries := r' |} w = None) →
  (∀ history request, ∃ response,
      client this history request = Fulfilled response
      ∧ find isToolUse (msg_content response) = None) →
  ∃ w',
    createChatCompletion this options w
    = (Thrown (JsError
         "Create Chat Completion Failed: No tool use with input in response"), w')
    ∧ LLM.calls w'
      = LLM.calls w ++ replicate (1 + Z.to_nat (5 - r)) (request this options w)
    ∧ LLM.cache w' = LLM.cache w.
Proof.
  intros Hc Hmodel Hr _ Hcold Hvendor.
  destruct (createChatCompletion_exhausts this options w response_model)
    as (w' & Hrun & Hcalls & Hcache); [done..|].
  exists w'. split; [done|]. split; [|done].
  rewrite Hcalls. unfold retriesLeft. by rewrite Hr.
Qed.

Lemma anthropic_attempts_from_counter_witness :
  ∃ w',
    createChatCompletion AnthropicScenario.talkative AnthropicCases.counted
      AnthropicScenario.world
    = (Thrown (JsError
         "Create Chat Completion Failed: No tool use with input in response"), w')
    ∧ LLM.calls w'
      = LLM.calls AnthropicScenario.world
        ++ [request AnthropicScenario.talkative AnthropicCases.counted
              AnthropicScenario.world]
    ∧ LLM.cache w' = LLM.cache AnthropicScenario.world.
Proof.
  eapply (anthropic_attempts_from_counter AnthropicScenario.talkative
            AnthropicCases.counted AnthropicScenario.world _ 5).
  - reflexivity.
  - reflexivity.
  - reflexivity.
  - reflexivity.
  - intros r'. apply lookup_empty.
  - intros history request. exists AnthropicScenario.talk. split; reflexivity.
Defined.

(** A call writes the cache at most once, and only on its way to returning a
    value: what it stores is the value it returns, under the key of the
    attempt that obtained it.  A call that throws leaves the cache as it
    was. *)
Theorem anthropic_stores_what_it_returns this options w :
  let '(r, w') := createChatCompletion this options w in
  match r with
  | Thrown _ => LLM.cache w' = LLM.cache w
  | Returned value =>
      LLM.cache w' = LLM.cache w
      ∨ ∃ n : nat,
          (n ≤ retriesLeft options)%nat
          ∧ LLM.cache w'
            = <[fingerprint this (retryOptions options n) w := value]> (LLM.cache w)
  end.
Proof.
  remember (retriesLeft options) as left eqn:Hleft.
  revert options w Hleft.
  induction (lt_wf left) as [left _ IH]. intros options w ->.
  rewrite createChatCompletion_eq.
  pose proof (invocation_invoked this options w) as Hcase.
  destruct (invocation this options w) as [[[value|options']|e] w1] eqn:Hrun;
    simpl in Hcase.
  - inversion Hcase as [|? ? _ _ (_ & Hcache & _)| |? ? ? _ _ _ _ _ Hcache| |];
      subst; [by left|].
    unfold stored in Hcache. destruct (enableCaching this); [|by left].
    right. exists 0%nat. split; [lia|done].
  - apply invocation_recurse_inv in Hrun
      as (-> & Hretry & _ & (Hheap & _ & _) & Hcache).
    pose proof (retriesLeft_withRetry options Hretry) as Hless.
    specialize (IH (retriesLeft (withRetry options)) ltac:(lia) (withRetry options)
                  w1 eq_refl).
    destruct (createChatCompletion this (withRetry options) w1) as [[value|e] w'].
    + destruct IH as [IH|(n & Hn & IH)]; [left; congruence|].
      right. exists (S n). split; [lia|].
      rewrite <- retryOptions_S, <- (fingerprint_same this _ w w1 Hheap).
      by rewrite IH, Hcache.
    + congruence.
  - inversion Hcase as [? _ _ (_ & Hcache & _)| |? ? _ _ _ _ Hcache| | |
                        ? ? _ _ _ _ _ _ Hcache]; subst; done.
Qed.

End AnthropicMore.
(* ------------------------------------------------------------------------- *)
(** ** More on the OpenAI client: one request, the cache and the pushed
       screenshot (AnthropicClient.ts, lines 383-597) *)

Section OpenAIMore.
Import OpenAI.

Implicit Types (this : OpenAIClient) (options : LLM.ChatCompletionOptions).
Implicit Types (w : World).

(** A key is the longer for a screenshot pushed. *)
Lemma fingerprint_pushed this options w w' image :
  LLM.image options = Some image →
  LLM.heap w' = pushed options (LLM.heap w) →
  fingerprint this options w' ≠ fingerprint this options w.
Proof.
  intros Himage Hheap Heq. unfold fingerprint, pushed in *.
  rewrite Hheap, Himage in Heq.
  apply (f_equal (λ f, length (LLM.fp_messages f))) in Heq. simpl in Heq.
  rewrite lookup_total_insert_eq, length_app in Heq. simpl in Heq. lia.
Qed.

(** Every call sends at most one request, the clock is not touched, and the
    cache is written at most once and only by a call that returns: the value
    returned, under the key of the caller's array as the call leaves it.
    There is no retry of any kind. *)
Theorem openai_at_most_one_request this options w :
  let '(r, w') := createChatCompletion this options w in
  (LLM.calls w' = LLM.calls w
   ∨ LLM.calls w'
     = LLM.calls w ++ [body this options (LLM.heap w' !!! LLM.messages options)])
  ∧ LLM.clock w' = LLM.clock w
  ∧ match r with
    | Thrown _ => LLM.cache w' = LLM.cache w
    | Returned value =>
        LLM.cache w' = LLM.cache w
        ∨ LLM.cache w' = <[fingerprint this options w' := value]> (LLM.cache w)
    end.
Proof.
  destruct (createChatCompletion this options w) as [r w'] eqn:Hrun.
  destruct (enableCaching this) eqn:Hon, (cache this) eqn:Hcache,
    (cached this options w) as [value|] eqn:Hhit;
    try (destruct (openai_no_cache this options w Hon Hcache)
           as (w1 & Hrun' & _ & Hc & Hcalls & Hclock);
         rewrite Hrun in Hrun'; simplify_eq/=; by auto);
    try (destruct (openai_hit this options w value Hcache Hhit)
           as (w1 & Hrun' & _ & Hc & Hcalls & Hclock);
         rewrite Hrun in Hrun'; simplify_eq/=; by auto);
    try (unfold cached in Hhit; rewrite Hon in Hhit; discriminate Hhit).
  all: destruct (openai_miss this options w) as (_ & Hheap & Hcalls & Hclock & Hend);
    [congruence|done|]; rewrite Hrun in *; simpl in *;
    (split; [right; by rewrite Hheap|]); (split; [done|]);
    destruct r as [value|e]; [|done]; unfold fingerprint;
    rewrite Hheap; destruct (enableCaching this); auto.
Qed.

(** With caching on and no schema asked for, the response of the vendor is
    returned and stored, and the same call made again, with the same options
    object, is answered from the cache: it sends nothing and pushes nothing,
    image or not. *)
Theorem openai_read_through this options w response :
  enableCaching this = true →
  cache this = true →
  LLM.response_model options = None →
  cached this options w = None →
  client this (LLM.calls w)
    (body this options (pushed options (LLM.heap w) !!! LLM.messages options))
  = Fulfilled response →
  ∃ w1,
    createChatCompletion this options w = (Returned (Raw response), w1)
    ∧ cached this options w1 = Some (Raw response)
    ∧ ∃ w2, createChatCompletion this options w1 = (Returned (Raw response), w2)
            ∧ LLM.sameButLogs w2 w1.
Proof.
  intros Hon Hcache Hmodel Hmiss Hreply.
  destruct (openai_miss this options w (λ _, Hcache) Hmiss)
    as (Hout & Hheap & _ & _ & Hend).
  destruct (createChatCompletion this options w) as [r w1]. simpl in *.
  rewrite Hreply in Hout. unfold outcome in Hout. rewrite Hmodel in Hout. subst r.
  rewrite Hon in Hend.
  assert (cached this options w1 = Some (Raw response)) as Hhit.
  { unfold cached, fingerprint. rewrite Hon, Hheap, Hend. apply lookup_insert_eq. }
  exists w1. split; [done|]. split; [done|].
  by apply openai_hit.
Qed.

Lemma openai_read_through_witness :
  ∃ w1,
    createChatCompletion OpenAIScenario.gpt OpenAIScenario.optionsWithImage
      OpenAIScenario.world
    = (Returned (Raw OpenAIScenario.completion), w1)
    ∧ cached OpenAIScenario.gpt OpenAIScenario.optionsWithImage w1
      = Some (Raw OpenAIScenario.completion)
    ∧ ∃ w2,
        createChatCompletion OpenAIScenario.gpt OpenAIScenario.optionsWithImage w1
        = (Returned (Raw OpenAIScenario.completion), w2)
        ∧ LLM.sameButLogs w2 w1.
Proof.
  apply (openai_read_through OpenAIScenario.gpt OpenAIScenario.optionsWithImage
           OpenAIScenario.world OpenAIScenario.completion).
  - reflexivity.
  - reflexivity.
  - reflexivity.
  - apply lookup_empty.
  - reflexivity.
Defined.

(** With caching on, a call that carries an image and is not answered from
    the cache stores its value under the key of the array with the screenshot
    on it.  The key under which the call has looked, that of the array as it
    was, has no entry afterwards either: a request that is printed as this
    one was, be it from a fresh copy of the same messages, is not answered
    from the cache. *)
Theorem openai_image_key_after_push this options w image value :
  enableCaching this = true →
  cache this = true →
  LLM.image options = Some image →
  cached this options w = None →
  (createChatCompletion this options w).1 = Returned value →
  let w' := (createChatCompletion this options w).2 in
  fingerprint this options w' ≠ fingerprint this options w
  ∧ LLM.cache w' !! fingerprint this options w' = Some value
  ∧ LLM.cache w' !! fingerprint this options w = None
  ∧ ∀ options2 w2,
      fingerprint this options2 w2 = fingerprint this options w →
      LLM.cache w2 = LLM.cache w' →
      cached this options2 w2 = None.
Proof.
  intros Hon Hcache Himage Hmiss Hvalue w'. subst w'.
  destruct (openai_miss this options w (λ _, Hcache) Hmiss)
    as (_ & Hheap & _ & _ & Hend).
  destruct (createChatCompletion this options w) as [r w']. simpl in *. subst r.
  rewrite Hon in Hend.
  pose proof (fingerprint_pushed this options w w' image Himage Hheap) as Hne.
  assert (LLM.cache w' !! fingerprint this options w = None) as Hnone.
  { rewrite Hend. unfold LLMCache.set. rewrite lookup_insert_ne.
    - unfold cached in Hmiss. by rewrite Hon in Hmiss.
    - unfold fingerprint in Hne. by rewrite Hheap in Hne. }
  split; [done|]. split.
  { rewrite Hend. unfold fingerprint. rewrite Hheap. apply lookup_insert_eq. }
  split; [done|].
  intros options2 w2 Hfp Hc. unfold cached, LLMCache.get.
  by rewrite Hon, Hfp, Hc.
Qed.

Lemma openai_image_key_after_push_witness :
  let run := createChatCompletion OpenAIScenario.gpt OpenAIScenario.optionsWithImage
               OpenAIScenario.world in
  LLM.cache run.2
    !! fingerprint OpenAIScenario.gpt OpenAIScenario.optionsWithImage run.2
  = Some (Raw OpenAIScenario.completion)
  ∧ LLM.cache run.2
      !! fingerprint OpenAIScenario.gpt OpenAIScenario.optionsWithImage
           OpenAIScenario.world
    = None.
Proof.
  intros run.
  assert (run.1 = Returned (Raw OpenAIScenario.completion)) as Hvalue.
  { destruct (openai_miss OpenAIScenario.gpt OpenAIScenario.optionsWithImage
                OpenAIScenario.world (λ _, eq_refl) (lookup_empty _)) as [Hout _].
    exact Hout. }
  destruct (openai_image_key_after_push OpenAIScenario.gpt
              OpenAIScenario.optionsWithImage OpenAIScenario.world _ _
              eq_refl eq_refl eq_refl (lookup_empty _) Hvalue)
    as (_ & Hstored & Hnone & _).
  split; [exact Hstored|exact Hnone].
Defined.

(** Asked for structured data, the client parses the content of the first
    choice, and fails at once where it cannot: on a response without choices,
    and on a content that is not JSON.  The request has been sent once and is
    not sent again, the screenshot is on the caller's array, and nothing is
    stored. *)
Theorem openai_schema_failure_is_final this options w response_model response :
  (enableCaching this = true → cache this = true) →
  cached this options w = None →
  LLM.response_model options = Some response_model →
  client this (LLM.calls w)
    (body this options (pushed options (LLM.heap w) !!! LLM.messages options))
  = Fulfilled response →
  match cc_choices response with
  | [] => True
  | choice :: _ =>
      ∃ text, choice_content choice = Some text ∧ JSON_parse this text = None
  end →
  let '(r, w') := createChatCompletion this options w in
  (∃ reason,
     r = Thrown (match cc_choices response with
                 | [] => TypeError reason
                 | _ => SyntaxError reason
                 end))
  ∧ LLM.calls w'
    = LLM.calls w
      ++ [body this options (pushed options (LLM.heap w) !!! LLM.messages options)]
  ∧ LLM.heap w' = pushed options (LLM.heap w)
  ∧ LLM.cache w' = LLM.cache w.
Proof.
  intros Hc Hmiss Hmodel Hreply Hbad.
  destruct (openai_miss this options w Hc Hmiss)
    as (Hout & Hheap & Hcalls & _ & Hend).
  destruct (createChatCompletion this options w) as [r w']. simpl in *.
  rewrite Hreply in Hout. unfold outcome in Hout. rewrite Hmodel in Hout.
  destruct (cc_choices response) as [|choice choices].
  - subst r. split; [by eexists|]. done.
  - destruct Hbad as (text & Htext & Hparse). rewrite Htext, Hparse in Hout.
    subst r. split; [by eexists|]. done.
Qed.

Lemma openai_schema_failure_is_final_witness :
  let run := createChatCompletion OpenAICases.strict OpenAICases.structured
               OpenAIScenario.world in
  (∃ reason, run.1 = Thrown (SyntaxError reason))
  ∧ length (LLM.calls run.2) = 1%nat
  ∧ LLM.heap run.2 = pushed OpenAICases.structured (LLM.heap OpenAIScenario.world)
  ∧ LLM.cache run.2 = LLM.cache OpenAIScenario.world.
Proof.
  intros run.
  pose proof (openai_schema_failure_is_final OpenAICases.strict
                OpenAICases.structured OpenAIScenario.world _
                OpenAIScenario.completion (λ _, eq_refl) (lookup_empty _)
                eq_refl eq_refl
                (ex_intro _ "The repository has 1000 stars." (conj eq_refl eq_refl)))
    as Hrun.
  fold run in Hrun. destruct run as [r w'].
  destruct Hrun as (Hr & Hcalls & Hheap & Hcache). simpl.
  split; [exact Hr|]. split; [by rewrite Hcalls|]. split; [exact Hheap|exact Hcache].
Defined.

End OpenAIMore.
(* ------------------------------------------------------------------------- *)
(** ** The eval runner (src/unnamed/part_002, lines 120-350) *)

Section EvalRunner.
Import Evals.

Implicit Types (imported : string → EvalFunction) (input : EvalInput).
Implicit Types (results : list EvalResult) (env : Env).

Lemma exactMatch_scored result :
  score (exactMatch (scored result)) = 1%Z
  ↔ result_output result = Bool true
    ∨ success_of (result_output result) = Some true.
Proof.
  unfold exactMatch, scored. simpl.
  destruct (result_output result) as [| |[|]| | |id [[[|]|] e]]; simpl;
    split; try done; try (intros [?|?]; done); auto.
Qed.

(** A task that has no function, or whose function throws an object that is
    printed as JSON, does not make [task] throw: [task] answers with an
    unsuccessful result that carries the error.  The scorers then give 0 for
    the match and 1 for the error rate, and the summary counts the task as
    failed. *)
Theorem task_failure_scores imported fresh input summary :
  (tasks_lookup imported (name input) = None
   ∨ ∃ function json,
       tasks_lookup imported (name input) = Some function
       ∧ function (modelName input)
         = Rejects {| nullish := false; stringified := Some json |}) →
  ∃ output json,
    task imported fresh input = Returned output
    ∧ output = Object fresh {| _success := Some false; error := Some json |}
    ∧ let result := {| result_input := input; result_output := output |} in
      score (exactMatch (scored result)) = 0%Z
      ∧ score (errorMatch (scored result)) = 1%Z
      ∧ failedTasks (generateSummary summary [result]) = [input]
      ∧ passedTasks (generateSummary summary [result]) = [].
Proof.
  intros Hfails.
  assert (∃ json, task imported fresh input
                  = Returned (Object fresh {| _success := Some false;
                                              error := Some json |}))
    as [json Hrun].
  { unfold task. destruct Hfails as [->|(function & json & -> & ->)]; simpl; eauto. }
  eexists _, json. split; [exact Hrun|]. split; [done|].
  destruct input. done.
Qed.

Lemma task_failure_scores_witness :
  ∃ output json,
    task (λ _ _, Resolves (Bool true)) 1%positive
      {| name := "extract_last_twenty_github_commits"; modelName := "gpt-4o" |}
    = Returned output
    ∧ output = Object 1%positive {| _success := Some false; error := Some json |}.
Proof.
  destruct (task_failure_scores (λ _ _, Resolves (Bool true)) 1%positive
              {| name := "extract_last_twenty_github_commits"; modelName := "gpt-4o" |}
              None (or_introl eq_refl))
    as (output & json & Hrun & Hout & _).
  by exists output, json.
Defined.

(** What [task] lets through: it throws, for all its [catch], when what the
    function has thrown is [undefined] or [null], or cannot be printed as
    JSON; and what a function returns, it returns, be it [undefined]. *)
Theorem task_outcomes imported fresh input function :
  tasks_lookup imported (name input) = Some function →
  match function (modelName input) with
  | Resolves value => task imported fresh input = Returned value
  | Rejects error =>
      if nullish error
      then ∃ reason, task imported fresh input = Thrown (TypeError reason)
      else match stringified error with
           | None => ∃ reason, task imported fresh input = Thrown (SyntaxError reason)
           | Some json =>
               task imported fresh input
               = Returned (Object fresh {| _success := Some false;
                                           error := Some json |})
           end
  end.
Proof.
  intros Hfunction. unfold task. rewrite Hfunction.
  destruct (function (modelName input)) as [value|[[|] [json|]]]; simpl; eauto.
Qed.

Lemma task_outcomes_witness :
  ∃ reason,
    task (λ _ _, Rejects {| nullish := true; stringified := None |}) 1%positive
      {| name := "wikipedia"; modelName := "gpt-4o" |}
    = Thrown (TypeError reason).
Proof.
  exact (task_outcomes (λ _ _, Rejects {| nullish := true; stringified := None |})
           1%positive {| name := "wikipedia"; modelName := "gpt-4o" |} _ eq_refl).
Defined.

Lemma filter_success_split {A} (f : A → bool) (l : list A) :
  filter (λ x, f x = true) l ++ filter (λ x, negb (f x) = true) l ≡ₚ l.
Proof.
  induction l as [|a l IH]; [done|].
  destruct (f a) eqn:Ha.
  - rewrite filter_cons_True, filter_cons_False by (by rewrite ?Ha).
    simpl. by rewrite IH.
  - rewrite filter_cons_False, filter_cons_True by (by rewrite ?Ha).
    rewrite <- Permutation_middle. by rewrite IH.
Qed.

(** The summary sorts every result into one of its two lists: the tasks
    passed and the tasks failed are, together, the tasks of the results, each
    list in the order of the results.  The tasks passed are those for which
    [exactMatch] gives 1, but for a task whose output is the bare [true],
    which [exactMatch] takes for a success and the summary for a failure. *)
Theorem generateSummary_partition summary results :
  let formatted := generateSummary summary results in
  totalTasks formatted = length results
  ∧ (length (passedTasks formatted) + length (failedTasks formatted))%nat
    = totalTasks formatted
  ∧ passedTasks formatted ++ failedTasks formatted ≡ₚ result_input <$> results
  ∧ passedTasks formatted
    = result_input
        <$> filter (λ result,
                      score (exactMatch (scored result)) = 1%Z
                      ∧ strictEquals (result_output result) (Bool true) = false)
              results
  ∧ failedTasks formatted
    = result_input
        <$> filter (λ result,
                      ¬ (score (exactMatch (scored result)) = 1%Z
                         ∧ strictEquals (result_output result) (Bool true) = false))
              results.
Proof.
  unfold generateSummary. cbn [totalTasks passedTasks failedTasks].
  set (status := λ result,
         {| status_name := name (result_input result);
            status_modelName := modelName (result_input result);
            success := default false (success_of (result_output result)) |}).
  set (back := λ task,
         {| name := status_name task; modelName := status_modelName task |}).
  assert (∀ result, back (status result) = result_input result) as Hback
    by (by intros [[] ?]).
  assert (∀ result,
            success (status result) = true
            ↔ score (exactMatch (scored result)) = 1%Z
              ∧ strictEquals (result_output result) (Bool true) = false) as Hpassed.
  { intros result. rewrite exactMatch_scored. simpl.
    destruct (result_output result) as [| |[|]| | |id [[[|]|] e]]; simpl;
      split; try done; try (intros [[?|?] ?]; done); auto. }
  assert (∀ P `{∀ x, Decision (P x)} Q `{∀ x, Decision (Q x)},
            (∀ result, P (status result) ↔ Q result) →
            back <$> filter P (status <$> results)
            = result_input <$> filter Q results) as Hfilter.
  { intros P ? Q ? HPQ. induction results as [|r rs IH]; [done|].
    rewrite fmap_cons. destruct (decide (Q r)) as [Hq|Hq].
    - rewrite !filter_cons_True by (done || by apply HPQ).
      rewrite !fmap_cons, Hback. by f_equal.
    - rewrite !filter_cons_False by (done || by rewrite HPQ). done. }
  split; [by rewrite length_fmap|].
  split.
  { rewrite !length_fmap, <- length_app.
    rewrite (filter_success_split success). by rewrite ?length_fmap. }
  split.
  { rewrite <- fmap_app, (filter_success_split success), <- list_fmap_compose.
    erewrite list_fmap_ext; [done|]. intros ? r _. apply Hback. }
  split.
  - apply Hfilter, Hpassed.
  - apply Hfilter. intros result. rewrite <- Hpassed.
    by destruct (success (status result)).
Qed.

(** The test cases before the filters, and what the filters keep. *)
Lemma data_elem_of env ciEvals filter testcase :
  testcase ∈ data env ciEvals filter ↔
  ∃ model test,
    testcase = {| testcase_input := {| name := test; modelName := model |};
                  testcase_name := test;
                  tags := [model; test];
                  metadata_model := model;
                  metadata_test := test |}
    ∧ model ∈ models
    ∧ test ∈ testcases env
    ∧ match ciEvals with
      | Some (first :: rest) => test ∈ first :: rest
      | _ => True
      end
    ∧ match filter with
      | Some (String first rest) => test = String first rest
      | _ => True
      end.
Proof.
  unfold data. cbv zeta. generalize models (testcases env). intros ms ts.
  assert (∀ testcase,
            testcase
            ∈ (ms ≫= λ model,
                 ts ≫= λ test,
                   [ {| testcase_input := {| name := test; modelName := model |};
                        testcase_name := test;
                        tags := [model; test];
                        metadata_model := model;
                        metadata_test := test |} ])
            ↔ ∃ model test,
                testcase
                = {| testcase_input := {| name := test; modelName := model |};
                     testcase_name := test;
                     tags := [model; test];
                     metadata_model := model;
                     metadata_test := test |}
                ∧ model ∈ ms ∧ test ∈ ts) as Hall.
  { intros tc. rewrite list_elem_of_bind. split.
    - intros (model & Hin & Hmodel). apply list_elem_of_bind in Hin
        as (test & Hin & Htest). apply list_elem_of_singleton in Hin. eauto.
    - intros (model & test & -> & Hmodel & Htest). exists model. split; [|done].
      apply list_elem_of_bind. exists test. split; [|done].
      by apply list_elem_of_singleton. }
  destruct ciEvals as [[|first rest]|], filter as [[|c f]|];
    rewrite ?list_elem_of_filter, Hall; clear Hall; split.
  all: try (first [ intros (Hf & Hci & model & test & -> & Hm & Ht)
                  | intros (Hf & model & test & -> & Hm & Ht)
                  | intros (model & test & -> & Hm & Ht) ];
            exists model, test; cbn in *;
            repeat (match goal with |- _ ∧ _ => split end);
            first [done | by destruct Hf]).
  all: intros (model & test & -> & Hm & Ht & Hci & Hf); cbn;
    repeat (match goal with |- _ ∧ _ => split end);
    first [ done | by left
          | eexists _, _; repeat (match goal with |- _ ∧ _ => split end); done ].
Qed.

Lemma data_sublist env ciEvals filter :
  data env ciEvals filter `sublist_of` data env None None.
Proof.
  unfold data.
  destruct ciEvals as [[|first rest]|], filter as [[|c f]|];
    try done; try apply sublist_filter.
  etrans; apply sublist_filter.
Qed.

(** The test cases of a run: one for each model and each name of [testcases]
    that the two filters let through, the cases of the first model before
    those of the second, and no pair of model and name twice.  A list of
    names that is empty filters nothing, nor does an empty string. *)
Theorem data_cases env ciEvals filter :
  let cases := data env ciEvals filter in
  (∀ testcase,
     testcase ∈ cases ↔
     ∃ model test,
       testcase = {| testcase_input := {| name := test; modelName := model |};
                     testcase_name := test;
                     tags := [model; test];
                     metadata_model := model;
                     metadata_test := test |}
       ∧ model ∈ models
       ∧ test ∈ testcases env
       ∧ match ciEvals with
         | Some (first :: rest) => test ∈ first :: rest
         | _ => True
         end
       ∧ match filter with
         | Some (String first rest) => test = String first rest
         | _ => True
         end)
  ∧ NoDup (testcase_input <$> cases)
  ∧ cases `sublist_of` data env None None
  ∧ data env None None
    = ((λ test, {| testcase_input := {| name := test; modelName := "gpt-4o" |};
                   testcase_name := test;
                   tags := ["gpt-4o"; test];
                   metadata_model := "gpt-4o";
                   metadata_test := test |}) <$> testcases env)
      ++ ((λ test, {| testcase_input :=
                        {| name := test;
                           modelName := "claude-3-5-sonnet-20241022" |};
                      testcase_name := test;
                      tags := ["claude-3-5-sonnet-20241022"; test];
                      metadata_model := "claude-3-5-sonnet-20241022";
                      metadata_test := test |}) <$> testcases env).
Proof.
  intros cases. subst cases.
  split; [intros testcase; apply data_elem_of|].
  split; [|split; [apply data_sublist|by destruct env]].
  eapply sublist_NoDup; [|apply fmap_sublist, data_sublist].
  destruct env; apply (bool_decide_unpack _); by vm_compute.
Qed.

(** Two names of [testcases] are no keys of [tasks]: the test cases under
    them have no function to run, so that they fail for every model, with
    the error of a call of [undefined].  And three keys of [tasks] are no
    names of [testcases], four on Browserbase: no filter makes their
    functions run. *)
Theorem testcases_and_tasks env imported :
  (∀ test,
     test ∈ testcases env →
     (tasks_lookup imported test = None
      ↔ test = "extract_collaborators_from_github_repository"
        ∨ test = "extract_last_twenty_github_commits"))
  ∧ (∀ test model fresh,
       test = "extract_collaborators_from_github_repository"
       ∨ test = "extract_last_twenty_github_commits" →
       task imported fresh {| name := test; modelName := model |}
       = Returned (Object fresh {| _success := Some false; error := Some "{}" |}))
  ∧ (∀ key,
       key ∈ taskNames →
       (key ∉ testcases env
        ↔ key = "extract_collaborators" ∨ key = "extract_github_commits"
          ∨ key = "costar" ∨ (env = BROWSERBASE ∧ key = "peeler_simple")))
  ∧ (∀ ciEvals filter testcase,
       testcase ∈ data env ciEvals filter →
       testcase_name testcase ∈ testcases env).
Proof.
  split; [|split; [|split]].
  - intros test Hin.
    destruct env; unfold testcases in Hin; simpl in Hin;
      repeat (apply elem_of_cons in Hin as [->|Hin]);
      try (by apply elem_of_nil in Hin);
      (split;
       [intros Hnone; vm_compute in Hnone;
        first [discriminate Hnone | by left | by right]
       |intros [Heq|Heq]; first [discriminate Heq | reflexivity]]).
  - by intros test model fresh [->| ->].
  - intros key Hin. unfold taskNames in Hin.
    repeat (apply elem_of_cons in Hin as [->|Hin]);
      try (by apply elem_of_nil in Hin);
      destruct env; split; apply (bool_decide_unpack _); by vm_compute.
  - intros ciEvals filter testcase Hin.
    apply data_elem_of in Hin as (model & test & -> & _ & Htest & _). done.
Qed.

End EvalRunner.
(* ------------------------------------------------------------------------- *)
(** ** The eval functions and the browser context *)

Section EvalFunctions.
Import Evals EvalScripts.

Implicit Types (stagehand : Stagehand) (trace : Trace) (c : Call).

Lemma run_call {A} c (answer : Trace → Reply A) trace :
  call c answer trace =
  match answer trace with
  | Fulfilled a => (Returned a, trace ++ [c])
  | Rejected reason => (Thrown (JsError reason), trace ++ [c])
  end.
Proof. reflexivity. Qed.

Lemma run_perform stagehand c trace :
  perform stagehand c trace =
  match settle stagehand trace c with
  | Fulfilled _ => (Returned tt, trace ++ [c])
  | Rejected reason => (Thrown (JsError reason), trace ++ [c])
  end.
Proof. unfold perform. rewrite run_call. by destruct (settle _ _ _) as [[]|]. Qed.

Lemma run_tryCatch {W A} (body : Eff W A) handler (w : W) :
  tryCatch body handler w =
  match body w with
  | (Returned a, w') => (Returned a, w')
  | (Thrown e, w') => handler e w'
  end.
Proof. reflexivity. Qed.

Lemma run_tryFinally {W A} (body : Eff W A) finalizer (w : W) :
  tryFinally body finalizer w =
  match finalizer (body w).2 with
  | (Returned _, w'') => ((body w).1, w'')
  | (Thrown e, w'') => (Thrown e, w'')
  end.
Proof. unfold tryFinally. by destruct (body w). Qed.

Lemma closes_app trace1 trace2 :
  closes (trace1 ++ trace2) = (closes trace1 + closes trace2)%nat.
Proof. unfold closes. by rewrite filter_app, length_app. Qed.

Lemma closes_cons_ne c trace :
  c ≠ Close → closes (c :: trace) = closes trace.
Proof. intros Hc. unfold closes. by rewrite filter_cons_False. Qed.

(** One step of a script: the next call is answered or rejected. *)
Ltac unfold_run :=
  repeat (progress (rewrite ?run_bind, ?run_tryCatch, ?run_tryFinally,
                      ?run_perform, ?run_call, ?run_ret;
                    cbn [fst snd])).

Ltac step :=
  unfold_run;
  match goal with
  | |- context [match ?x with Fulfilled _ => _ | Rejected _ => _ end] =>
      lazymatch x with
      | context [match _ with Fulfilled _ => _ | Rejected _ => _ end] => fail
      | _ => idtac
      end;
      let a := fresh "a" in
      let reason := fresh "reason" in
      let Hcall := fresh "Hcall" in
      destruct x as [a|reason] eqn:Hcall;
      [lazymatch type of a with unit => destruct a | _ => idtac end|]
  end;
  unfold_run.

(** [wikipedia] has no [try]: it closes the context at the end of a run in
    which nothing has failed, and in no other.  A run in which a call is
    rejected ends there, with the reason of this call, and unless the call is
    the close itself the context stays open. *)
Theorem wikipedia_closes_on_success_only stagehand fresh modelName trace :
  let '(r, trace') := wikipedia stagehand fresh modelName trace in
  ∃ calls,
    trace' = trace ++ calls
    ∧ calls `prefix_of`
        [ Init modelName;
          Goto "https://en.wikipedia.org/wiki/Baseball";
          Act ("click the " +:+ quote +:+ "hit and run" +:+ quote
               +:+ " link in this article") [];
          PageUrl;
          Close ]
    ∧ match r with
      | Returned value =>
          length calls = 5%nat
          ∧ value
            = result fresh
                (bool_decide
                   (page_url stagehand (trace ++ take 3 calls)
                    = "https://en.wikipedia.org/wiki/Hit_and_run_(baseball)"))
                None
      | Thrown e =>
          ∃ before c reason,
            calls = before ++ [c]
            ∧ settle stagehand (trace ++ before) c = Rejected reason
            ∧ e = JsError reason
            ∧ (c ≠ Close → closes calls = 0%nat)
      end.
Proof.
  destruct (wikipedia stagehand fresh modelName trace) as [r trace'] eqn:Hrun.
  revert Hrun. unfold wikipedia.
  step.
  2:{ intros [= <- <-]. exists [Init modelName]. split; [done|].
      split; [by eexists|]. exists [], (Init modelName), reason.
      rewrite app_nil_r. done. }
  step.
  2:{ intros [= <- <-]. eexists [_; _]. rewrite <- app_assoc.
      split; [done|]. split; [by eexists|]. eexists [_], _, reason.
      split; [done|]. done. }
  step.
  2:{ intros [= <- <-]. eexists [_; _; _]. rewrite <- !app_assoc.
      split; [done|]. split; [by eexists|]. eexists [_; _], _, reason.
      rewrite <- !app_assoc in Hcall1. done. }
  step.
  2:{ intros [= <- <-]. eexists [_; _; _; _; _]. rewrite <- !app_assoc.
      split; [done|]. split; [by eexists|]. eexists [_; _; _; _], _, reason.
      rewrite <- !app_assoc in Hcall2. done. }
  intros [= <- <-]. eexists [_; _; _; _; _]. rewrite <- !app_assoc.
  split; [done|]. split; [by eexists|]. split; [done|].
  simpl. by rewrite <- ?app_assoc.
Qed.

(** The end of a run: what has been called is read off the trace, and each
    answer met on the way is at hand. *)
Ltac finish :=
  intros [= <- <-];
  rewrite <- ?app_assoc in *; cbn [app] in *;
  eexists; (split; [reflexivity|]);
  repeat match goal with
         | H : settle _ _ _ = _ |- context [match settle _ _ _ with _ => _ end] =>
             rewrite H
         end;
  cbn [head last removelast take length app];
  repeat match goal with
         | |- _ ∧ _ => split
         | |- ∃ reason, settle _ _ _ = Rejected reason ∧ _ =>
             eexists; split; [eassumption|reflexivity]
         end;
  try first [ reflexivity | done | (simpl; lia)
            | solve [left; repeat split; first [reflexivity | simpl; lia]]
            | solve [right; repeat split; first [reflexivity | simpl; lia]] ].

Ltac conclude :=
  repeat match goal with
         | |- _ ∧ _ => split
         | |- ∃ _, _ => eexists
         end;
  first [reflexivity | eassumption | simpl; lia | done].

(** [expedia] closes the context once, at the end of every run that has got
    past [initStagehand].  Its [catch] block is empty: a run in which a step
    is rejected returns [undefined], which counts neither as a match nor as
    an error, and no run returns an error. *)
Theorem expedia_swallows_failures stagehand fresh modelName trace input :
  let '(r, trace') := expedia stagehand fresh modelName trace in
  ∃ calls,
    trace' = trace ++ calls
    ∧ head calls = Some (Init modelName)
    ∧ match settle stagehand trace (Init modelName) with
      | Rejected reason => calls = [Init modelName] ∧ r = Thrown (JsError reason)
      | Fulfilled _ =>
          closes calls = 1%nat
          ∧ last calls = Some Close
          ∧ match r with
            | Thrown e =>
                ∃ reason,
                  settle stagehand (trace ++ removelast calls) Close = Rejected reason
                  ∧ e = JsError reason
            | Returned value =>
                let scored := {| input := input; output := value;
                                 expected := Undefined |} in
                score (errorMatch scored) = 0%Z
                ∧ ((length calls = 9%nat
                    ∧ value
                      = result fresh
                          (String.prefix "https://www.expedia.com/Checkout/"
                             (page_url stagehand (trace ++ take 7 calls)))
                          None)
                   ∨ ((length calls < 9)%nat
                      ∧ value = Undefined
                      ∧ score (exactMatch scored) = 0%Z))
            end
      end.
Proof.
  destruct (expedia stagehand fresh modelName trace) as [r trace'] eqn:Hrun.
  revert Hrun. unfold expedia.
  step; [|by finish].
  do 6 (step; [|step; by finish]).
  step; by finish.
Qed.

(** [peeler_complex] closes the context once, at the end of every run that
    has got past [initStagehand], and throws only if this close is rejected.
    A run in which a step is rejected is logged and returns an unsuccessful
    result that carries the error, which the error rate counts. *)
Theorem peeler_complex_reports_failures stagehand fresh modelName trace input :
  let '(r, trace') := peeler_complex stagehand fresh modelName trace in
  ∃ calls,
    trace' = trace ++ calls
    ∧ head calls = Some (Init modelName)
    ∧ match settle stagehand trace (Init modelName) with
      | Rejected reason => calls = [Init modelName] ∧ r = Thrown (JsError reason)
      | Fulfilled _ =>
          closes calls = 1%nat
          ∧ last calls = Some Close
          ∧ match r with
            | Thrown e =>
                ∃ reason,
                  settle stagehand (trace ++ removelast calls) Close = Rejected reason
                  ∧ e = JsError reason
            | Returned value =>
                let scored := {| input := input; output := value;
                                 expected := Undefined |} in
                (∃ price,
                   length calls = 6%nat
                   ∧ extract_price stagehand (trace ++ take 4 calls) = Fulfilled price
                   ∧ value
                     = result fresh
                         match price with
                         | Some price => PrimFloat.eqb price 11.99
                         | None => false
                         end
                         None
                   ∧ score (errorMatch scored) = 0%Z)
                ∨ (∃ reason,
                     last (removelast calls)
                     = Some (LoggerError "error in peeler_complex function")
                     ∧ value
                       = result fresh false
                           (Some (json_of stagehand (JsError reason)))
                     ∧ score (exactMatch scored) = 0%Z
                     ∧ score (errorMatch scored) = 1%Z)
            end
      end.
Proof.
  destruct (peeler_complex stagehand fresh modelName trace) as [r trace'] eqn:Hrun.
  revert Hrun. unfold peeler_complex, logger_error.
  step; [|by finish].
  do 4 (step; [|step; finish; right; conclude]).
  step; finish. left. conclude.
Qed.

(** [costar] closes the context in its [try] block and again in its
    [finally] block: a run that gets as far as the first close makes two, and
    every other run that has got past [initStagehand] makes one.  A run in
    which a step is rejected, the first close among them, returns an
    unsuccessful result without an error, which the error rate does not
    count. *)
Theorem costar_closes_twice stagehand fresh modelName trace input :
  let '(r, trace') := costar stagehand fresh modelName trace in
  ∃ calls,
    trace' = trace ++ calls
    ∧ head calls = Some (Init modelName)
    ∧ match settle stagehand trace (Init modelName) with
      | Rejected reason => calls = [Init modelName] ∧ r = Thrown (JsError reason)
      | Fulfilled _ =>
          last calls = Some Close
          ∧ closes calls
            = (if bool_decide (LoggerLog "got article title" ∈ calls)
               then 2 else 1)%nat
          ∧ match r with
            | Thrown e =>
                ∃ reason,
                  settle stagehand (trace ++ removelast calls) Close = Rejected reason
                  ∧ e = JsError reason
            | Returned value =>
                let scored := {| input := input; output := value;
                                 expected := Undefined |} in
                score (errorMatch scored) = 0%Z
                ∧ ((∃ title,
                      length calls = 8%nat
                      ∧ extract_title stagehand (trace ++ take 4 calls)
                        = Fulfilled title
                      ∧ value
                        = result fresh
                            match title with
                            | Some title => bool_decide (5 < length title)
                            | None => false
                            end
                            None)
                   ∨ (last (removelast calls)
                      = Some (LoggerError "error in costar function")
                      ∧ value = result fresh false None))
            end
      end.
Proof.
  destruct (costar stagehand fresh modelName trace) as [r trace'] eqn:Hrun.
  revert Hrun. unfold costar, logger_error, logger_log.
  step; [|by finish].
  do 4 (step; [|step; finish; right; conclude]).
  step; [|step; finish; right; conclude].
  step; finish. left. conclude.
Qed.

(** [extract_github_commits] lets a rejected close pass, in its [try] block
    and in its [catch] block: once past [initStagehand] it does not throw, and
    it closes the context once, at the end.  It reports success exactly when
    the extraction gives twenty commits. *)
Theorem extract_github_commits_never_throws stagehand fresh modelName trace :
  let '(r, trace') := extract_github_commits stagehand fresh modelName trace in
  ∃ calls,
    trace' = trace ++ calls
    ∧ head calls = Some (Init modelName)
    ∧ match settle stagehand trace (Init modelName) with
      | Rejected reason => calls = [Init modelName] ∧ r = Thrown (JsError reason)
      | Fulfilled _ =>
          closes calls = 1%nat
          ∧ last calls = Some Close
          ∧ ∃ value,
              r = Returned value
              ∧ ((∃ commits,
                    length calls = 6%nat
                    ∧ extract_commits stagehand (trace ++ take 3 calls)
                      = Fulfilled commits
                    ∧ value
                      = result fresh (bool_decide (length commits = 20)) None)
                 ∨ (∃ reason,
                      (length calls < 6)%nat
                      ∧ value
                        = result fresh false
                            (Some (json_of stagehand (JsError reason)))))
      end.
Proof.
  destruct (extract_github_commits stagehand fresh modelName trace)
    as [r trace'] eqn:Hrun.
  revert Hrun. unfold extract_github_commits, logger_error, logger_log.
  step; [|by finish].
  do 3 (step; [|step; finish; eexists; (split; [reflexivity|]); right; conclude]).
  step; finish; eexists; (split; [reflexivity|]); left; conclude.
Qed.

(** *** [arxiv] *)

Lemma last_tail1 {A} (x : A) l y : last (x :: l ++ [y]) = Some y.
Proof. by rewrite app_comm_cons, last_snoc. Qed.

Lemma last_tail2 {A} (x : A) l y z : last (x :: l ++ [y; z]) = Some z.
Proof.
  replace (x :: l ++ [y; z]) with ((x :: l ++ [y]) ++ [z])
    by (simpl; by rewrite <- app_assoc).
  apply last_snoc.
Qed.

Lemma removelast_tail1 {A} (x : A) l y : removelast (x :: l ++ [y]) = x :: l.
Proof. by rewrite app_comm_cons, removelast_last. Qed.

Lemma removelast_tail2 {A} (x : A) l y z :
  removelast (x :: l ++ [y; z]) = x :: l ++ [y].
Proof.
  replace (x :: l ++ [y; z]) with ((x :: l ++ [y]) ++ [z])
    by (simpl; by rewrite <- app_assoc).
  apply removelast_last.
Qed.

(** A paper with a link is visited and pushed; a paper without is passed
    over.  No visit closes the context. *)
Lemma arxiv_visit_run stagehand paper visited trace :
  let '(r, trace') := arxiv_visit stagehand paper visited trace in
  ∃ calls,
    trace' = trace ++ calls
    ∧ closes calls = 0%nat
    ∧ match r with
      | Returned visited' =>
          if truthy (link paper)
          then ∃ abstract,
                 visited'
                 = visited ++ [ {| paper_title := title paper;
                                   paper_link := default "" (link paper);
                                   paper_abstract := abstract |} ]
          else visited' = visited
      | Thrown e => ∃ reason, e = JsError reason
      end.
Proof.
  destruct (arxiv_visit stagehand paper visited trace) as [r trace'] eqn:Hrun.
  revert Hrun. unfold arxiv_visit.
  destruct (link paper) as [[|c l]|]; simpl truthy; cbn [default].
  - intros [= <- <-]. exists []. by rewrite app_nil_r.
  - step.
    2:{ intros [= <- <-]. eexists [_]. split; [done|]. split; [done|]. eauto. }
    step.
    2:{ intros [= <- <-]. eexists [_; _]. rewrite <- app_assoc.
        split; [done|]. split; [done|]. eauto. }
    intros [= <- <-]. eexists [_; _]. rewrite <- app_assoc.
    split; [done|]. split; [done|]. eauto.
  - intros [= <- <-]. exists []. by rewrite app_nil_r.
Qed.

Lemma arxiv_loop_run stagehand links visited trace :
  let '(r, trace') := forOf links (arxiv_visit stagehand) visited trace in
  ∃ calls,
    trace' = trace ++ calls
    ∧ closes calls = 0%nat
    ∧ match r with
      | Returned visited' =>
          ∃ added,
            visited' = visited ++ added
            ∧ paper_title <$> added
              = title <$> filter (λ paper, truthy (link paper) = true) links
      | Thrown e => ∃ reason, e = JsError reason
      end.
Proof.
  revert visited trace.
  induction links as [|paper links IH]; intros visited trace.
  { simpl. exists []. rewrite app_nil_r. split; [done|]. split; [done|].
    exists []. by rewrite app_nil_r. }
  simpl forOf. rewrite run_bind.
  pose proof (arxiv_visit_run stagehand paper visited trace) as Hvisit.
  destruct (arxiv_visit stagehand paper visited trace) as [[visited1|e] trace1].
  2:{ destruct Hvisit as (calls & -> & Hcloses & Hthrown). by exists calls. }
  destruct Hvisit as (calls1 & -> & Hcloses1 & Hvisited).
  specialize (IH visited1 (trace ++ calls1)).
  destruct (forOf links (arxiv_visit stagehand) visited1 (trace ++ calls1))
    as [[visited2|e] trace2].
  2:{ destruct IH as (calls2 & -> & Hcloses2 & Hthrown).
      exists (calls1 ++ calls2). rewrite app_assoc, closes_app, Hcloses1, Hcloses2.
      done. }
  destruct IH as (calls2 & -> & Hcloses2 & added & -> & Hadded).
  exists (calls1 ++ calls2). rewrite app_assoc, closes_app, Hcloses1, Hcloses2.
  split; [done|]. split; [done|].
  destruct (truthy (link paper)) eqn:Hlink.
  - destruct Hvisited as [abstract ->]. eexists (_ :: added).
    rewrite <- app_assoc. split; [done|].
    rewrite filter_cons_True by done. by rewrite !fmap_cons, Hadded.
  - subst visited1. exists added. split; [done|].
    rewrite filter_cons_False by (by rewrite Hlink). done.
Qed.

(** The [try] block: it makes no call that closes the context, it throws
    only what a call has been rejected with, and what it returns is
    successful without an error, or unsuccessful with one of two errors or
    none. *)
Lemma arxiv_try_run stagehand fresh trace :
  let '(r, trace') := arxiv_try stagehand fresh trace in
  ∃ calls,
    trace' = trace ++ calls
    ∧ closes calls = 0%nat
    ∧ match r with
      | Returned value =>
          value = result fresh true None
          ∨ value = result fresh false None
          ∨ (value = result fresh false (Some "Incorrect number of papers extracted")
             ∧ last calls = Some (LoggerError "incorrect number of papers extracted"))
          ∨ (value = result fresh false (Some "Incomplete paper information")
             ∧ last calls = Some (LoggerError "paper missing problem or methodology"))
      | Thrown e => ∃ reason, e = JsError reason
      end.
Proof.
  destruct (arxiv_try stagehand fresh trace) as [r trace'] eqn:Hrun.
  revert Hrun. unfold arxiv_try, logger_error.
  step.
  2:{ intros [= <- <-]. eexists [_]. split; [done|]. split; [done|]. eauto. }
  step.
  2:{ intros [= <- <-]. eexists [_; _]. rewrite <- app_assoc.
      split; [done|]. split; [done|]. eauto. }
  step.
  2:{ intros [= <- <-]. eexists [_; _; _]. rewrite <- !app_assoc.
      split; [done|]. split; [done|]. eauto. }
  rewrite <- !app_assoc. cbn [app].
  destruct (a ≫= papers) as [[|paper links]|] eqn:Hpapers.
  1,3: intros [= <- <-]; eexists [_; _; _]; split; [done|]; split; [done|]; auto.
  rewrite run_bind.
  match goal with
  | |- context [forOf ?l ?f ?v ?t] =>
      pose proof (arxiv_loop_run stagehand l v t) as Hloop;
      destruct (forOf l f v t) as [[visited|e] trace1]
  end.
  2:{ destruct Hloop as (calls & -> & Hcloses & Hthrown). intros [= <- <-].
      eexists (_ :: _ :: _ :: calls). rewrite <- app_assoc. split; [done|].
      split; [|done]. by rewrite !closes_cons_ne. }
  destruct Hloop as (calls & -> & Hcloses & _).
  assert (closes ([Goto "https://arxiv.org/search/";
                   Act "search for the recent papers about web agents with multimodal models" [];
                   Extract "extract the titles and links for two papers"
                     (Some "gpt-4o-2024-08-06")] ++ calls) = 0%nat) as Hquiet
    by (cbn [app]; by rewrite !closes_cons_ne).
  repeat case_bool_decide; unfold_run.
  - intros [= <- <-]. eexists. rewrite <- app_assoc. split; [done|].
    split; [exact Hquiet|]. auto.
  - intros [= <- <-]. eexists. rewrite <- !app_assoc. split; [done|].
    split.
    { rewrite app_assoc, closes_app, Hquiet. done. }
    right. right. left. split; [done|]. by rewrite app_assoc, last_snoc.
  - destruct (find incomplete visited) as [paper'|]; unfold_run; intros [= <- <-].
    + eexists. rewrite <- !app_assoc. split; [done|].
      split.
      { rewrite app_assoc, closes_app, Hquiet. done. }
      right. right. right. split; [done|]. by rewrite app_assoc, last_snoc.
    + eexists. rewrite <- app_assoc. split; [done|].
      split; [exact Hquiet|]. auto.
Qed.

(** [arxiv] closes the context once, at the end of every run that has got
    past [initStagehand], and throws only if this close is rejected.  What a
    call in the [try] block is rejected with is logged and not returned: such
    a run returns an unsuccessful result without an error, which the error
    rate does not count.  The only errors [arxiv] returns are the two of its
    own checks. *)
Theorem arxiv_closes_once stagehand fresh modelName trace input :
  let '(r, trace') := arxiv stagehand fresh modelName trace in
  ∃ calls,
    trace' = trace ++ calls
    ∧ head calls = Some (Init modelName)
    ∧ match settle stagehand trace (Init modelName) with
      | Rejected reason => calls = [Init modelName] ∧ r = Thrown (JsError reason)
      | Fulfilled _ =>
          closes calls = 1%nat
          ∧ last calls = Some Close
          ∧ match r with
            | Thrown e =>
                ∃ reason,
                  settle stagehand (trace ++ removelast calls) Close = Rejected reason
                  ∧ e = JsError reason
            | Returned value =>
                let scored := {| input := input; output := value;
                                 expected := Undefined |} in
                (value = result fresh true None
                 ∨ value = result fresh false None
                 ∨ value = result fresh false
                             (Some "Incorrect number of papers extracted")
                 ∨ value = result fresh false (Some "Incomplete paper information"))
                ∧ match (arxiv_try stagehand fresh (trace ++ [Init modelName])).1 with
                  | Returned value' => value = value'
                  | Thrown _ =>
                      value = result fresh false None
                      ∧ last (removelast calls)
                        = Some (LoggerError "error in arxiv function")
                      ∧ score (exactMatch scored) = 0%Z
                      ∧ score (errorMatch scored) = 0%Z
                  end
            end
      end.
Proof.
  destruct (arxiv stagehand fresh modelName trace) as [r trace'] eqn:Hrun.
  revert Hrun. unfold arxiv, logger_error.
  rewrite run_bind, run_perform.
  destruct (settle stagehand trace (Init modelName)) as [[]|reason] eqn:Hinit.
  2:{ intros [= <- <-]. by exists [Init modelName]. }
  rewrite run_tryFinally, run_tryCatch.
  pose proof (arxiv_try_run stagehand fresh (trace ++ [Init modelName])) as Htry.
  destruct (arxiv_try stagehand fresh (trace ++ [Init modelName]))
    as [[value|e] trace1].
  - destruct Htry as (calls & -> & Hquiet & Hvalue). cbn [fst snd].
    rewrite run_perform.
    destruct (settle stagehand ((trace ++ [Init modelName]) ++ calls) Close)
      as [[]|reason] eqn:Hclose; intros [= <- <-];
      exists (Init modelName :: calls ++ [Close]);
      (split; [by rewrite <- !app_assoc|]); (split; [done|]);
      (split; [by rewrite closes_cons_ne, closes_app, Hquiet|]);
      (split; [by rewrite last_tail1|]).
    + split; [|done]. destruct Hvalue as [->|[->|[[-> _]|[-> _]]]]; auto.
    + exists reason. rewrite removelast_tail1.
      rewrite <- app_assoc in Hclose. done.
  - destruct Htry as (calls & -> & Hquiet & _). cbn [fst snd].
    unfold_run.
    destruct (settle stagehand
                (((trace ++ [Init modelName]) ++ calls)
                 ++ [LoggerError "error in arxiv function"]) Close)
      as [[]|reason] eqn:Hclose; intros [= <- <-];
      exists (Init modelName
              :: calls ++ [LoggerError "error in arxiv function"; Close]);
      (split; [by rewrite <- !app_assoc|]); (split; [done|]);
      (split; [by rewrite closes_cons_ne, closes_app, Hquiet|]);
      (split; [by rewrite last_tail2|]).
    + split; [auto|]. split; [done|].
      rewrite removelast_tail2, last_tail1. done.
    + exists reason. rewrite removelast_tail2.
      rewrite <- !app_assoc in Hclose. done.
Qed.

(** When [arxiv] succeeds: the search and the first extraction are answered,
    the list of papers is there, every paper of the list that has a link is
    visited and its abstract extracted, these are two papers, and each of the
    two abstracts has a problem and a methodology that is not empty. *)
Theorem arxiv_success_criterion stagehand fresh trace :
  let search :=
    [ Goto "https://arxiv.org/search/";
      Act "search for the recent papers about web agents with multimodal models"
        [] ] in
  let listing :=
    Extract "extract the titles and links for two papers"
      (Some "gpt-4o-2024-08-06") in
  (arxiv_try stagehand fresh trace).1 = Returned (result fresh true None)
  ↔ ∃ links visited,
      settle stagehand trace (Goto "https://arxiv.org/search/") = Fulfilled tt
      ∧ settle stagehand (trace ++ take 1 search)
          (Act "search for the recent papers about web agents with multimodal models"
             [])
        = Fulfilled tt
      ∧ extract_papers stagehand (trace ++ search)
        = Fulfilled (Some {| papers := Some links |})
      ∧ (forOf links (arxiv_visit stagehand) [] (trace ++ search ++ [listing])).1
        = Returned visited
      ∧ length visited = 2%nat
      ∧ paper_title <$> visited
        = title <$> filter (λ paper, truthy (link paper) = true) links
      ∧ Forall (λ paper,
                  truthy (problem (paper_abstract paper)) = true
                  ∧ truthy (methodology (paper_abstract paper)) = true)
          visited.
Proof.
  intros search listing. subst search listing. cbn [take app].
  unfold arxiv_try, logger_error, result. split.
  - step; [|done]. step; [|done]. step; [|done].
    rewrite <- !app_assoc. cbn [app].
    destruct a as [[[links|]]|]; cbn [mbind option_bind papers]; [|done..].
    destruct links as [|paper links]; [done|].
    rewrite run_bind.
    match goal with
    | |- context [forOf ?l ?f ?v ?t] =>
        pose proof (arxiv_loop_run stagehand l v t) as Hloop;
        destruct (forOf l f v t) as [[visited|e] trace1] eqn:Hfor
    end; [|done].
    destruct Hloop as (calls & -> & _ & added & -> & Htitles).
    rewrite app_nil_l in *.
    repeat case_bool_decide; unfold_run; try done.
    destruct (find incomplete added) as [paper'|] eqn:Hfind; unfold_run; [done|].
    intros _. exists (paper :: links), added.
    split; [done|]. split; [done|].
    split; [by rewrite <- app_assoc in Hcall1|].
    split; [exact (f_equal fst Hfor)|].
    split; [lia|].
    split; [done|].
    apply Forall_forall. intros visited Hin.
    pose proof (find_none _ _ Hfind visited) as Hcomplete.
    rewrite <- list_elem_of_In in Hcomplete. specialize (Hcomplete Hin).
    unfold incomplete in Hcomplete. apply orb_false_iff in Hcomplete as [H1 H2].
    by apply negb_false_iff in H1, H2.
  - intros (links & visited & Hgoto & Hact & Hextract & Hloop & Hlen & _ & Hcomplete).
    unfold_run. rewrite Hgoto. unfold_run. rewrite Hact. unfold_run.
    rewrite <- !app_assoc. cbn [app]. rewrite Hextract. unfold_run.
    cbn [mbind option_bind papers].
    destruct links as [|paper links].
    { simpl in Hloop. injection Hloop as <-. done. }
    rewrite run_bind. rewrite <- ?app_assoc. cbn [app].
    destruct (forOf (paper :: links) (arxiv_visit stagehand) [] _)
      as [[visited'|e] trace1]; simpl in Hloop; [|done].
    injection Hloop as ->.
    rewrite bool_decide_eq_false_2 by (rewrite Hlen; lia).
    rewrite bool_decide_eq_false_2 by (rewrite Hlen; intros H; by apply H).
    destruct (find incomplete visited) as [paper'|] eqn:Hfind; [|done].
    apply find_some in Hfind as [Hin Hbad].
    rewrite Forall_forall in Hcomplete. rewrite <- list_elem_of_In in Hin.
    destruct (Hcomplete paper' Hin) as [H1 H2].
    unfold incomplete in Hbad. by rewrite H1, H2 in Hbad.
Qed.

(** Runs in the two sessions of [EvalCases]. *)
Example arxiv_successful_run :
  arxiv EvalCases.cooperative 1%positive "gpt-4o" []
  = (Returned (result 1%positive true None),
     [ Init "gpt-4o";
       Goto "https://arxiv.org/search/";
       Act "search for the recent papers about web agents with multimodal models" [];
       Extract "extract the titles and links for two papers" (Some "gpt-4o-2024-08-06");
       Goto "https://arxiv.org/abs/2307.13854";
       Extract "extract details of the paper from the abstract"
         (Some "gpt-4o-2024-08-06");
       Goto "https://arxiv.org/abs/2401.01614";
       Extract "extract details of the paper from the abstract"
         (Some "gpt-4o-2024-08-06");
       Close ]).
Proof. vm_compute. reflexivity. Qed.

Example arxiv_failed_run :
  arxiv EvalCases.stubborn 1%positive "gpt-4o" []
  = (Returned (result 1%positive false None),
     [ Init "gpt-4o";
       Goto "https://arxiv.org/search/";
       Act "search for the recent papers about web agents with multimodal models" [];
       LoggerError "error in arxiv function";
       Close ]).
Proof. vm_compute. reflexivity. Qed.

Example wikipedia_failed_run :
  wikipedia EvalCases.stubborn 1%positive "gpt-4o" []
  = (Thrown (JsError "Timeout 30000ms exceeded."),
     [ Init "gpt-4o";
       Goto "https://en.wikipedia.org/wiki/Baseball";
       Act ("click the " +:+ quote +:+ "hit and run" +:+ quote
            +:+ " link in this article") [] ])
  ∧ (wikipedia EvalCases.cooperative 1%positive "gpt-4o" []).1
    = Returned (result 1%positive true None).
Proof. split; vm_compute; reflexivity. Qed.

Example expedia_failed_run :
  expedia EvalCases.stubborn 1%positive "gpt-4o" []
  = (Returned Undefined,
     [ Init "gpt-4o";
       Goto "https://www.expedia.com/flights";
       Act "find round-trip flights from San Francisco (SFO) to Toronto (YYZ) for Jan 1, 2025 (up to one to two weeks)" [];
       Close ]).
Proof. vm_compute. reflexivity. Qed.

Example costar_successful_run :
  (costar EvalCases.cooperative 1%positive "gpt-4o" []).1
  = Returned (result 1%positive true None)
  ∧ closes (costar EvalCases.cooperative 1%positive "gpt-4o" []).2 = 2%nat.
Proof. split; vm_compute; reflexivity. Qed.

End EvalFunctions.
(* ------------------------------------------------------------------------- *)
(** ** What the vendor is sent and the cache key does not hold *)

Section OutsideTheKey.

(** The [cacheOptions] of the OpenAI client hold neither [tools] nor
    [maxTokens], which the request does hold.  A call that differs from a
    call answered earlier in these two, and in the request id, has the key of
    the earlier call: it is answered from the cache with what the earlier
    call has stored, and its own request, with its own tools and its own
    limit, is not sent. *)
Theorem openai_tools_outside_cache_identity (this : OpenAI.OpenAIClient)
    (options : LLM.ChatCompletionOptions) tools maxTokens requestId
    (w : OpenAI.World) value :
  OpenAI.cache this = true →
  OpenAI.cached this options w = Some value →
  let options' :=
    {| LLM.messages := LLM.messages options;
       LLM.temperature := LLM.temperature options;
       LLM.top_p := LLM.top_p options;
       LLM.frequency_penalty := LLM.frequency_penalty options;
       LLM.presence_penalty := LLM.presence_penalty options;
       LLM.image := LLM.image options;
       LLM.response_model := LLM.response_model options;
       LLM.tools := tools;
       LLM.maxTokens := maxTokens;
       LLM.requestId := requestId |} in
  OpenAI.fingerprint this options' w = OpenAI.fingerprint this options w
  ∧ (∃ w', OpenAI.createChatCompletion this options' w = (Returned value, w')
           ∧ LLM.sameButLogs w' w)
  ∧ (∀ messages,
       OpenAI.body_tools (OpenAI.body this options' messages)
       = (λ tools, List.filter OpenAI.isFunctionTool tools) <$> tools
       ∧ OpenAI.body_maxTokens (OpenAI.body this options' messages) = maxTokens).
Proof.
  intros Hcache Hhit options'.
  assert (OpenAI.fingerprint this options' w = OpenAI.fingerprint this options w)
    as Hkey by done.
  split; [done|]. split; [|done].
  apply openai_hit; [done|].
  unfold OpenAI.cached in *. by rewrite Hkey.
Qed.

Lemma openai_tools_outside_cache_identity_witness :
  ∃ w',
    OpenAI.createChatCompletion OpenAIScenario.gpt
      {| LLM.messages := 1%positive;
         LLM.temperature := Some 0.1%float;
         LLM.top_p := Some 1%float;
         LLM.frequency_penalty := Some 0%float;
         LLM.presence_penalty := Some 0%float;
         LLM.image :=
           Some {| LLM.buffer := "/9j/4AAQSkZJRg==";
                   LLM.description := Some "the page" |};
         LLM.response_model := None;
         LLM.tools :=
           Some [ LLM.FunctionTool
                    {| LLM.function_name := "get_repository";
                       LLM.function_description := None;
                       LLM.function_parameters :=
                         {| LLM.schema_properties := None;
                            LLM.schema_required := None |} |} ];
         LLM.maxTokens := Some 64%float;
         LLM.requestId := Some "req-4" |}
      OpenAIScenario.warmWorld
    = (Returned (OpenAI.Raw OpenAIScenario.completion), w')
    ∧ LLM.sameButLogs w' OpenAIScenario.warmWorld.
Proof.
  destruct (openai_tools_outside_cache_identity OpenAIScenario.gpt
              OpenAIScenario.optionsWithImage
              (Some [ LLM.FunctionTool
                        {| LLM.function_name := "get_repository";
                           LLM.function_description := None;
                           LLM.function_parameters :=
                             {| LLM.schema_properties := None;
                                LLM.schema_required := None |} |} ])
              (Some 64%float) (Some "req-4")
              OpenAIScenario.warmWorld (OpenAI.Raw OpenAIScenario.completion)
              eq_refl (lookup_singleton_eq _ _))
    as (_ & Hrun & _).
  exact Hrun.
Defined.

(** The [cacheOptions] of the Anthropic client hold the tools, but not
    [maxTokens], which the request holds as [max_tokens]: a call that differs
    from a call answered earlier in this limit alone is answered from the
    cache. *)
Theorem anthropic_maxTokens_outside_cache_identity (this : Anthropic.AnthropicClient)
    (options : Anthropic.Options) maxTokens (w : Anthropic.World) value :
  Anthropic.cache this = true →
  Anthropic.cached this options w = Some value →
  let options' :=
    {| Anthropic.base :=
         {| LLM.messages := LLM.messages (Anthropic.base options);
            LLM.temperature := LLM.temperature (Anthropic.base options);
            LLM.top_p := LLM.top_p (Anthropic.base options);
            LLM.frequency_penalty := LLM.frequency_penalty (Anthropic.base options);
            LLM.presence_penalty := LLM.presence_penalty (Anthropic.base options);
            LLM.image := LLM.image (Anthropic.base options);
            LLM.response_model := LLM.response_model (Anthropic.base options);
            LLM.tools := LLM.tools (Anthropic.base options);
            LLM.maxTokens := maxTokens;
            LLM.requestId := LLM.requestId (Anthropic.base options) |};
       Anthropic.retries := Anthropic.retries options |} in
  Anthropic.fingerprint this options' w = Anthropic.fingerprint this options w
  ∧ (∃ w', Anthropic.createChatCompletion this options' w = (Returned value, w')
           ∧ LLM.sameButLogs w' w)
  ∧ Anthropic.req_max_tokens (Anthropic.request this options' w)
    = Anthropic.maxTokensOr maxTokens 1500
  ∧ Anthropic.req_tools (Anthropic.request this options' w)
    = Anthropic.req_tools (Anthropic.request this options w).
Proof.
  intros Hcache Hhit options'.
  assert (Anthropic.fingerprint this options' w
          = Anthropic.fingerprint this options w) as Hkey by done.
  split; [done|]. split; [|done].
  destruct (invocation_hit this options' w value) as (w' & Hrun & Hsame); [done| |].
  { unfold Anthropic.cached in *. by rewrite Hkey. }
  exists w'. by rewrite createChatCompletion_eq, Hrun.
Qed.

Lemma anthropic_maxTokens_outside_cache_identity_witness :
  let warm :=
    LLM.setCache
      {[ Anthropic.fingerprint AnthropicScenario.obedient AnthropicScenario.options
           AnthropicScenario.world
         := Anthropic.Structured "{stars: 1000}" ]}
      AnthropicScenario.world in
  ∃ w',
    Anthropic.createChatCompletion AnthropicScenario.obedient
      {| Anthropic.base :=
           {| LLM.messages := 1%positive;
              LLM.temperature := Some 0.1%float;
              LLM.top_p := None;
              LLM.frequency_penalty := None;
              LLM.presence_penalty := None;
              LLM.image := None;
              LLM.response_model :=
                Some {| LLM.name := "Extraction"; LLM.schema := Scenario.starsSchema |};
              LLM.tools := None;
              LLM.maxTokens := Some 64%float;
              LLM.requestId := Some "req-1" |};
         Anthropic.retries := None |}
      warm
    = (Returned (Anthropic.Structured "{stars: 1000}"), w')
    ∧ LLM.sameButLogs w' warm.
Proof.
  intros warm.
  destruct (anthropic_maxTokens_outside_cache_identity AnthropicScenario.obedient
              AnthropicScenario.options (Some 64%float) warm
              (Anthropic.Structured "{stars: 1000}")
              eq_refl (lookup_singleton_eq _ _))
    as (_ & Hrun & _).
  exact Hrun.
Defined.

End OutsideTheKey.
